(** * Sarasota arrest scraper: a shallow embedding and its properties

    The development follows [sarasota_scraper.py] and
    [sarasota_scraper_v2.py].  Python values are modelled as follows.

    - [str] is [string]; the model covers ASCII text, and a character
      above 127 is an opaque symbol (no digit, no white space, no case).
    - [Optional[str]] is [option string].
    - an exception is a value of [exn]; a call that may raise returns
      [result].
    - the browser page, the retried session and the spreadsheet are
      collaborators: they enter as explicit states and oracles. *)

From Stdlib Require Import ZArith String Ascii List Bool Lia.
From Stdlib Require Import DecimalString.
From stdpp Require Import gmap strings list.

Local Open Scope string_scope.
Local Open Scope list_scope.

#[local] Set Warnings "-clear-no-such-hyp".

(** ** Exceptions and results *)

Inductive exn : Type :=
| ValueError (msg : string)
| OverflowError (msg : string)
| PWTimeoutError (msg : string)
| OtherError (msg : string).

Inductive result (A : Type) : Type :=
| Ok (a : A)
| Raise (e : exn).
Arguments Ok {A} a.
Arguments Raise {A} e.

Definition bind {A B} (r : result A) (f : A -> result B) : result B :=
  match r with
  | Ok a => f a
  | Raise e => Raise e
  end.

Notation "'let*' x ':=' r 'in' k" := (bind r (fun x => k))
  (at level 10, x name, r at level 100, k at level 200).

Definition is_ok {A} (r : result A) : bool :=
  match r with Ok _ => true | Raise _ => false end.

Definition is_value_error {A} (r : result A) : bool :=
  match r with Raise (ValueError _) => true | _ => false end.

(** ** Characters and strings *)

Module Str.

Definition nl : ascii := "010"%char.
Definition nls : string := String nl EmptyString.

(** [str.isspace] on ASCII: TAB..CR, FS..US and the space. *)
Definition isspace (c : ascii) : bool :=
let n := nat_of_ascii c in
((9 <=? n)%nat && (n <=? 13)%nat) || ((28 <=? n)%nat && (n <=? 32)%nat).

Definition isdigit (c : ascii) : bool :=
let n := nat_of_ascii c in (48 <=? n)%nat && (n <=? 57)%nat.

Definition isupper (c : ascii) : bool :=
let n := nat_of_ascii c in (65 <=? n)%nat && (n <=? 90)%nat.

Definition islower (c : ascii) : bool :=
let n := nat_of_ascii c in (97 <=? n)%nat && (n <=? 122)%nat.

Definition isalnum (c : ascii) : bool := isdigit c || isupper c || islower c.

Definition lower_char (c : ascii) : ascii :=
if isupper c then ascii_of_nat (nat_of_ascii c + 32) else c.

Fixpoint lower (s : string) : string :=
match s with
| EmptyString => EmptyString
| String c t => String (lower_char c) (lower t)
end.

Fixpoint rev_onto (s acc : string) : string :=
match s with
| EmptyString => acc
| String c t => rev_onto t (String c acc)
end.

Definition rev (s : string) : string := rev_onto s EmptyString.

Fixpoint lstrip (s : string) : string :=
match s with
| EmptyString => EmptyString
| String c t => if isspace c then lstrip t else s
end.

Definition rstrip (s : string) : string := rev (lstrip (rev s)).

(** [s.strip()] *)
Definition strip (s : string) : string := rstrip (lstrip s).

Fixpoint take (n : nat) (s : string) : string :=
match n, s with
| S n', String c t => String c (take n' t)
| _, _ => EmptyString
end.

Fixpoint drop (n : nat) (s : string) : string :=
match n, s with
| S n', String _ t => drop n' t
| _, _ => s
end.

Fixpoint all (p : ascii -> bool) (s : string) : bool :=
match s with
| EmptyString => true
| String c t => p c && all p t
end.

(** [sub in s] *)
Fixpoint contains (sub s : string) : bool :=
String.prefix sub s ||
match s with
| EmptyString => false
| String _ t => contains sub t
end.

(** [s.split('\n')]: the pieces between line feeds, empty ones kept. *)
Fixpoint split_lines_acc (s cur : string) : list string :=
match s with
| EmptyString => [rev cur]
| String c t =>
    if Ascii.eqb c nl then rev cur :: split_lines_acc t EmptyString
    else split_lines_acc t (String c cur)
end.

Definition split_lines (s : string) : list string :=
split_lines_acc s EmptyString.

(** [not s] for a string: the empty string is falsy. *)
Definition truthy (s : string) : bool :=
match s with EmptyString => false | _ => true end.

Definition digit_val (c : ascii) : Z := Z.of_nat (nat_of_ascii c) - 48.

Fixpoint int_acc (s : string) (acc : Z) : Z :=
match s with
| EmptyString => acc
| String c t => int_acc t (10 * acc + digit_val c)
end.

(** [int(s)] for decimal digits after optional leading blanks. *)
Definition int (s : string) : Z := int_acc (lstrip s) 0.

Definition digit_char (d : Z) : ascii := ascii_of_nat (Z.to_nat (d + 48)).

(** Zero-padded decimal of width 2 and 4, as "%02d" and "%04d" print
  numbers below 100 and below 10000. *)
Definition pad2 (n : Z) : string :=
String (digit_char (n / 10 mod 10)) (String (digit_char (n mod 10)) EmptyString).

Definition pad4 (n : Z) : string :=
String (digit_char (n / 1000 mod 10))
  (String (digit_char (n / 100 mod 10)) (pad2 n)).

End Str.

(** ** Regular expressions: the backtracking matcher of [re]

    The patterns of the source are kept as syntax trees and run by a
    matcher with the search order of Python's [re]: alternatives left to
    right, repetitions greedy, first success wins. *)

Module Re.

Inductive regex : Type :=
| Chr (p : ascii -> bool)            (* one character of a class *)
| Eps
| Seq (r1 r2 : regex)
| Alt (r1 r2 : regex)
| Star (r : regex)                   (* r*, greedy *)
| Rep (r : regex) (lo hi : nat)      (* r{lo,hi}, greedy *)
| Group (i : nat) (r : regex)        (* capturing group number i *)
| Bol                                (* ^ *)
| Eol.                               (* $ *)

(** Matcher state: offset reached, text still to read, groups set so
  far (most recent binding first). *)
Record mstate : Type := MState {
pos : nat;
rest : string;
caps : list (nat * string)
}.

Definition advance (st : mstate) (t : string) : mstate :=
MState (S (pos st)) t (caps st).

Definition set_group (i : nat) (from to : mstate) : mstate :=
MState (pos to) (rest to)
  ((i, Str.take (pos to - pos from) (rest from)) :: caps to).

(** [$] without MULTILINE: at the end, or before a final line feed. *)
Definition at_eol (s : string) : bool :=
match s with
| EmptyString => true
| String c EmptyString => Ascii.eqb c Str.nl
| _ => false
end.

Definition orelse {A} (a b : option A) : option A :=
match a with Some _ => a | None => b end.

Section Matcher.
Context {A : Type}.

Fixpoint matchk (r : regex) (st : mstate) (k : mstate -> option A)
{struct r} : option A :=
match r with
| Chr p =>
  match rest st with
  | String c t => if p c then k (advance st t) else None
  | EmptyString => None
  end
| Eps => k st
| Seq r1 r2 => matchk r1 st (fun st1 => matchk r2 st1 k)
| Alt r1 r2 => orelse (matchk r1 st k) (matchk r2 st k)
| Star r1 =>
  (fix loop (fuel : nat) (st0 : mstate) : option A :=
     match fuel with
     | O => k st0
     | S fuel' =>
         orelse
           (matchk r1 st0 (fun st1 =>
              if (pos st0 <? pos st1)%nat then loop fuel' st1 else None))
           (k st0)
     end) (String.length (rest st)) st
| Rep r1 lo hi =>
  (fix loop (n : nat) (done : nat) (st0 : mstate) : option A :=
     match n with
     | O => if (lo <=? done)%nat then k st0 else None
     | S n' =>
         orelse
           (matchk r1 st0 (fun st1 => loop n' (S done) st1))
           (if (lo <=? done)%nat then k st0 else None)
     end) hi O st
| Group i r1 => matchk r1 st (fun st1 => k (set_group i st st1))
| Bol => if (pos st =? 0)%nat then k st else None
| Eol => if at_eol (rest st) then k st else None
end.
End Matcher.

(** [re.match(r, s)]: the match anchored at offset 0, if any. *)
Definition re_match (r : regex) (s : string) : option mstate :=
matchk r (MState 0 s []) Some.

(** [re.search(r, s)]: the leftmost match. *)
Fixpoint search_from (r : regex) (s : string) (i : nat) : option mstate :=
orelse (matchk r (MState i s []) Some)
  match s with
  | EmptyString => None
  | String _ t => search_from r t (S i)
  end.

Definition re_search (r : regex) (s : string) : option mstate :=
search_from r s 0.

(** Truth value of a match object. *)
Definition matched (m : option mstate) : bool :=
match m with Some _ => true | None => false end.

(** [m.group(i)] *)
Fixpoint lookup_group (i : nat) (cs : list (nat * string)) : option string :=
match cs with
| [] => None
| (j, v) :: cs' => if (i =? j)%nat then Some v else lookup_group i cs'
end.

Definition group (i : nat) (m : mstate) : option string :=
lookup_group i (caps m).

(** Pattern builders. *)
Definition chr (c : ascii) : regex := Chr (fun x => Ascii.eqb x c).
(** a literal under [re.I] *)
Definition chr_i (c : ascii) : regex :=
Chr (fun x => Ascii.eqb (Str.lower_char x) (Str.lower_char c)).
Definition range (a b : ascii) : regex :=
Chr (fun x => (nat_of_ascii a <=? nat_of_ascii x)%nat
              && (nat_of_ascii x <=? nat_of_ascii b)%nat).
Definition digit : regex := Chr Str.isdigit.          (* \d *)
Definition space : regex := Chr Str.isspace.          (* \s *)
Definition dot : regex := Chr (fun x => negb (Ascii.eqb x Str.nl)).
Definition plus (r : regex) : regex := Seq r (Star r).

Fixpoint lit (s : string) : regex :=
match s with
| EmptyString => Eps
| String c t => Seq (chr c) (lit t)
end.

Fixpoint lit_i (s : string) : regex :=
match s with
| EmptyString => Eps
| String c t => Seq (chr_i c) (lit_i t)
end.

Fixpoint seqs (rs : list regex) : regex :=
match rs with
| [] => Eps
| [r] => r
| r :: rs' => Seq r (seqs rs')
end.

Fixpoint alts (r : regex) (rs : list regex) : regex :=
match rs with
| [] => r
| r' :: rs' => Alt r (alts r' rs')
end.

End Re.

(** ** Calendar dates: the part of [datetime] the scraper uses *)

Module Datetime.

Local Open Scope Z_scope.

(** A [datetime] whose time of day is midnight, as [strptime] builds it
  from a format without time fields. *)
Record date : Type := Date { year : Z; month : Z; day : Z }.

Definition MINYEAR : Z := 1.
Definition MAXYEAR : Z := 9999.

Definition is_leap (y : Z) : bool :=
(y mod 4 =? 0) && (negb (y mod 100 =? 0) || (y mod 400 =? 0)).

Definition days_in_month (y m : Z) : Z :=
if m =? 2 then (if is_leap y then 29 else 28)
else if (m =? 4) || (m =? 6) || (m =? 9) || (m =? 11) then 30
else 31.

(** The check of the [date] constructor. *)
Definition valid_ymd (y m d : Z) : bool :=
(MINYEAR <=? y) && (y <=? MAXYEAR) && (1 <=? m) && (m <=? 12)
&& (1 <=? d) && (d <=? days_in_month y m).

Definition valid (x : date) : bool := valid_ymd (year x) (month x) (day x).

Definition days_before_year (y : Z) : Z :=
let p := y - 1 in p * 365 + p / 4 - p / 100 + p / 400.

Definition DAYS_BEFORE_MONTH : list Z :=
[-1; 0; 31; 59; 90; 120; 151; 181; 212; 243; 273; 304; 334].

(** Days of the year before the first of month [m]. *)
Definition days_before_month (y m : Z) : Z :=
nth (Z.to_nat m) DAYS_BEFORE_MONTH 0
+ (if (2 <? m) && is_leap y then 1 else 0).

(** [d.toordinal()]: 1 for 0001-01-01. *)
Definition toordinal (x : date) : Z :=
days_before_year (year x) + days_before_month (year x) (month x) + day x.

(** Comparison of two datetimes: field by field. *)
Definition date_ltb (a b : date) : bool :=
(year a <? year b)
|| ((year a =? year b)
    && ((month a <? month b)
        || ((month a =? month b) && (day a <? day b)))).

Definition date_eqb (a b : date) : bool :=
(year a =? year b) && (month a =? month b) && (day a =? day b).

Definition date_leb (a b : date) : bool := date_ltb a b || date_eqb a b.

(** [x + timedelta(days=1)]: the next calendar day; past 9999-12-31 the
  addition raises [OverflowError]. *)
Definition add_one_day (x : date) : result date :=
if day x <? days_in_month (year x) (month x)
then Ok (Date (year x) (month x) (day x + 1))
else if month x <? 12
then Ok (Date (year x) (month x + 1) 1)
else if year x <? MAXYEAR
then Ok (Date (year x + 1) 1 1)
else Raise (OverflowError "date value out of range").

(** Directive patterns of [_strptime]: %m, %d and %Y. *)
Definition gY : nat := 1.
Definition gm : nat := 2.
Definition gd : nat := 3.

Definition re_m : Re.regex :=
Re.Group gm
  (Re.alts (Re.Seq (Re.chr "1") (Re.range "0" "2"))
     [Re.Seq (Re.chr "0") (Re.range "1" "9");
      Re.range "1" "9"]).

Definition re_d : Re.regex :=
Re.Group gd
  (Re.alts (Re.Seq (Re.chr "3") (Re.range "0" "1"))
     [Re.Seq (Re.range "1" "2") Re.digit;
      Re.Seq (Re.chr "0") (Re.range "1" "9");
      Re.range "1" "9";
      Re.Seq (Re.chr " ") (Re.range "1" "9")]).

Definition re_Y : Re.regex :=
Re.Group gY (Re.seqs [Re.digit; Re.digit; Re.digit; Re.digit]).

(** The two formats of the source as directive lists. *)
Definition fmt_mdY : Re.regex :=                      (* "%m/%d/%Y" *)
Re.seqs [re_m; Re.chr "/"; re_d; Re.chr "/"; re_Y].

Definition fmt_Ymd : Re.regex :=                      (* "%Y-%m-%d" *)
Re.seqs [re_Y; Re.chr "-"; re_m; Re.chr "-"; re_d].

Definition group_int (i : nat) (m : Re.mstate) : Z :=
match Re.group i m with
| Some s => Str.int s
| None => 0
end.

(** [datetime.strptime(s, fmt)]: the format's pattern must match a
  prefix, nothing may remain, and the fields must form a date. *)
Definition strptime (fmt : Re.regex) (s : string) : result date :=
match Re.re_match fmt s with
| None => Raise (ValueError "time data does not match format")
| Some m =>
    if negb (Re.pos m =? String.length s)%nat
    then Raise (ValueError "unconverted data remains")
    else
      let y := group_int gY m in
      let mo := group_int gm m in
      let d := group_int gd m in
      if valid_ymd y mo d then Ok (Date y mo d)
      else Raise (ValueError "date out of range")
end.

(** [%Y] of [strftime], which Python hands to the C library.  The model
  follows glibc, the library of the platform the scraper is run on: the
  year in decimal without padding, so 999 for the year 999 and four
  digits from the year 1000 on. *)
Definition year_text (y : Z) : string :=
if y <? 10 then String (Str.digit_char y) EmptyString
else if y <? 100 then Str.pad2 y
else if y <? 1000 then String (Str.digit_char (y / 100 mod 10)) (Str.pad2 y)
else Str.pad4 y.

(** [x.strftime("%Y-%m-%d")] *)
Definition strftime_Ymd (x : date) : string :=
year_text (year x) +:+ "-" +:+ Str.pad2 (month x) +:+ "-" +:+ Str.pad2 (day x).

End Datetime.

(** ** The date normalizer of [sarasota_scraper.py] *)

(** r"^\d{4}-\d{2}-\d{2}$" *)
Definition re_iso : Re.regex :=
  Re.seqs [Re.Bol; Re.Rep Re.digit 4 4; Re.chr "-"; Re.Rep Re.digit 2 2;
           Re.chr "-"; Re.Rep Re.digit 2 2; Re.Eol].

(** r"^\d{1,2}/\d{1,2}/\d{4}$" *)
Definition re_us : Re.regex :=
  Re.seqs [Re.Bol; Re.Rep Re.digit 1 2; Re.chr "/"; Re.Rep Re.digit 1 2;
           Re.chr "/"; Re.Rep Re.digit 4 4; Re.Eol].

Definition normalize_date (d : string) : result string :=
  let d := Str.strip d in
  if Re.matched (Re.re_match re_iso d) then Ok d
  else if Re.matched (Re.re_match re_us d) then
    let* x := Datetime.strptime Datetime.fmt_mdY d in
    Ok (Datetime.strftime_Ymd x)
  else Raise (ValueError ("Unrecognized date format: " +:+ d)).

(** A generator run to its end: what it yielded, and how it stopped. *)
Inductive gen_end : Type :=
| StopIteration                 (* the body returned *)
| Throw (e : exn)               (* the body raised *)
| Unfinished.                   (* the loop budget of the model ran out *)

Record gen_trace : Type := GenTrace {
  yielded : list string;
  ending : gen_end
}.

Definition yield_first (x : string) (t : gen_trace) : gen_trace :=
  GenTrace (x :: yielded t) (ending t).

(** The [while s <= e] loop of [daterange]. *)
Fixpoint daterange_loop (fuel : nat) (s e : Datetime.date) : gen_trace :=
  match fuel with
  | O => GenTrace [] Unfinished
  | S fuel' =>
      if Datetime.date_leb s e then
        match Datetime.add_one_day s with
        | Ok s' =>
            yield_first (Datetime.strftime_Ymd s) (daterange_loop fuel' s' e)
        | Raise x => GenTrace [Datetime.strftime_Ymd s] (Throw x)
        end
      else GenTrace [] StopIteration
  end.

(** [datetime.strptime(normalize_date(d), "%Y-%m-%d")] *)
Definition parse_endpoint (d : string) : result Datetime.date :=
  let* n := normalize_date d in
  Datetime.strptime Datetime.fmt_Ymd n.

(** Loop tests between [s] and [e]: one per day and the last, failing one. *)
Definition daterange_budget (s e : Datetime.date) : nat :=
  S (Z.to_nat (Datetime.toordinal e - Datetime.toordinal s + 1)).

Definition daterange (start end_ : string) : gen_trace :=
  match parse_endpoint start with
  | Raise x => GenTrace [] (Throw x)
  | Ok s =>
      match parse_endpoint end_ with
      | Raise x => GenTrace [] (Throw x)
      | Ok e => daterange_loop (daterange_budget s e) s e
      end
  end.

(** ** Arrest records *)

Definition ENTRY_URL : string :=
  "https://www.sarasotasheriff.org/arrest-reports/index.php".

(** The dataclass [ArrestRow]. *)
Record ArrestRow : Type := mkArrestRow {
  arrest_date : option string;
  name : option string;
  dob : option string;
  age : option string;
  charges : option string;
  agency : option string;
  booking_number : option string;
  bond : option string;
  arrest_time : option string;
  source_url : option string
}.

(** The call [ArrestRow(arrest_date=.., .., bond=..)] of the extractors:
    the two fields they leave out take the dataclass defaults. *)
Definition new_row (arrest_date name dob age charges agency booking_number bond
                    : option string) : ArrestRow :=
  mkArrestRow arrest_date name dob age charges agency booking_number bond
    None (Some ENTRY_URL).

(** A record as a dictionary in insertion order. *)
Definition dict : Type := list (string * option string).

Definition asdict (r : ArrestRow) : dict :=
  [("arrest_date", arrest_date r); ("name", name r); ("dob", dob r);
   ("age", age r); ("charges", charges r); ("agency", agency r);
   ("booking_number", booking_number r); ("bond", bond r);
   ("arrest_time", arrest_time r); ("source_url", source_url r)].

(** [a or b] on optional strings: [None] and the empty string are falsy. *)
Definition py_or (a b : option string) : option string :=
  match a with
  | Some s => if Str.truthy s then a else b
  | None => b
  end.

(** ** Table strategy *)

(** What [extract_rows_from_table] reads of a table element: the inner
    text of the cells under "thead th, thead td" and, for every
    "tbody tr", of its cells under "td,th". *)
Record table_el : Type := TableEl {
  thead_cells : list string;
  tbody_rows : list (list string)
}.

(** [dict(zip(headers, cells))]: a later pair overrides an earlier one. *)
Definition dict_zip (headers cells : list string) : gmap string string :=
  foldl (fun m kv => <[kv.1 := kv.2]> m) ∅ (zip headers cells).

Definition row_of_cells (headers cells : list string) : ArrestRow :=
  let data := dict_zip headers cells in
  new_row
    (py_or (data !! "arrest date") (data !! "date"))
    (data !! "name")
    (py_or (data !! "dob") (data !! "date of birth"))
    (data !! "age")
    (py_or (data !! "charges") (data !! "charge"))
    (py_or (data !! "agency") (data !! "arresting agency"))
    (py_or (data !! "booking #") (data !! "booking number"))
    (data !! "bond").

Definition extract_rows_from_table (table : table_el) : list ArrestRow :=
  let headers := map (fun h => Str.lower (Str.strip h)) (thead_cells table) in
  map (fun tr => row_of_cells headers (map Str.strip tr)) (tbody_rows table).

(** ** Card strategy *)

Module CardPatterns.
Import Re.

Definition ws : regex := Star space.                  (* \s* *)
Definition to_eol : regex := plus dot.                (* .+ *)

(** r"Name:\s*(.+)" *)
Definition re_name : regex :=
seqs [lit_i "Name:"; ws; Group 1 to_eol].

(** r"Arrest\s*Date:\s*([0-9/\-: ]+)" *)
Definition date_time_char (c : ascii) : bool :=
Str.isdigit c || Ascii.eqb c "/" || Ascii.eqb c "-" || Ascii.eqb c ":"
|| Ascii.eqb c " ".
Definition re_arrest_date : regex :=
seqs [lit_i "Arrest"; ws; lit_i "Date:"; ws; Group 1 (plus (Chr date_time_char))].

(** r"(DOB|Date of Birth):\s*([0-9/\-]+)" *)
Definition date_char (c : ascii) : bool :=
Str.isdigit c || Ascii.eqb c "/" || Ascii.eqb c "-".
Definition re_dob : regex :=
seqs [Group 1 (Alt (lit_i "DOB") (lit_i "Date of Birth")); lit_i ":"; ws;
      Group 2 (plus (Chr date_char))].

(** r"Age:\s*(\d{1,3})" *)
Definition re_age : regex :=
seqs [lit_i "Age:"; ws; Group 1 (Rep digit 1 3)].

(** r"(Booking\s*(No\.|#|Number)):\s*([A-Za-z0-9\-]+)" *)
Definition id_char (c : ascii) : bool := Str.isalnum c || Ascii.eqb c "-".
Definition re_booking : regex :=
seqs [Group 1 (seqs [lit_i "Booking"; ws;
                     Group 2 (alts (lit_i "No.") [lit_i "#"; lit_i "Number"])]);
      lit_i ":"; ws; Group 3 (plus (Chr id_char))].

(** r"(Agency|Arresting Agency):\s*(.+)" *)
Definition re_agency : regex :=
seqs [Group 1 (Alt (lit_i "Agency") (lit_i "Arresting Agency")); lit_i ":"; ws;
      Group 2 to_eol].

(** r"Bond:\s*([^\n]+)" *)
Definition re_bond : regex :=
seqs [lit_i "Bond:"; ws; Group 1 (plus dot)].

(** r"(Charge|Charges):\s*(.+)" *)
Definition re_charges : regex :=
seqs [Group 1 (Alt (lit_i "Charge") (lit_i "Charges")); lit_i ":"; ws;
      Group 2 to_eol].
End CardPatterns.

(** [m.group(i).strip() if m else None] *)
Definition group_strip (i : nat) (m : option Re.mstate) : option string :=
  match m with
  | Some st => option_map Str.strip (Re.group i st)
  | None => None
  end.

Definition row_of_card (text : string) : ArrestRow :=
  let name := Re.re_search CardPatterns.re_name text in
  let arrest_date := Re.re_search CardPatterns.re_arrest_date text in
  let dob := Re.re_search CardPatterns.re_dob text in
  let age := Re.re_search CardPatterns.re_age text in
  let booking := Re.re_search CardPatterns.re_booking text in
  let agency := Re.re_search CardPatterns.re_agency text in
  let bond := Re.re_search CardPatterns.re_bond text in
  let charges := group_strip 2 (Re.re_search CardPatterns.re_charges text) in
  new_row
    (group_strip 1 arrest_date)
    (group_strip 1 name)
    (group_strip 2 dob)
    (group_strip 1 age)
    charges
    (group_strip 2 agency)
    (group_strip 3 booking)
    (group_strip 1 bond).

(** The argument is the inner text of every item the container has under
    ".card, .result, .list-item, li, .row". *)
Definition extract_rows_from_cards (items : list string) : list ArrestRow :=
  map row_of_card items.

(** ** Deduplication, the last step of [scrape_for_date] *)

Definition row_key : Type :=
  option string * option string * option string * option string.

Definition key_of (r : ArrestRow) : row_key :=
  (name r, arrest_date r, booking_number r, charges r).

(** One round of the loop over [rows]: [seen] and [out] are the two
    mutable locals. *)
Definition dedupe_step (st : gset row_key * list dict) (r : ArrestRow)
  : gset row_key * list dict :=
  let key := key_of r in
  if decide (key ∈ st.1) then st
  else ({[key]} ∪ st.1, st.2 ++ [asdict r]).

Definition dedupe (rows : list ArrestRow) : list dict :=
  (foldl dedupe_step (∅, []) rows).2.

(** ** Selector catalogue

    The "next_buttons" entry of [SELECTOR_HINTS]; the quote marks inside
    the selectors are left out. *)

Definition NEXT_BUTTONS : list string :=
  ["a:has-text(Next)"; "button:has-text(Next)"; "a[rel=next]";
   "button:has-text(Load More)"; "a:has-text(Load More)"].

(** ** Pagination *)

(** What [paginate] asks of the browser page.  A page is a state; an
    action returns the state it leaves behind. *)
Class Page (P : Type) : Type := {
  (** [page.locator(sel).count()] *)
  count : P -> string -> nat;
  (** [page.locator(sel).first.is_enabled()] *)
  is_enabled : P -> string -> bool;
  (** [page.locator(sel).first.click(timeout=2000)]: the page afterwards
      and whether the click returned ([false]: it raised). *)
  click : P -> string -> P * bool;
  (** [page.wait_for_timeout(ms)] *)
  wait_for_timeout : P -> Z -> P
}.

Section Paginate.
Context {P : Type} `{Page P}.

(** The [for sel in SELECTOR_HINTS["next_buttons"]] loop: the page it
  leaves and the flag [clicked]. *)
Fixpoint click_next (sels : list string) (p : P) : P * bool :=
match sels with
| [] => (p, false)
| sel :: sels' =>
    if (0 <? count p sel)%nat && is_enabled p sel then
      let '(p1, ok) := click p sel in
      if ok then (wait_for_timeout p1 800, true)
      else click_next sels' p1
    else click_next sels' p
end.

(** [paginate]: [while True] with [break] when nothing was clicked.
  [fuel] bounds the rounds the model follows; [None] says the loop
  is still running after that many. *)
Fixpoint paginate (fuel : nat) (p : P) : option P :=
match fuel with
| O => None
| S fuel' =>
    let '(p1, clicked) := click_next NEXT_BUTTONS p in
    if clicked then paginate fuel' p1 else Some p1
end.

(** The step of [scrape_for_date] that calls it:
  [page.wait_for_timeout(1500); paginate(page)]. *)
Definition wait_and_paginate (fuel : nat) (p : P) : option P :=
paginate fuel (wait_for_timeout p 1500).

(** The page after [n] rounds that clicked. *)
Fixpoint after_rounds (n : nat) (p : P) : P :=
match n with
| O => p
| S n' => after_rounds n' (click_next NEXT_BUTTONS p).1
end.

(** A round on [p] clicks a control. *)
Definition round_clicks (p : P) : bool := (click_next NEXT_BUTTONS p).2.
End Paginate.

(** A page whose "Next" link is always there, enabled and clickable. *)
Inductive sticky_page : Type := Sticky.

#[export] Instance sticky_Page : Page sticky_page := {
  count _ sel := if String.eqb sel "a:has-text(Next)" then 1%nat else 0%nat;
  is_enabled _ _ := true;
  click p _ := (p, true);
  wait_for_timeout p _ := p
}.

(** A result list of [n] pages: the state is the number of pages left
    behind the "Next" link. *)
#[export] Instance counter_Page : Page nat := {
  count n sel :=
    if String.eqb sel "a:has-text(Next)" then (if (0 <? n)%nat then 1%nat else 0%nat)
    else 0%nat;
  is_enabled _ _ := true;
  click n _ := (Nat.pred n, true);
  wait_for_timeout n _ := n
}.

(** ** Retrying, as the [tenacity] decorator of [scrape_for_date] *)

Definition is_timeout (e : exn) : bool :=
  match e with PWTimeoutError _ => true | _ => false end.

Record retry_policy : Type := RetryPolicy {
  max_attempt_number : nat;       (* stop_after_attempt(n) *)
  multiplier : Z;                 (* wait_exponential(multiplier, min, max) *)
  min_wait : Z;
  max_wait : Z
}.

(** [wait_exponential]: seconds to sleep after attempt [attempt_number]. *)
Definition wait_exponential (p : retry_policy) (attempt_number : nat) : Z :=
  let result := (multiplier p * 2 ^ Z.of_nat (attempt_number - 1))%Z in
  Z.max (Z.max 0 (min_wait p)) (Z.min result (max_wait p)).

(** What one decorated call did. *)
Record retry_run (A : Type) : Type := RetryRun {
  outcome : result A;             (* value returned or exception raised *)
  calls : nat;                    (* attempts made *)
  sleeps : list Z                 (* seconds slept between them *)
}.
Arguments RetryRun {A} _ _ _.
Arguments outcome {A} _.
Arguments calls {A} _.
Arguments sleeps {A} _.

Section Retrying.
Context {A : Type}.
Variable policy : retry_policy.
(** The result of the [n]-th call of the wrapped function. *)
Variable attempt : nat -> result A.

Fixpoint retry_from (left : nat) (attempt_number : nat) : retry_run A :=
match attempt attempt_number with
| Ok a => RetryRun (Ok a) attempt_number []
| Raise e =>
    if is_timeout e then
      match left with
      | O => RetryRun (Raise e) attempt_number []       (* reraise=True *)
      | S left' =>
          let r := retry_from left' (S attempt_number) in
          RetryRun (outcome r) (calls r)
            (wait_exponential policy attempt_number :: sleeps r)
      end
    else RetryRun (Raise e) attempt_number []
end.

Definition retrying : retry_run A :=
retry_from (max_attempt_number policy - 1) 1.
End Retrying.

(** The decorators of the two variants. *)
Definition policy_v1 : retry_policy := RetryPolicy 3 1 1 6.
Definition policy_v2 : retry_policy := RetryPolicy 2 1 1 6.

(** [scrape_for_date] as its callers see it: the session body under the
    decorator.  [session n] is what the [n]-th run of the body does. *)
Definition scrape_for_date {A} (session : nat -> result A) : retry_run A :=
  retrying policy_v1 session.

Definition scrape_for_date_v2 {A} (session : nat -> result A) : retry_run A :=
  retrying policy_v2 session.

(** ** The batch loop of [main] *)

Definition exn_text (e : exn) : string :=
  match e with
  | ValueError m | OverflowError m | PWTimeoutError m | OtherError m => m
  end.

Record batch_state : Type := BatchState {
  all_records : list dict;
  stderr : list string
}.

(** One round of [for d in dates], with the decorated [scrape_for_date]
    given as [scrape]: the position in the batch and the date decide its
    result. *)
Definition batch_step (scrape : nat -> string -> result (list dict))
    (st : batch_state) (i : nat) (d : string) : batch_state :=
  match scrape i d with
  | Ok recs => BatchState (all_records st ++ recs) (stderr st)
  | Raise e =>
      BatchState (all_records st)
        (stderr st ++ ["[" +:+ d +:+ "] ERROR: " +:+ exn_text e])
  end.

Fixpoint batch_from (scrape : nat -> string -> result (list dict))
    (i : nat) (dates : list string) (st : batch_state) : batch_state :=
  match dates with
  | [] => st
  | d :: dates' => batch_from scrape (S i) dates' (batch_step scrape st i d)
  end.

Definition run_batch (scrape : nat -> string -> result (list dict))
    (dates : list string) : batch_state :=
  batch_from scrape 0 dates (BatchState [] []).

(** ** The spreadsheet sink and the end of [main] *)

(** Things the run does that the outside can see, in order. *)
Inductive event : Type :=
| Print (line : string)                          (* print(...) *)
| FileDump (path : string) (records : list dict) (* json.dump to --output *)
| SheetAdd                                       (* add_worksheet *)
| SheetClear                                     (* wks.clear() *)
| SheetUpdate (rows : list (list (option string))). (* wks.update('A1', ..) *)

(** The calls into [gspread], each of which may raise. *)
Inductive sink_call : Type :=
| Authorize | OpenByKey | GetWorksheet | AddWorksheet | ClearSheet | UpdateSheet.

(** The sink as the run meets it: which calls raise, and what. *)
Definition sink : Type := sink_call -> option exn.

Definition healthy_sink : sink := fun _ => None.

Definition COL_ORDER : list string :=
  ["arrest_date"; "name"; "dob"; "age"; "booking_number";
   "agency"; "bond"; "arrest_time"; "charges"; "source_url"].

Definition mem_string (x : string) (l : list string) : bool :=
  existsb (String.eqb x) l.

(** [pd.DataFrame(records).columns]: the keys in order of first use. *)
Fixpoint add_new (keys seen : list string) : list string :=
  match keys with
  | [] => seen
  | k :: keys' => add_new keys' (if mem_string k seen then seen else seen ++ [k])
  end.

Definition df_columns (records : list dict) : list string :=
  foldl (fun seen r => add_new (map fst r) seen) [] records.

Fixpoint dict_get (k : string) (r : dict) : option string :=
  match r with
  | [] => None
  | (k', v) :: r' => if String.eqb k k' then v else dict_get k r'
  end.

(** [cols = [c for c in col_order if c in df.columns]] *)
Definition sheet_header (records : list dict) : list string :=
  filter (fun c => Is_true (mem_string c (df_columns records))) COL_ORDER.

(** [[df.columns.tolist()] + df.values.tolist()] after [df = df[cols]];
    a missing or null value is [None]. *)
Definition data_to_upload (records : list dict) : list (list (option string)) :=
  let cols := sheet_header records in
  map Some cols :: map (fun r => map (fun c => dict_get c r) cols) records.

(** The body of the outer [try]: the events so far and, when a call
    raised, the exception. *)
Definition sink_body (sk : sink) (records : list dict) : list event * option exn :=
  let start := [Print "Uploading to Google Sheets..."] in
  match sk Authorize with Some e => (start, Some e) | None =>
  match sk OpenByKey with Some e => (start, Some e) | None =>
  let opened :=
    match sk GetWorksheet with
    | None => (start, None)
    | Some _ =>                       (* bare except: create the sheet *)
        match sk AddWorksheet with
        | Some e => (start, Some e)
        | None => (start ++ [SheetAdd], None)
        end
    end in
  match opened with
  | (evs, Some e) => (evs, Some e)
  | (evs, None) =>
  match sk ClearSheet with Some e => (evs, Some e) | None =>
  match sk UpdateSheet with Some e => (evs ++ [SheetClear], Some e) | None =>
    (evs ++ [SheetClear; SheetUpdate (data_to_upload records);
             Print "Successfully uploaded records to Google Sheets"], None)
  end end end end end.

Definition upload_to_google_sheets (sk : sink) (records : list dict)
  : list event * result unit :=
  match records with
  | [] => ([Print "No records to upload"], Ok tt)
  | _ =>
      match sink_body sk records with
      | (evs, None) => (evs, Ok tt)
      | (evs, Some e) =>                      (* except Exception as e: print; raise *)
          (evs ++ [Print ("Error uploading to Google Sheets: " +:+ exn_text e)],
           Raise e)
      end
  end.

Record main_args : Type := MainArgs {
  arg_date : option string;
  arg_start : option string;
  arg_end : option string;
  arg_no_upload : bool;
  arg_output : option string
}.

(** The file system as a dump meets it: the exception, if any, that
    opening the file at a path or writing to it raises. *)
Definition files : Type := string -> option exn.

(** [if args.output: with open(args.output, 'w') as f: json.dump(..);
    print(..)]: the events and, when the block raised, the exception.
    An absent path and an empty one are both falsy, and nothing is
    written for them. *)
Definition dump_to_file (fs : files) (output : option string) (records : list dict)
  : list event * option exn :=
  match output with
  | Some path =>
      if Str.truthy path then
        match fs path with
        | Some e => ([], Some e)
        | None => ([FileDump path records; Print ("Saved to " +:+ path)], None)
        end
      else ([], None)
  | None => ([], None)
  end.

(** [main] from the total line on: the dump to [--output], the upload,
    the closing line.  [Raise e] is an exception that leaves [main];
    neither the dump nor the upload is under a [try]. *)
Definition finish_main (fs : files) (sk : sink) (args : main_args)
    (records : list dict) : list event * result unit :=
  let total := [Print "Total records scraped"] in
  match dump_to_file fs (arg_output args) records with
  | (evs, Some e) => (total ++ evs, Raise e)
  | (evs, None) =>
      let dumped := total ++ evs in
      let closing := [Print "Sarasota County Scraper completed successfully!"] in
      if negb (arg_no_upload args) && negb (Nat.eqb (length records) 0) then
        match upload_to_google_sheets sk records with
        | (evs', Ok _) => (dumped ++ evs' ++ closing, Ok tt)
        | (evs', Raise e) => (dumped ++ evs', Raise e)
        end
      else (dumped ++ closing, Ok tt)
  end.

(** ** The session body of [sarasota_scraper_v2.py] *)

Module V2.

(** A result of the v2 variant: a dictionary of strings in insertion
  order. *)
Definition record : Type := list (string * string).

(** What one session meets on the page. *)
Record page : Type := Page {
(** an exception raised before the date is converted: navigation,
    the wait for the iframe, or "Could not find search interface
    iframe" *)
before_form : option exn;
(** an exception raised while filling the date and clicking search *)
in_form : option exn;
(** [row.inner_text()] of every element under
    'table tr, .result-row, .inmate-row'; [Raise] when it raises *)
row_texts : list (result string);
(** [search_frame.locator('body').inner_text()] *)
body_text : result string;
(** [datetime.now().isoformat()] at its successive calls *)
now : nat -> string
}.

Definition make (date_str text stamp : string) : record :=
[("arrest_date", date_str); ("raw_text", text); ("scraped_at", stamp)].

(** The loop over [rows]; [results] grows at its end. *)
Fixpoint scan_rows (pg : page) (date_str : string) (rows : list (result string))
  (results : list record) : list record :=
match rows with
| [] => results
| Raise _ :: rows' => scan_rows pg date_str rows' results     (* except: continue *)
| Ok text :: rows' =>
    if Str.truthy text && (10 <? String.length text)%nat
    then scan_rows pg date_str rows'
           (results ++ [make date_str text (now pg (length results))])
    else scan_rows pg date_str rows' results
end.

Fixpoint scan_lines (pg : page) (date_str : string) (lines : list string)
  (results : list record) : list record :=
match lines with
| [] => results
| line :: lines' =>
    if (20 <? String.length line)%nat
    then scan_lines pg date_str lines'
           (results ++ [make date_str line (now pg (length results))])
    else scan_lines pg date_str lines' results
end.

(** [[l.strip() for l in all_text.split('\n') if l.strip()]] *)
Definition data_lines (all_text : string) : list string :=
map Str.strip
  (filter (fun l => Is_true (Str.truthy (Str.strip l))) (Str.split_lines all_text)).

(** The body of [scrape_for_date], one run. *)
Definition session (pg : page) (date_str : string) : result (list record) :=
match before_form pg with Some e => Raise e | None =>
let* date_obj := Datetime.strptime Datetime.fmt_Ymd date_str in
match in_form pg with Some e => Raise e | None =>
let results := scan_rows pg date_str (row_texts pg) [] in
match results with
| _ :: _ => Ok results
| [] =>
    let* all_text := body_text pg in
    if negb (Str.contains "no results" (Str.lower all_text))
       && (100 <? String.length all_text)%nat
    then Ok (scan_lines pg date_str (data_lines all_text) [])
    else Ok []
end end end.

(** [scrape_for_date] of the variant: the body under its decorator;
  [pages n] is the page the [n]-th run meets. *)
Definition scrape_for_date (pages : nat -> page) (date_str : string)
: retry_run (list record) :=
retrying policy_v2 (fun n => session (pages n) date_str).

End V2.

(** * Specification-side definitions and sample inputs *)

(** ** The two date shapes, as the specification words them *)

Definition digits (s : string) : Prop := Str.all Str.isdigit s = true.

(** "YYYY-MM-DD": four digits, a hyphen, two digits, a hyphen, two digits. *)
Definition iso_shape (s : string) : Prop :=
  ∃ yy mo dd,
    s = yy +:+ "-" +:+ mo +:+ "-" +:+ dd
    ∧ digits yy ∧ digits mo ∧ digits dd
    ∧ String.length yy = 4%nat ∧ String.length mo = 2%nat ∧ String.length dd = 2%nat.




(** The ten digits. *)
Definition digit_chars : list ascii :=
  ["0"; "1"; "2"; "3"; "4"; "5"; "6"; "7"; "8"; "9"]%char.

(** [lo <= v <= hi] *)
Definition in_range (lo hi v : Z) : bool := (lo <=? v)%Z && (v <=? hi)%Z.

Definition days_in_year (y : Z) : Z := if Datetime.is_leap y then 366%Z else 365%Z.

(** How a run of [daterange] over the days [s] .. [e] ends: past
    9999-12-31 there is no next day to step to. *)
Definition range_ending (s e : Datetime.date) : gen_end :=
  if Datetime.date_leb s e && Datetime.date_eqb e (Datetime.Date 9999 12 31)
  then Throw (OverflowError "date value out of range")
  else StopIteration.

(** The rows [dedupe] keeps, written as a recursion on the input:
    [seen] lists the keys already taken. *)
Fixpoint first_rows (seen : gset row_key) (rows : list ArrestRow) : list ArrestRow :=
  match rows with
  | [] => []
  | r :: rows' =>
      if decide (key_of r ∈ seen) then first_rows seen rows'
      else r :: first_rows ({[key_of r]} ∪ seen) rows'
  end.

(** The identity key of a record, as the specification lists it: name,
    arrest date, booking number and charges, a null being a value like
    any other. *)
Definition identity (r : ArrestRow)
  : option string * option string * option string * option string :=
  (name r, arrest_date r, booking_number r, charges r).

(** The record that is returned for a row: its ten fields by name. *)
Definition fields (r : ArrestRow) : list (string * option string) :=
  [("arrest_date", arrest_date r); ("name", name r); ("dob", dob r);
   ("age", age r); ("charges", charges r); ("agency", agency r);
   ("booking_number", booking_number r); ("bond", bond r);
   ("arrest_time", arrest_time r); ("source_url", source_url r)].

(** The attempt ended in a timeout. *)
Definition timed_out {A : Type} (r : result A) : bool :=
  match r with Raise e => is_timeout e | Ok _ => false end.

(** What one date adds to the records and to the error log. *)
Definition date_records (scrape : nat -> string -> result (list dict))
    (i : nat) (d : string) : list dict :=
  match scrape i d with Ok recs => recs | Raise _ => [] end.

Definition date_errors (scrape : nat -> string -> result (list dict))
    (i : nat) (d : string) : list string :=
  match scrape i d with
  | Ok _ => []
  | Raise e => ["[" +:+ d +:+ "] ERROR: " +:+ exn_text e]
  end.

Fixpoint collect {B} (f : nat -> string -> list B) (i : nat) (dates : list string)
  : list B :=
  match dates with
  | [] => []
  | d :: dates' => f i d ++ collect f (S i) dates'
  end.

(** The event of creating the worksheet, when it was not there. *)
Definition created_sheet (sk : sink) : list event :=
  match sk GetWorksheet with None => [] | Some _ => [SheetAdd] end.

(** The output path that is used: one that is given and not empty. *)
Definition output_path (args : main_args) : option string :=
  match arg_output args with
  | Some path => if Str.truthy path then Some path else None
  | None => None
  end.

(** The exception of the dump, if it raises. *)
Definition dump_error (fs : files) (args : main_args) : option exn :=
  match output_path args with
  | Some path => fs path
  | None => None
  end.

(** The events of [main] up to the upload, when the dump returns. *)
Definition dump_events (args : main_args) (records : list dict) : list event :=
  Print "Total records scraped"
  :: match output_path args with
     | Some path => [FileDump path records; Print ("Saved to " +:+ path)]
     | None => []
     end.

Module V2Spec.
Import V2.

(** The shape of every record of the variant. *)
Definition well_formed (date_str : string) (r : record) : Prop :=
map fst r = ["arrest_date"; "raw_text"; "scraped_at"]
∧ ∃ text stamp, r = make date_str text stamp ∧ (10 < String.length text)%nat.

(** The row texts that were read and are longer than ten characters. *)
Fixpoint long_texts (rows : list (result string)) : list string :=
match rows with
| [] => []
| Ok text :: rows' =>
    if (10 <? String.length text)%nat then text :: long_texts rows'
    else long_texts rows'
| Raise _ :: rows' => long_texts rows'
end.

Definition raw_text (r : record) : string :=
match r with
| [_; (_, text); _] => text
| _ => ""
end.

End V2Spec.

(** ** Sample inputs *)

Definition row_bond_500 : ArrestRow :=
  new_row (Some "01/02/2025") (Some "Jane Doe") None None (Some "DUI") None
    (Some "B12345") (Some "500").

Definition row_bond_900 : ArrestRow :=
  new_row (Some "01/02/2025") (Some "Jane Doe") None None (Some "DUI") None
    (Some "B12345") (Some "900").

(** A session that times out twice and then succeeds. *)
Definition flaky_session (n : nat) : result string :=
  if (n <? 3)%nat then Raise (PWTimeoutError "Timeout 30000ms exceeded")
  else Ok "records".

(** Three days; on the second the date field is rejected. *)
Definition three_day_scrape (i : nat) (d : string) : result (list dict) :=
  match i with
  | 1%nat => Raise (ValueError "Unrecognized date format")
  | _ => Ok [[("arrest_date", Some d)]]
  end.

Definition jane_table : table_el :=
  TableEl ["Name"; "Arrest Date"; "Booking #"]
          [["Jane Doe"; "01/02/2025"; "B12345"]].

Definition john_card : string :=
  "Name: John Smith" +:+ Str.nls +:+ "Age: 34" +:+ Str.nls +:+ "Booking No: A987".

Definition john_card_dotted : string :=
  "Name: John Smith" +:+ Str.nls +:+ "Age: 34" +:+ Str.nls +:+ "Booking No.: A987".

(** A sheet that rejects the update (a quota error, say). *)
Definition quota_sink : sink :=
  fun c => match c with
           | UpdateSheet => Some (OtherError "Quota exceeded")
           | _ => None
           end.

Definition dump_args : main_args :=
  MainArgs (Some "2025-01-02") None None false (Some "out.json").

(** A file system on which every path can be written, and one on which
    none can. *)
Definition writable : files := fun _ => None.

Definition read_only : files :=
  fun _ => Some (OtherError "Read-only file system").

Definition one_record : list dict := dedupe [row_bond_500].

(** A page with a header row, one data row, a row that cannot be read
    and an empty row. *)
Definition v2_sample_page : V2.page :=
  V2.Page None None
    [Ok "Name DOB"; Ok "John Smith 01/01/1990"; Raise (OtherError "detached"); Ok ""]
    (Ok "") (fun _ => "2025-01-06T08:00:00").

(** * Further parts of the program and sample inputs *)

(** The label of a header cell, as the table strategy compares it. *)
Definition header_label (h : string) : string := Str.lower (Str.strip h).

Definition ragged_table : table_el :=
  TableEl [" NAME "; "Booking #"; "Name"]
          [["Doe, Jane"; "B1"; " Jane Doe "]; ["Roe, Rick"; "B2"]].

(** [t] is what is left of [s] after reading some of it. *)
Definition is_suffix (t s : string) : Prop := ∃ u, s = u +:+ t.

(** A record none of whose extracted fields is set. *)
Definition blank_row : ArrestRow :=
  new_row None None None None None None None None.

(** No character of [s] is a colon. *)
Definition no_colon (s : string) : Prop :=
  Str.all (fun c => negb (Ascii.eqb c ":")) s = true.

(** The regex cannot match without reading a colon. *)
Inductive needs_colon : Re.regex → Prop :=
| nc_chr p : (∀ c, p c = true → c = ":"%char) → needs_colon (Re.Chr p)
| nc_seq_l r1 r2 : needs_colon r1 → needs_colon (Re.Seq r1 r2)
| nc_seq_r r1 r2 : needs_colon r2 → needs_colon (Re.Seq r1 r2)
| nc_alt r1 r2 : needs_colon r1 → needs_colon r2 → needs_colon (Re.Alt r1 r2)
| nc_group i r : needs_colon r → needs_colon (Re.Group i r).

(** ** The strategy chain of [try_extract_rows] *)

(** The "result_containers" entry of [SELECTOR_HINTS] (quote marks
    inside the selectors left out). *)
Definition RESULT_CONTAINERS : list string :=
  ["table"; ".results"; ".list"; ".cards"; ".card-list"; "[role=table]";
   "[data-component*=arrest i]"].

(** An element a selector resolves to, as the extractors meet it. *)
Record element : Type := Element {
  (** [el.evaluate("e => e.tagName && e.tagName.toLowerCase() === 'table'")] *)
  el_is_table : result bool;
  (** its header cells and body rows *)
  el_table : table_el;
  (** the inner text of its items under ".card, .result, .list-item, li, .row" *)
  el_items : list string;
  (** the exception that reading its cells or items raises, if any *)
  el_broken : option exn
}.

(** [page.locator(sel).all()] *)
Definition dom : Type := string -> list element.

Definition read_table (el : element) : result (list ArrestRow) :=
  match el_broken el with
  | Some e => Raise e
  | None => Ok (extract_rows_from_table (el_table el))
  end.

Definition read_cards (el : element) : result (list ArrestRow) :=
  match el_broken el with
  | Some e => Raise e
  | None => Ok (extract_rows_from_cards (el_items el))
  end.

(** The loop [for el in loc.all()], whose body is under [try]: [Some]
    is the [return] of the function, [None] the end of the loop. *)
Fixpoint try_elements (els : list element) : option (list ArrestRow) :=
  match els with
  | [] => None
  | el :: els' =>
      match el_is_table el with
      | Raise _ => try_elements els'                       (* except: continue *)
      | Ok true =>
          if (0 <? length (tbody_rows (el_table el)))%nat then
            match read_table el with
            | Ok rows => Some rows
            | Raise _ => try_elements els'
            end
          else try_elements els'
      | Ok false =>
          match read_cards el with
          | Ok [] => try_elements els'
          | Ok rows => Some rows
          | Raise _ => try_elements els'
          end
      end
  end.

Fixpoint try_containers (sels : list string) (page : dom) : option (list ArrestRow) :=
  match sels with
  | [] => None
  | sel :: sels' =>
      match try_elements (page sel) with
      | Some rows => Some rows
      | None => try_containers sels' page
      end
  end.

Definition try_extract_rows (page : dom) : result (list ArrestRow) :=
  match try_containers RESULT_CONTAINERS page with
  | Some rows => Ok rows
  | None =>
      (* last resort: any table on the page, read outside the [try] *)
      match page "table" with
      | el :: _ => read_table el
      | [] => Ok []
      end
  end.

(** A page whose locator queries may themselves raise: in the source
    [loc.count()] and [loc.all()] of the container loop, and the
    [count()] of the last resort, are under no [try]. *)
Definition live_dom : Type := string -> result (list element).

(** The loop over the containers on such a page: [Raise] is an
    exception of a query, which leaves the function. *)
Fixpoint try_containers_live (sels : list string) (page : live_dom)
  : result (option (list ArrestRow)) :=
  match sels with
  | [] => Ok None
  | sel :: sels' =>
      match page sel with
      | Raise e => Raise e
      | Ok els =>
          match try_elements els with
          | Some rows => Ok (Some rows)
          | None => try_containers_live sels' page
          end
      end
  end.

(** [try_extract_rows] on such a page. *)
Definition try_extract_rows_live (page : live_dom) : result (list ArrestRow) :=
  let* found := try_containers_live RESULT_CONTAINERS page in
  match found with
  | Some rows => Ok rows
  | None =>
      let* tables := page "table" in
      match tables with
      | el :: _ => read_table el
      | [] => Ok []
      end
  end.

(** A page on which the query for ".results" raises. *)
Definition closing_page : live_dom :=
  fun sel =>
    if String.eqb sel ".results" then Raise (OtherError "Target closed")
    else Ok [].

(** A page with an empty table and a list of two cards. *)
Definition cards_page : dom :=
  fun sel =>
    if String.eqb sel "table" then [Element (Ok true) (TableEl ["Name"] []) [] None]
    else if String.eqb sel ".results" then
      [Element (Ok false) (TableEl [] []) [john_card_dotted; "no data"] None]
    else [].

(** A page whose only table cannot be read. *)
Definition broken_page : dom :=
  fun sel =>
    if String.eqb sel "table" then
      [Element (Ok true) (TableEl ["Name"] [["Jane Doe"]]) []
         (Some (OtherError "Element is not attached to the DOM"))]
    else [].

(** A page with a filled table and a list of cards. *)
Definition table_page : dom :=
  fun sel =>
    if String.eqb sel "table" then [Element (Ok true) jane_table [] None]
    else if String.eqb sel ".results" then
      [Element (Ok false) (TableEl [] []) [john_card] None]
    else [].

(** ** The control resolver: [try_fill_date], [click_search] and
    [maybe_pick_quick_link] *)

Definition DATE_INPUTS : list string :=
  ["input[type=date]"; "input[name*=date i]"; "input[id*=date i]";
   "input[aria-label*=Date i]"].

Definition SEARCH_BUTTONS : list string :=
  ["button:has-text(Search)"; "button:has-text(Submit)"; "button:has-text(Go)";
   "input[type=submit]"; "a:has-text(Search)"].


(** What the form functions ask of the page beyond [Page]. *)
Class FormPage (P : Type) `{Page P} : Type := {
  (** a [page.evaluate] call of [try_fill_date], which hands the script
      the selector [sel] and the value [v] as two arguments; the script
      assigns [v] to the first match and fires input and change, always
      ([only_if_empty = false]) or when the field is empty.  The page
      afterwards and whether the call returned: a library whose
      [evaluate] takes a single argument raises on every such call *)
  set_value : P -> string -> string -> bool -> P * bool;
  (** [page.locator(sel).first.click(timeout=ms)] *)
  click_within : P -> string -> Z -> P * bool;
  (** [page.locator(sel).first.press("Enter")] *)
  press_enter : P -> string -> P * bool;
  (** [page.wait_for_load_state("networkidle")] *)
  wait_for_load_state : P -> P * bool
}.


Section Controls.
Context {P : Type} `{FormPage P}.



(** The loop of [click_search] over the button selectors. *)
Fixpoint click_button_from (sels : list string) (p : P) : P * bool :=
  match sels with
  | [] => (p, false)
  | btn :: sels' =>
      if (0 <? count p btn)%nat then
        let '(p1, ok) := click_within p btn 3000 in
        if ok then (p1, true) else click_button_from sels' p1
      else click_button_from sels' p
  end.

(** Its fallback: Enter on the first date input that is there; the
    whole loop is under one [try]. *)
Fixpoint press_enter_from (sels : list string) (p : P) : P * bool :=
  match sels with
  | [] => (p, false)
  | sel :: sels' =>
      if (0 <? count p sel)%nat then press_enter p sel
      else press_enter_from sels' p
  end.

Definition click_search (p : P) : P * bool :=
  let '(p1, clicked) := click_button_from SEARCH_BUTTONS p in
  if clicked then (p1, true) else press_enter_from DATE_INPUTS p1.



End Controls.




(** A page on which no selector finds anything. *)
#[export] Instance bare_Page : Page unit := {
  count _ _ := 0%nat;
  is_enabled _ _ := false;
  click p _ := (p, false);
  wait_for_timeout p _ := p
}.

#[export] Instance bare_FormPage : FormPage unit := {
  set_value p _ _ _ := (p, false);
  click_within p _ _ := (p, false);
  press_enter p _ := (p, false);
  wait_for_load_state p := (p, false)
}.

(** ** The JSON fallback of [scrape_for_date] *)

(** A JSON value as the fallback uses it.  Of a value that is no
    string, integer, boolean or null (a float, a list, an object) the
    code sees its [str()] and its truth value only. *)
Inductive jval : Type :=
| JNull
| JStr (s : string)
| JInt (z : Z)
| JBool (b : bool)
| JOpaque (text : string) (truth : bool).

(** [str(v)] *)
Definition jstr (v : jval) : string :=
  match v with
  | JNull => "None"
  | JStr s => s
  | JInt z => NilZero.string_of_int (Z.to_int z)
  | JBool true => "True"
  | JBool false => "False"
  | JOpaque text _ => text
  end.

(** [bool(v)] *)
Definition jtruthy (v : jval) : bool :=
  match v with
  | JNull => false
  | JStr s => Str.truthy s
  | JInt z => negb (z =? 0)%Z
  | JBool b => b
  | JOpaque _ truth => truth
  end.

(** [a or b] *)
Definition jor (a b : jval) : jval := if jtruthy a then a else b.

(** An element of the payload's list: an object, or anything else. *)
Inductive jitem : Type :=
| ItemObject (fields : gmap string jval)
| ItemOther.

(** [it.get(k)] and [it.get(k, '')] *)
Definition jget (it : gmap string jval) (k : string) : jval :=
  default JNull (it !! k).

Definition jget_text (it : gmap string jval) (k : string) : jval :=
  default (JStr "") (it !! k).

(** The local function [norm]. *)
Definition norm (v : jval) : option string :=
  match v with
  | JNull => None
  | _ => Some (Str.strip (jstr v))
  end.

(** The f-string "{last_name} {first_name}", stripped. *)
Definition full_name (it : gmap string jval) : string :=
  Str.strip (jstr (jget_text it "last_name") +:+ " " +:+ jstr (jget_text it "first_name")).

Definition row_of_item (it : gmap string jval) : ArrestRow :=
  new_row
    (norm (jor (jor (jget it "arrest_date") (jget it "arrestDate")) (jget it "date")))
    (norm (jor (jget it "name") (JStr (full_name it))))
    (norm (jor (jget it "dob") (jget it "date_of_birth")))
    (norm (jget it "age"))
    (norm (jor (jor (jget it "charges") (jget it "charge_summary")) (jget it "charge")))
    (norm (jor (jget it "agency") (jget it "arresting_agency")))
    (norm (jor (jor (jget it "booking_number") (jget it "bookingNo")) (jget it "booking")))
    (norm (jget it "bond")).

(** The loop [for it in items]: an element without [get] raises. *)
Fixpoint rows_of_items (items : list jitem) : result (list ArrestRow) :=
  match items with
  | [] => Ok []
  | ItemObject it :: items' =>
      let* rows := rows_of_items items' in Ok (row_of_item it :: rows)
  | ItemOther :: _ => Raise (OtherError "object has no attribute 'get'")
  end.

(** What is under the key "results" of an object payload. *)
Inductive jresults : Type :=
| ResultsList (items : list jitem)
| ResultsNotIterable.                 (* a number, a boolean or null *)

(** A buffered payload. *)
Inductive payload : Type :=
| PayloadObject (results : option jresults)   (* [None]: no key "results" *)
| PayloadList (items : list jitem)
| PayloadOther.

Definition payload_rows (p : payload) : result (list ArrestRow) :=
  match p with
  | PayloadObject (Some (ResultsList items)) => rows_of_items items
  | PayloadObject (Some ResultsNotIterable) =>
      Raise (OtherError "object is not iterable")
  | PayloadObject None => Ok []
  | PayloadList items => rows_of_items items
  | PayloadOther => Ok []
  end.

(** [if not rows and json_payloads: ... rows = flat] *)
Definition json_fallback (rows : list ArrestRow) (json_payloads : list payload)
  : result (list ArrestRow) :=
  match rows, last json_payloads with
  | [], Some p => payload_rows p
  | _, _ => Ok rows
  end.

(** The listener [handle_response]. *)
Record response : Type := Response {
  content_type : option string;     (* the header, when there is one *)
  url : string;
  body : result payload             (* [resp.json()] *)
}.

(** r"arrest|inmate|search|booking" *)
Definition re_keywords : Re.regex :=
  Re.alts (Re.lit_i "arrest") [Re.lit_i "inmate"; Re.lit_i "search"; Re.lit_i "booking"].

Definition handle_response (json_payloads : list payload) (resp : response)
  : list payload :=
  let ctype := default "" (content_type resp) in
  if Str.contains "application/json" (Str.lower ctype) then
    if Re.matched (Re.re_search re_keywords (url resp)) then
      match body resp with
      | Ok data => json_payloads ++ [data]
      | Raise _ => json_payloads                 (* except Exception: pass *)
      end
    else json_payloads
  else json_payloads.

Definition sample_item : gmap string jval :=
  <["last_name" := JStr "Doe"]> (<["first_name" := JStr "Jane"]>
    (<["age" := JInt 34]> (<["bookingNo" := JStr " A987 "]> ∅))).

(** The words of the URL filter. *)
Definition URL_KEYWORDS : list string := ["arrest"; "inmate"; "search"; "booking"].

(** A response the listener buffers, said without the pattern. *)
Definition wanted (resp : response) : bool :=
  Str.contains "application/json" (Str.lower (default "" (content_type resp)))
  && existsb (fun k => Str.contains k (Str.lower (url resp))) URL_KEYWORDS.

(** A payload over which the loop of the fallback raises. *)
Definition bad_payload (p : payload) : Prop :=
  match p with
  | PayloadObject (Some ResultsNotIterable) => True
  | PayloadObject (Some (ResultsList items)) | PayloadList items => ItemOther ∈ items
  | _ => False
  end.

(** The keys the fallback reads. *)
Definition ITEM_KEYS : list string :=
  ["arrest_date"; "arrestDate"; "date"; "name"; "last_name"; "first_name";
   "dob"; "date_of_birth"; "age"; "charges"; "charge_summary"; "charge";
   "agency"; "arresting_agency"; "booking_number"; "bookingNo"; "booking"; "bond"].

Definition unnamed_row : ArrestRow :=
  new_row None (Some "") None None None None None None.

Definition api_response : response :=
  Response (Some "Application/JSON; charset=utf-8")
           "https://www.sarasotasheriff.org/api/Inmate/list" (Ok (PayloadList [])).

(** The end of the session body: the fallback, then the removal of
    duplicates. *)
Definition rows_to_records (rows : list ArrestRow) (json_payloads : list payload)
  : result (list dict) :=
  let* rows' := json_fallback rows json_payloads in
  Ok (dedupe rows').

(** The identity key read off a returned record. *)
Definition dict_identity (d : dict)
  : option string * option string * option string * option string :=
  (dict_get "name" d, dict_get "arrest_date" d, dict_get "booking_number" d,
   dict_get "charges" d).

(** An object with keys the fallback does not read. *)
Definition foreign_item : gmap string jval :=
  <["inmateName" := JStr "DOE, JANE"]> (<["id" := JInt 7]> ∅).

(** The cells of a record in the column order of the sheet. *)
Definition sheet_row (r : ArrestRow) : list (option string) :=
  [arrest_date r; name r; dob r; age r; booking_number r; agency r; bond r;
   arrest_time r; charges r; source_url r].

(** A sink whose update is rejected after the sheet was cleared. *)
Definition rejecting_sink : sink :=
  fun c => match c with
           | UpdateSheet => Some (OtherError "Invalid value")
           | _ => None
           end.

(** The fields of [ArrestRow] in the order of the dataclass. *)
Definition ARREST_FIELDS : list string :=
  ["arrest_date"; "name"; "dob"; "age"; "charges"; "agency"; "booking_number";
   "bond"; "arrest_time"; "source_url"].

(** ** [main] as a whole *)

(** Truth value of an optional argument: absent and empty are falsy. *)
Definition truthy_arg (a : option string) : bool :=
  match a with Some s => Str.truthy s | None => false end.

(** How a run of [main] ends. *)
Inductive exit : Type :=
| Returned
| Raised (e : exn)
| UsageError            (* [ap.error]: the parser exits with status 2 *)
| Running.              (* the loop budget of the model ran out *)

(** A run of [main]: the events from the total line on, the lines of
    its own prints to [sys.stderr], and its end. *)
Record main_run : Type := MainRun {
  run_events : list event;
  run_stderr : list string;
  run_exit : exit
}.

(** [[args.date] if args.date else list(daterange(args.start, args.end))] *)
Definition main_dates (args : main_args) : gen_trace :=
  if truthy_arg (arg_date args) then GenTrace [default "" (arg_date args)] StopIteration
  else daterange (default "" (arg_start args)) (default "" (arg_end args)).

Definition main (fs : files) (sk : sink)
    (scrape : nat -> string -> result (list dict)) (args : main_args) : main_run :=
  if negb (truthy_arg (arg_date args))
     && negb (truthy_arg (arg_start args) && truthy_arg (arg_end args))
  then MainRun [] [] UsageError
  else
    let dates := main_dates args in
    match ending dates with
    | StopIteration =>
        let st := run_batch scrape (yielded dates) in
        let fin := finish_main fs sk args (all_records st) in
        MainRun fin.1 (stderr st)
          match fin.2 with Ok _ => Returned | Raise e => Raised e end
    | Throw e => MainRun [] [] (Raised e)
    | Unfinished => MainRun [] [] Running
    end.

(** A scrape that fails on every date. *)
Definition failing_scrape (i : nat) (d : string) : result (list dict) :=
  Raise (PWTimeoutError "Timeout 30000ms exceeded").

Definition range_args (start end_ : string) : main_args :=
  MainArgs None (Some start) (Some end_) false None.

Definition date_args (d : string) : main_args :=
  MainArgs (Some d) (Some "not a date") None false None.

(** A page of the v2 variant whose rows are too short and whose body
    holds long lines between blanks. *)
Definition v2_text_body : string :=
  "Inmate list for the Sarasota County jail, updated daily at noon" +:+ Str.nls
  +:+ "   DOE, JANE  34  Battery  Bond 500.00   " +:+ Str.nls
  +:+ "short line" +:+ Str.nls +:+ "End of the list for today".

Definition v2_text_page : V2.page :=
  V2.Page None None [Ok "Name"; Raise (OtherError "detached")]
    (Ok v2_text_body) (fun _ => "2025-01-15T12:00:00").

(** ** The upload and [main] of [sarasota_scraper_v2.py] *)

Module V2Main.

Local Open Scope Z_scope.

(** [x - timedelta(days=1)]: the previous calendar day; before
    0001-01-01 the subtraction raises [OverflowError]. *)
Definition sub_one_day (x : Datetime.date) : result Datetime.date :=
  let '(Datetime.Date y m d) := x in
  if 1 <? d then Ok (Datetime.Date y m (d - 1))
  else if 1 <? m then Ok (Datetime.Date y (m - 1) (Datetime.days_in_month y (m - 1)))
  else if Datetime.MINYEAR <? y then Ok (Datetime.Date (y - 1) 12 31)
  else Raise (OverflowError "date value out of range").

(** The calls into [gspread], each of which may raise. *)
Inductive sheet_call : Type :=
| Authorize | OpenByKey | GetWorksheet | AddWorksheet
| GetAllRecords | AppendRows | Update.

(** The sheet as the upload meets it: which calls raise, and whether
    [get_all_records()] gives a non-empty list. *)
Record sheet : Type := Sheet {
  raises : sheet_call -> option exn;
  existing : bool
}.

Inductive event : Type :=
| Print (line : string)
| FileDump (path : string) (results : list V2.record)
| SheetAdd
| SheetAppend (rows : list (list (option string)))   (* append_rows *)
| SheetUpdate (rows : list (list (option string))).  (* update *)

(** [pd.DataFrame(data)]: the columns in order of first use, and the
    values row by row; a key a record lacks gives a missing cell. *)
Definition columns (data : list V2.record) : list string :=
  foldl (fun seen r => add_new (map fst r) seen) [] data.

Fixpoint get (k : string) (r : V2.record) : option string :=
  match r with
  | [] => None
  | (k', v) :: r' => if String.eqb k k' then Some v else get k r'
  end.

Definition values (data : list V2.record) : list (list (option string)) :=
  map (fun r => map (fun c => get c r) (columns data)) data.

(** The body of the [try] of [upload_to_sheets]. *)
Definition upload_body (sh : sheet) (data : list V2.record)
  : list event * option exn :=
  match raises sh Authorize with Some e => ([], Some e) | None =>
  match raises sh OpenByKey with Some e => ([], Some e) | None =>
  let opened :=
    match raises sh GetWorksheet with
    | None => ([], None)
    | Some _ =>                       (* bare except: create the sheet *)
        match raises sh AddWorksheet with
        | Some e => ([], Some e)
        | None => ([SheetAdd; Print "Created new worksheet"], None)
        end
    end in
  match opened with
  | (evs, Some e) => (evs, Some e)
  | (evs, None) =>
  match raises sh GetAllRecords with Some e => (evs, Some e) | None =>
  if existing sh then
    match raises sh AppendRows with
    | Some e => (evs, Some e)
    | None => (evs ++ [SheetAppend (values data);
                       Print "Successfully uploaded records to Google Sheets!"], None)
    end
  else
    match raises sh Update with
    | Some e => (evs, Some e)
    | None => (evs ++ [SheetUpdate (map Some (columns data) :: values data);
                       Print "Successfully uploaded records to Google Sheets!"], None)
    end
  end end end end.

Definition upload_to_sheets (sh : sheet) (data : list V2.record)
  : list event * result unit :=
  match data with
  | [] => ([Print "No data to upload"], Ok tt)
  | _ =>
      let start := [Print "Uploading records to Google Sheets..."] in
      match upload_body sh data with
      | (evs, None) => (start ++ evs, Ok tt)
      | (evs, Some e) =>                       (* except Exception as e: print; raise *)
          (start ++ evs
           ++ [Print ("Failed to upload to Google Sheets: " +:+ exn_text e)], Raise e)
      end
  end.

Record args : Type := Args {
  arg_date : option string;
  arg_no_upload : bool;
  arg_output : option string
}.

Definition closing : event :=
  Print "Sarasota County Scraper completed successfully!".

Definition banner : list event :=
  [Print "Sarasota County Arrest Scraper v2"].

(** [if args.output: with open(args.output, 'w') as f: json.dump(..);
    print_success(..)]: the events and, when the block raised, the
    exception.  An absent path and an empty one are both falsy. *)
Definition dump_results (fs : files) (output : option string)
    (results : list V2.record) : list event * option exn :=
  match output with
  | Some path =>
      if Str.truthy path then
        match fs path with
        | Some e => ([], Some e)
        | None => ([FileDump path results; Print ("Saved results to " +:+ path)], None)
        end
      else ([], None)
  | None => ([], None)
  end.

(** What [main] does inside its [try], given the date. *)
Definition main_body (pages : nat -> V2.page) (fs : files) (sh : sheet) (a : args)
    (date : string) : list event * result unit :=
  match outcome (V2.scrape_for_date pages date) with
  | Raise e => ([], Raise e)
  | Ok results =>
      let total := [Print "Total records scraped"] in
      match dump_results fs (arg_output a) results with
      | (evs, Some e) => (total ++ evs, Raise e)
      | (evs, None) =>
          let dumped := total ++ evs in
          if negb (arg_no_upload a) && negb (Nat.eqb (length results) 0) then
            match upload_to_sheets sh results with
            | (evs', Ok _) => (dumped ++ evs' ++ [closing], Ok tt)
            | (evs', Raise e) => (dumped ++ evs', Raise e)
            end
          else (dumped ++ [closing], Ok tt)
      end
  end.

(** The date [main] scrapes: the argument, or yesterday by the clock. *)
Definition main_date (today : Datetime.date) (a : args) : result string :=
  match arg_date a with
  | Some d => if Str.truthy d then Ok d
              else let* y := sub_one_day today in Ok (Datetime.strftime_Ymd y)
  | None => let* y := sub_one_day today in Ok (Datetime.strftime_Ymd y)
  end.

(** [main]: the events and the status it returns; [Raise] is an
    exception that leaves it. *)
Definition main (today : Datetime.date) (pages : nat -> V2.page) (fs : files)
    (sh : sheet) (a : args) : list event * result Z :=
  match main_date today a with
  | Raise e => ([], Raise e)             (* before the [try] *)
  | Ok date =>
      match main_body pages fs sh a date with
      | (evs, Ok _) => (banner ++ evs, Ok 0)
      | (evs, Raise e) =>
          (banner ++ evs ++ [Print ("Scraper failed: " +:+ exn_text e)], Ok 1)
      end
  end.

(** A sheet that holds records and rejects nothing, and one that lets
    nobody in. *)
Definition filled_sheet : sheet := Sheet (fun _ => None) true.
Definition empty_sheet : sheet := Sheet (fun _ => None) false.
Definition locked_sheet : sheet :=
  Sheet (fun c => match c with
                  | OpenByKey => Some (OtherError "The caller does not have permission")
                  | _ => None
                  end) false.

End V2Main.

(** The cells of a record, in its own key order. *)
Definition record_cells (r : V2.record) : list (option string) :=
  map (fun kv => Some kv.2) r.

Definition V2_KEYS : list string := ["arrest_date"; "raw_text"; "scraped_at"].

(** The events of an upload that write to the sheet. *)
Definition writes (ev : V2Main.event) : bool :=
  match ev with
  | V2Main.SheetAppend _ | V2Main.SheetUpdate _ => true
  | _ => false
  end.



(** ** [test_setup.py] *)

Module Setup.

Definition PACKAGES : list string := ["playwright"; "pandas"; "gspread"; "tenacity"].

(** What the checks meet on the machine. *)
Record machine : Type := Machine {
  importable : string -> bool;            (* [import pkg] returns *)
  chromium_launches : bool;
  (** credentials.json: absent, unreadable, or read with or without the
      key client_email *)
  credentials : option (result bool);
  sheet_opens : bool                       (* service_account and open_by_key return *)
}.

(** [test_imports]: the lines printed and the verdict; the first
    package that cannot be imported ends the check. *)
Fixpoint imports_from (m : machine) (pkgs : list string) : list string * bool :=
  match pkgs with
  | [] => ([], true)
  | pkg :: pkgs' =>
      if importable m pkg then
        let '(lines, ok) := imports_from m pkgs' in
        ((pkg +:+ " installed") :: lines, ok)
      else ([pkg +:+ " not installed - run: pip install -r requirements.txt"], false)
  end.

Definition test_imports (m : machine) : list string * bool :=
  imports_from m PACKAGES.

Definition test_playwright_browser (m : machine) : bool := chromium_launches m.

Definition test_credentials (m : machine) : bool :=
  match credentials m with
  | None => false                          (* credentials.json not found *)
  | Some (Raise _) => false                (* error reading credentials.json *)
  | Some (Ok _) => true                    (* with or without client_email *)
  end.

Definition test_google_sheets (m : machine) : bool :=
  match credentials m with
  | None => false                          (* skipping *)
  | Some _ => sheet_opens m                (* the worksheet may be missing *)
  end.

(** [main]: the four verdicts in order and the status returned. *)
Definition main (m : machine) : list (string * bool) * Z :=
  let results :=
    [("Imports", (test_imports m).2);
     ("Playwright Browser", test_playwright_browser m);
     ("Credentials", test_credentials m);
     ("Google Sheets", test_google_sheets m)] in
  let all_passed := forallb snd (take 2 results) in
  (results, if all_passed then 0%Z else 1%Z).

(** A machine with everything installed and no credentials file. *)
Definition fresh_machine : machine :=
  Machine (fun _ => true) true None false.

End Setup.

(** * Properties *)

(** ** Strings *)

Module StrFacts.
Import Str.

Lemma isdigit_cases (c : ascii) : isdigit c = true → In c digit_chars.
Proof.
destruct c as [[] [] [] [] [] [] [] []]; vm_compute; intros Hd;
  first [discriminate | tauto].
Qed.

Lemma isdigit_not_space (c : ascii) : isdigit c = true → isspace c = false.
Proof.
intros Hd. apply isdigit_cases in Hd. simpl in Hd.
repeat (destruct Hd as [<-|Hd]; [reflexivity|]). destruct Hd.
Qed.

Lemma isdigit_not_sep (c : ascii) :
isdigit c = true → Ascii.eqb c "/" = false ∧ Ascii.eqb c "-" = false.
Proof.
intros Hd. apply isdigit_cases in Hd. simpl in Hd.
repeat (destruct Hd as [<-|Hd]; [split; reflexivity|]). destruct Hd.
Qed.

Lemma append_cons (c : ascii) (s t : string) :
String c s +:+ t = String c (s +:+ t).
Proof. reflexivity. Qed.

Lemma append_nil_l (t : string) : "" +:+ t = t.
Proof. reflexivity. Qed.

Lemma append_nil_r (s : string) : s +:+ "" = s.
Proof. induction s as [|c s IH]; [done|]. by rewrite append_cons, IH. Qed.

Lemma rev_onto_twice (a b c : string) :
rev_onto (rev_onto a b) c = rev_onto b (a +:+ c).
Proof.
revert b c. induction a as [|x a IH]; intros b c; simpl; [done|].
by rewrite IH, append_cons.
Qed.

Lemma rev_involutive (s : string) : rev (rev s) = s.
Proof. unfold rev. rewrite rev_onto_twice. cbn. apply append_nil_r. Qed.

Lemma rev_onto_app (a b acc : string) :
rev_onto (a +:+ b) acc = rev_onto b (rev_onto a acc).
Proof.
revert acc. induction a as [|x a IH]; intros acc; [done|].
rewrite append_cons. simpl. apply IH.
Qed.

Lemma lstrip_head (s : string) (c : ascii) (t : string) :
lstrip s = String c t → isspace c = false.
Proof.
induction s as [|x s IH]; simpl; [discriminate|].
destruct (isspace x) eqn:Hx; [exact IH|]. by intros [= <- _].
Qed.

(** A stripped string does not end in white space. *)
Lemma strip_last (s t0 : string) (c : ascii) :
strip s = t0 +:+ String c "" → isspace c = false.
Proof.
unfold strip, rstrip. intros Heq.
apply (f_equal rev) in Heq. rewrite rev_involutive in Heq.
unfold rev at 2 in Heq. rewrite rev_onto_app in Heq. simpl in Heq.
by apply lstrip_head in Heq.
Qed.

Lemma strip_no_final_newline (s t0 : string) : strip s ≠ t0 +:+ nls.
Proof. intros Heq. by apply strip_last in Heq. Qed.

Lemma length_0 (s : string) : String.length s = 0%nat → s = "".
Proof. by destruct s. Qed.

Lemma length_S (s : string) (n : nat) :
String.length s = S n → ∃ c t, s = String c t ∧ String.length t = n.
Proof. destruct s as [|c t]; [discriminate|]. intros [= Hn]. by exists c, t. Qed.


Lemma length_2 (s : string) :
String.length s = 2%nat → ∃ a b, s = String a (String b "").
Proof. destruct s as [|a [|b [|]]]; try discriminate. by exists a, b. Qed.

Lemma length_4 (s : string) :
String.length s = 4%nat →
∃ a b c d, s = String a (String b (String c (String d ""))).
Proof.
destruct s as [|a [|b [|c [|d [|]]]]]; try discriminate. by exists a, b, c, d.
Qed.


Lemma all_cons (p : ascii -> bool) (c : ascii) (s : string) :
all p (String c s) = true ↔ p c = true ∧ all p s = true.
Proof. simpl. apply andb_true_iff. Qed.

End StrFacts.

(** ** The patterns of [normalize_date] *)

Module NormalizeFacts.
Import StrFacts.

#[local] Opaque Str.isdigit Ascii.eqb.

Ltac split_text H :=
repeat match type of H with
  | context [match ?s with EmptyString => _ | String _ _ => _ end] =>
      is_var s; destruct s; cbn in H; try discriminate H
  | context [Re.at_eol ?s] =>
      is_var s; destruct s as [|? [|? ?]]; cbn in H; try discriminate H
  | context [if Str.isdigit ?c then _ else _] =>
      let E := fresh "Hdigit" in
      destruct (Str.isdigit c) eqn:E; cbn in H; try discriminate H
  | context [if Ascii.eqb ?c ?d then _ else _] =>
      let E := fresh "Hchar" in
      destruct (Ascii.eqb c d) eqn:E; cbn in H; try discriminate H
  end.

Ltac chars_eq :=
repeat match goal with
  | E : Ascii.eqb ?c ?d = true |- _ => apply Ascii.eqb_eq in E; subst c
  end.

Ltac digits_done :=
unfold digits; cbn;
repeat match goal with E : Str.isdigit _ = true |- _ => rewrite E; clear E end;
reflexivity.

Lemma re_iso_sound (t : string) :
Re.matched (Re.re_match re_iso t) = true →
iso_shape t ∨ ∃ t0, t = t0 +:+ Str.nls.
Proof.
unfold Re.re_match, re_iso. cbn. intros H.
split_text H; chars_eq.
- left.
  exists (String a (String a0 (String a1 (String a2 "")))),
         (String a4 (String a5 "")), (String a7 (String a8 "")).
  split; [reflexivity|]. repeat split; digits_done.
- right.
  by exists (String a (String a0 (String a1 (String a2 (String "-"
            (String a4 (String a5 (String "-" (String a7 (String a8 "")))))))))).
Qed.

Ltac digit_facts :=
unfold digits in *;
repeat match goal with
  | H : Str.all Str.isdigit (String _ _) = true |- _ =>
      apply all_cons in H; destruct H as [? H]
  | H : Str.all Str.isdigit EmptyString = true |- _ => clear H
  end.

Ltac run_match :=
repeat first
  [ rewrite Ascii.eqb_refl
  | match goal with
    | E : Str.isdigit ?c = true |- context [Str.isdigit ?c] => rewrite E
    | E : Ascii.eqb ?c ?d = false |- context [Ascii.eqb ?c ?d] => rewrite E
    end
  | progress cbn ].

Lemma re_iso_complete (t : string) :
iso_shape t → Re.matched (Re.re_match re_iso t) = true.
Proof.
intros (yy & mo & dd & -> & Hy & Hm & Hd & Ly & Lm & Ld).
apply length_4 in Ly as (y1 & y2 & y3 & y4 & ->).
apply length_2 in Lm as (m1 & m2 & ->).
apply length_2 in Ld as (d1 & d2 & ->).
digit_facts. unfold Re.re_match, re_iso. cbv [String.append]. run_match.
reflexivity.
Qed.






End NormalizeFacts.

(** ** The calendar *)

Module CalendarFacts.
Import Datetime.
#[local] Open Scope Z_scope.

Lemma is_leap_spec (y : Z) :
is_leap y = true ↔ y mod 4 = 0 ∧ (y mod 100 ≠ 0 ∨ y mod 400 = 0).
Proof.
unfold is_leap. rewrite andb_true_iff, orb_true_iff, negb_true_iff.
rewrite !Z.eqb_eq, Z.eqb_neq. tauto.
Qed.

Lemma days_before_year_succ (y : Z) :
days_before_year (y + 1) = days_before_year y + days_in_year y.
Proof.
unfold days_before_year, days_in_year. cbv zeta.
replace (y + 1 - 1) with y by lia.
destruct (is_leap y) eqn:Hleap.
- apply is_leap_spec in Hleap. Z.div_mod_to_equations. lia.
- assert (Hn : ¬ (y mod 4 = 0 ∧ (y mod 100 ≠ 0 ∨ y mod 400 = 0))).
  { rewrite <- is_leap_spec. congruence. }
  Z.div_mod_to_equations. lia.
Qed.

Lemma days_before_year_mono (y y' : Z) :
y <= y' → days_before_year y <= days_before_year y'.
Proof. unfold days_before_year. cbv zeta. intros Hle. Z.div_mod_to_equations. lia. Qed.

Lemma month_cases (m : Z) :
1 <= m <= 12 →
m = 1 ∨ m = 2 ∨ m = 3 ∨ m = 4 ∨ m = 5 ∨ m = 6 ∨ m = 7 ∨ m = 8 ∨ m = 9
∨ m = 10 ∨ m = 11 ∨ m = 12.
Proof. lia. Qed.

Ltac each_month H :=
apply month_cases in H;
repeat (destruct H as [->|H]; [|]); [..|subst].

Lemma days_before_month_succ (y m : Z) :
1 <= m <= 11 →
days_before_month y (m + 1) = days_before_month y m + days_in_month y m.
Proof.
intros Hm. assert (Hm' : 1 <= m <= 12) by lia.
each_month Hm'; try lia; unfold days_before_month, days_in_month;
  destruct (is_leap y); reflexivity.
Qed.

Lemma days_before_month_bounds (y m : Z) :
1 <= m <= 12 →
0 <= days_before_month y m
∧ days_before_month y m + days_in_month y m <= days_in_year y.
Proof.
intros Hm. each_month Hm; unfold days_before_month, days_in_month, days_in_year;
  destruct (is_leap y); split; apply Z.leb_le; reflexivity.
Qed.

Lemma days_before_month_mono (y m m' : Z) :
1 <= m → m < m' → m' <= 12 →
days_before_month y m + days_in_month y m <= days_before_month y m'.
Proof.
intros H1 Hlt H12. assert (Hm : 1 <= m <= 12) by lia.
assert (Hm' : 1 <= m' <= 12) by lia.
each_month Hm; each_month Hm'; try lia;
  unfold days_before_month, days_in_month; destruct (is_leap y);
  apply Z.leb_le; reflexivity.
Qed.

Lemma days_in_month_ge_28 (y m : Z) : 28 <= days_in_month y m.
Proof.
unfold days_in_month.
destruct (m =? 2); [destruct (is_leap y); lia|]. destruct (_ || _); lia.
Qed.

Lemma days_in_month_le_31 (y m : Z) : days_in_month y m <= 31.
Proof.
unfold days_in_month.
destruct (m =? 2); [destruct (is_leap y); lia|]. destruct (_ || _); lia.
Qed.

Lemma valid_spec (x : date) :
valid x = true ↔
1 <= year x <= 9999 ∧ 1 <= month x <= 12
∧ 1 <= day x <= days_in_month (year x) (month x).
Proof.
unfold valid, valid_ymd, MINYEAR, MAXYEAR.
rewrite !andb_true_iff, !Z.leb_le. tauto.
Qed.

(** [toordinal] grows with the order of the dates. *)
Lemma toordinal_lt (a b : date) :
valid a = true → valid b = true → date_ltb a b = true →
toordinal a < toordinal b.
Proof.
intros Ha%valid_spec Hb%valid_spec. unfold date_ltb, toordinal.
rewrite !orb_true_iff, !andb_true_iff, !orb_true_iff, !andb_true_iff.
rewrite !Z.ltb_lt, !Z.eqb_eq.
destruct a as [ya ma da], b as [yb mb db]. cbn in *.
pose proof (days_before_month_bounds ya ma ltac:(lia)) as [? ?].
pose proof (days_before_month_bounds yb mb ltac:(lia)) as [? ?].
intros [Hy|[-> [Hm|[-> Hd]]]].
- pose proof (days_before_year_mono (ya + 1) yb ltac:(lia)).
  rewrite days_before_year_succ in *. lia.
- pose proof (days_before_month_mono yb ma mb ltac:(lia) Hm ltac:(lia)). lia.
- lia.
Qed.

Lemma date_eqb_eq (a b : date) : date_eqb a b = true ↔ a = b.
Proof.
unfold date_eqb. rewrite !andb_true_iff, !Z.eqb_eq.
destruct a, b; cbn. split; [intros [[-> ->] ->]; done | intros [= -> -> ->]; done].
Qed.

Lemma date_trichotomy (a b : date) :
date_ltb a b = true ∨ a = b ∨ date_ltb b a = true.
Proof.
rewrite <- date_eqb_eq. unfold date_ltb, date_eqb.
rewrite !orb_true_iff, !andb_true_iff, !orb_true_iff, !andb_true_iff.
rewrite !Z.ltb_lt, !Z.eqb_eq. lia.
Qed.

Lemma date_leb_ordinal (a b : date) :
valid a = true → valid b = true →
(date_leb a b = true ↔ toordinal a <= toordinal b).
Proof.
intros Ha Hb. unfold date_leb. rewrite orb_true_iff, date_eqb_eq. split.
- intros [Hlt| ->]; [|lia]. pose proof (toordinal_lt a b Ha Hb Hlt). lia.
- intros Hle. destruct (date_trichotomy a b) as [?|[?|Hgt]]; [tauto..|].
  pose proof (toordinal_lt b a Hb Ha Hgt). lia.
Qed.

Lemma date_ltb_ordinal (a b : date) :
valid a = true → valid b = true →
(date_ltb a b = true ↔ toordinal a < toordinal b).
Proof.
intros Ha Hb. split; [by apply toordinal_lt|].
intros Hlt. destruct (date_trichotomy a b) as [?|[->|Hgt]]; [done|lia|].
pose proof (toordinal_lt b a Hb Ha Hgt). lia.
Qed.

Lemma toordinal_inj (a b : date) :
valid a = true → valid b = true → toordinal a = toordinal b → a = b.
Proof.
intros Ha Hb Heq. destruct (date_trichotomy a b) as [Hlt|[?|Hgt]]; [|done|].
- pose proof (toordinal_lt a b Ha Hb Hlt). lia.
- pose proof (toordinal_lt b a Hb Ha Hgt). lia.
Qed.

(** The next day is valid and one ordinal further. *)
Lemma add_one_day_ok (x x' : date) :
valid x = true → add_one_day x = Ok x' →
valid x' = true ∧ toordinal x' = toordinal x + 1.
Proof.
intros Hx%valid_spec. unfold add_one_day, MAXYEAR. rewrite valid_spec.
destruct x as [y m d]. cbn in *.
destruct (d <? days_in_month y m) eqn:Hd.
{ apply Z.ltb_lt in Hd. intros [= <-]. unfold toordinal. cbn. lia. }
apply Z.ltb_ge in Hd. destruct (m <? 12) eqn:Hm.
{ apply Z.ltb_lt in Hm. intros [= <-]. unfold toordinal. cbn.
  rewrite days_before_month_succ by lia.
  pose proof (days_in_month_ge_28 y (m + 1)). lia. }
apply Z.ltb_ge in Hm. destruct (y <? 9999) eqn:Hy; [|discriminate].
apply Z.ltb_lt in Hy. intros [= <-]. unfold toordinal. cbn.
rewrite days_before_year_succ. assert (m = 12) as -> by lia.
change (days_in_month y 12) with 31 in *. assert (d = 31) as -> by lia.
change (days_in_month (y + 1) 1) with 31.
unfold days_before_month, days_in_year.
change (nth (Z.to_nat 1) DAYS_BEFORE_MONTH 0) with 0.
change (nth (Z.to_nat 12) DAYS_BEFORE_MONTH 0) with 334.
change (2 <? 1) with false. change (2 <? 12) with true. cbn [andb].
destruct (is_leap y); lia.
Qed.

Lemma add_one_day_raise (x : date) (e : exn) :
valid x = true → add_one_day x = Raise e →
x = Date 9999 12 31 ∧ e = OverflowError "date value out of range".
Proof.
intros Hx%valid_spec. unfold add_one_day, MAXYEAR.
destruct x as [y m d]. cbn in *.
destruct (d <? days_in_month y m) eqn:Hd; [discriminate|].
destruct (m <? 12) eqn:Hm; [discriminate|].
destruct (y <? 9999) eqn:Hy; [discriminate|].
apply Z.ltb_ge in Hd, Hm, Hy. intros [= <-]. split; [|done].
assert (m = 12) as -> by lia. assert (y = 9999) as -> by lia.
change (days_in_month 9999 12) with 31 in *. f_equal. lia.
Qed.

Lemma strptime_valid (fmt : Re.regex) (s : string) (x : date) :
strptime fmt s = Ok x → valid x = true.
Proof.
unfold strptime. destruct (Re.re_match fmt s) as [m|]; [|discriminate].
destruct (negb _); [discriminate|].
destruct (valid_ymd _ _ _) eqn:Hv; [|discriminate]. by intros [= <-].
Qed.

Lemma strptime_raises (fmt : Re.regex) (s : string) (e : exn) :
strptime fmt s = Raise e → ∃ msg, e = ValueError msg.
Proof.
unfold strptime. destruct (Re.re_match fmt s) as [m|]; [|intros [= <-]; eauto].
destruct (negb _); [intros [= <-]; eauto|].
destruct (valid_ymd _ _ _); [discriminate | intros [= <-]; eauto].
Qed.

End CalendarFacts.

(** ** [strptime] on the two formats *)

Module StrptimeFacts.
Import StrFacts.

Ltac each_digit H :=
apply isdigit_cases in H; cbv [digit_chars In] in H;
repeat (destruct H as [<-|H]; [|]); [..|destruct H].


Section Directives.
Context {A : Type}.
Variable k : Re.mstate -> option A.
Variable R : Re.regex.
Variable r : string.
Variable cs : list (nat * string).

(** A month of two digits before a slash or a hyphen. *)
Lemma month_two_digits (sep a b : ascii) (p : nat) :
In (sep, p) [("/"%char, 0%nat); ("-"%char, 5%nat)] →
Str.isdigit a = true → Str.isdigit b = true →
Re.matchk (Re.Seq Datetime.re_m (Re.Seq (Re.chr sep) R))
(Re.MState p (String a (String b (String sep r))) cs) k
= if in_range 1 12 (Str.int (String a (String b "")))
then Re.matchk R
       (Re.MState (S (S (S p))) r
          ((Datetime.gm, String a (String b "")) :: cs)) k
else None.
Proof.
intros Hp Ha Hb. cbv [In] in Hp.
destruct Hp as [[= <- <-]|[[= <- <-]|[]]]; each_digit Ha; each_digit Hb;
vm_compute; try reflexivity;
repeat match goal with
  | |- match ?X with Some _ => _ | None => _ end = _ => destruct X
  end; reflexivity.
Qed.




End Directives.

#[local] Opaque Str.isdigit Ascii.eqb.


#[local] Opaque Str.int.

Lemma valid_ymd_in_range (y m d : Z) :
Datetime.valid_ymd y m d = true → in_range 1 12 m = true ∧ in_range 1 31 d = true.
Proof.
unfold Datetime.valid_ymd, in_range. pose proof (CalendarFacts.days_in_month_le_31 y m).
rewrite !andb_true_iff, !Z.leb_le. lia.
Qed.



End StrptimeFacts.

(** ** Reformatting *)

Module FormatFacts.
Import StrFacts.

Lemma pad4_int_all :
forallb (fun a => forallb (fun b => forallb (fun c => forallb (fun d =>
  String.eqb
    (Str.pad4 (Str.int (String a (String b (String c (String d ""))))))
    (String a (String b (String c (String d "")))))
  digit_chars) digit_chars) digit_chars) digit_chars = true.
Proof. vm_compute. reflexivity. Qed.

Lemma pad4_int (a b c d : ascii) :
Str.isdigit a = true → Str.isdigit b = true →
Str.isdigit c = true → Str.isdigit d = true →
Str.pad4 (Str.int (String a (String b (String c (String d "")))))
= String a (String b (String c (String d ""))).
Proof.
intros Ha%isdigit_cases Hb%isdigit_cases Hc%isdigit_cases Hd%isdigit_cases.
pose proof pad4_int_all as Hall.
rewrite forallb_forall in Hall. specialize (Hall a Ha).
rewrite forallb_forall in Hall. specialize (Hall b Hb).
rewrite forallb_forall in Hall. specialize (Hall c Hc).
rewrite forallb_forall in Hall. specialize (Hall d Hd).
by apply String.eqb_eq in Hall.
Qed.

Lemma pad2_int_all :
forallb (fun a =>
  String.eqb (Str.pad2 (Str.int (String a ""))) (String "0" (String a ""))
  && forallb (fun b =>
       String.eqb (Str.pad2 (Str.int (String a (String b ""))))
                  (String a (String b "")))
     digit_chars) digit_chars = true.
Proof. vm_compute. reflexivity. Qed.


Lemma pad2_int_2 (a b : ascii) :
Str.isdigit a = true → Str.isdigit b = true →
Str.pad2 (Str.int (String a (String b ""))) = String a (String b "").
Proof.
intros Ha%isdigit_cases Hb%isdigit_cases. pose proof pad2_int_all as Hall.
rewrite forallb_forall in Hall. specialize (Hall a Ha).
apply andb_true_iff in Hall as [_ Hall].
rewrite forallb_forall in Hall. specialize (Hall b Hb).
by apply String.eqb_eq in Hall.
Qed.


(** From the year 1000 on the year is printed with its four digits. *)
Lemma year_text_pad4 (y : Z) : (1000 <= y)%Z → Datetime.year_text y = Str.pad4 y.
Proof.
intros Hy. unfold Datetime.year_text.
by rewrite !(proj2 (Z.ltb_ge _ _)) by lia.
Qed.



Lemma length_append (s t : string) :
String.length (s +:+ t) = (String.length s + String.length t)%nat.
Proof. induction s as [|c s IH]; [done|]. rewrite append_cons. cbn. by rewrite IH. Qed.

Lemma iso_shape_length (a : string) : iso_shape a → String.length a = 10%nat.
Proof.
intros (yy & mo & dd & -> & _ & _ & _ & Ly & Lm & Ld).
rewrite !length_append, Ly, Lm, Ld. reflexivity.
Qed.





(** White space around a text of either shape is all [strip] removes. *)
Lemma strip_iso (t : string) : iso_shape t → Str.strip t = t.
Proof.
intros (yy & mo & dd & -> & Hy & Hm & Hd & Ly & Lm & Ld).
apply length_4 in Ly as (y1 & y2 & y3 & y4 & ->).
apply length_2 in Lm as (m1 & m2 & ->).
apply length_2 in Ld as (d1 & d2 & ->).
NormalizeFacts.digit_facts.
unfold Str.strip, Str.rstrip, Str.rev. cbv [String.append]. cbn.
rewrite (isdigit_not_space y1) by done. cbn.
rewrite (isdigit_not_space d2) by done. reflexivity.
Qed.

End FormatFacts.

(** ** The date normalizer *)





(** ** The date range *)

Module RangeFacts.
Import Datetime CalendarFacts.
#[local] Open Scope Z_scope.

Lemma loop_days (fuel : nat) (s e : date) :
valid s = true → valid e = true →
(Z.to_nat (toordinal e - toordinal s + 1) < fuel)%nat →
∃ ds, daterange_loop fuel s e = GenTrace (strftime_Ymd <$> ds) (range_ending s e)
      ∧ Forall (fun x => valid x = true) ds
      ∧ toordinal <$> ds = seqZ (toordinal s) (toordinal e - toordinal s + 1).
Proof.
revert s. induction fuel as [|fuel IH]; intros s Hs He Hfuel; [lia|].
cbn [daterange_loop]. unfold range_ending.
destruct (date_leb s e) eqn:Hle.
- apply date_leb_ordinal in Hle; [|done..].
  destruct (add_one_day s) as [s'|x] eqn:Hnext.
  + destruct (add_one_day_ok s s' Hs Hnext) as [Hs' Hord].
    destruct (IH s' Hs' He ltac:(lia)) as (ds & Hrun & Hvalid & Hords).
    exists (s :: ds). rewrite Hrun. unfold yield_first. cbn.
    split; [|split].
    * f_equal. unfold range_ending.
      destruct (date_eqb e (Date 9999 12 31)) eqn:Hmax;
        [|by rewrite !andb_false_r].
      rewrite !andb_true_r. apply date_eqb_eq in Hmax. subst e.
      destruct (date_leb s' (Date 9999 12 31)) eqn:Hle'; [done|].
      exfalso. destruct (date_leb_ordinal s' (Date 9999 12 31) Hs' He) as [_ Hback].
      assert (toordinal s <> toordinal (Date 9999 12 31)) as Hne.
      { intros Heq. apply toordinal_inj in Heq; [|done..]. subst s. discriminate. }
      rewrite Hback in Hle' by lia. discriminate.
    * by constructor.
    * rewrite Hords, Hord. rewrite (seqZ_cons (toordinal s)) by lia.
      f_equal. f_equal; lia.
  + destruct (add_one_day_raise s x Hs Hnext) as [-> ->].
    assert (e = Date 9999 12 31) as ->.
    { apply toordinal_inj; [done..|].
      assert (date_leb e (Date 9999 12 31) = true) as Hmax.
      { apply valid_spec in He. destruct e as [y m d]. cbn in He.
        pose proof (days_in_month_le_31 y m) as Hdim.
        unfold date_leb, date_ltb, date_eqb. cbn.
        rewrite !orb_true_iff, !andb_true_iff, !orb_true_iff, !andb_true_iff.
        rewrite !Z.ltb_lt, !Z.eqb_eq. lia. }
      apply date_leb_ordinal in Hmax; [|done..]. lia. }
    exists [Date 9999 12 31]. split; [reflexivity|]. split; [by repeat constructor|].
    reflexivity.
- exists []. cbn. split; [done|]. split; [constructor|].
  rewrite seqZ_nil; [done|].
  destruct (Z_le_gt_dec (toordinal s) (toordinal e)) as [Hord|Hord]; [|lia].
  apply date_leb_ordinal in Hord; [|done..]. congruence.
Qed.

End RangeFacts.

(** ** Normalized endpoints *)

Module EndpointFacts.
Import StrFacts.

Lemma day_two_digits_at_end (a b : ascii) (cs : list (nat * string)) :
Str.isdigit a = true → Str.isdigit b = true →
Re.matchk Datetime.re_d (Re.MState 8 (String a (String b "")) cs) Some
= if in_range 1 31 (Str.int (String a (String b "")))
  then Some (Re.MState 10 "" ((Datetime.gd, String a (String b "")) :: cs))
  else if in_range 1 9 (Str.int (String a ""))
  then Some (Re.MState 9 (String b "") ((Datetime.gd, String a "") :: cs))
  else None.
Proof.
intros Ha Hb. StrptimeFacts.each_digit Ha; StrptimeFacts.each_digit Hb;
  vm_compute; reflexivity.
Qed.

Lemma digit_char_isdigit (k : Z) :
(0 <= k <= 9)%Z → Str.isdigit (Str.digit_char k) = true.
Proof.
intros Hk.
assert (k = 0 ∨ k = 1 ∨ k = 2 ∨ k = 3 ∨ k = 4 ∨ k = 5 ∨ k = 6 ∨ k = 7
        ∨ k = 8 ∨ k = 9)%Z as Hcases by lia.
repeat (destruct Hcases as [->|Hcases]; [reflexivity|]). by subst.
Qed.

Lemma isdigit_dash : Str.isdigit "-" = false.
Proof. reflexivity. Qed.

Lemma dash_not_slash : Ascii.eqb "-" "/" = false.
Proof. reflexivity. Qed.

Ltac digit_bound :=
  match goal with
  | |- (0 <= ?v mod 10 <= 9)%Z => pose proof (Z.mod_pos_bound v 10 ltac:(lia)); lia
  | |- _ => lia
  end.

(** A printed date of the years from 1000 on has the shape YYYY-MM-DD. *)
Lemma strftime_iso_shape (x : Datetime.date) :
Datetime.valid x = true → (1000 <= Datetime.year x)%Z →
iso_shape (Datetime.strftime_Ymd x).
Proof.
intros Hx%CalendarFacts.valid_spec Hbig. destruct x as [y m d]. cbn in Hx, Hbig.
pose proof (CalendarFacts.days_in_month_le_31 y m).
unfold Datetime.strftime_Ymd. cbn [Datetime.year Datetime.month Datetime.day].
rewrite FormatFacts.year_text_pad4 by done.
exists (Str.pad4 y), (Str.pad2 m), (Str.pad2 d).
split; [reflexivity|]. unfold digits, Str.pad4, Str.pad2. cbn.
rewrite !digit_char_isdigit;
  [done | match goal with |- (0 <= ?v mod 10 <= 9)%Z =>
            pose proof (Z.mod_pos_bound v 10 ltac:(lia)); lia end ..].
Qed.

#[local] Opaque Str.isdigit Ascii.eqb Str.int.

Lemma year_first {A : Type} (k : Re.mstate -> option A) (R : Re.regex)
  (y1 y2 y3 y4 : ascii) (r : string) :
Str.isdigit y1 = true → Str.isdigit y2 = true →
Str.isdigit y3 = true → Str.isdigit y4 = true →
let yy := String y1 (String y2 (String y3 (String y4 ""))) in
Re.matchk (Re.Seq Datetime.re_Y (Re.Seq (Re.chr "-") R))
  (Re.MState 0 (String y1 (String y2 (String y3 (String y4 (String "-" r))))) [])
  k
= Re.matchk R (Re.MState 5 r [(Datetime.gY, yy)]) k.
Proof.
intros H1 H2 H3 H4. cbn. rewrite H1, H2, H3, H4. cbn.
rewrite Ascii.eqb_refl. reflexivity.
Qed.

(** A printed date of a year below 1000 has fewer than four year
  digits, and "%Y-%m-%d" does not read it. *)
Lemma strptime_short_year (x : Datetime.date) :
Datetime.valid x = true → (Datetime.year x < 1000)%Z →
Datetime.strptime Datetime.fmt_Ymd (Datetime.strftime_Ymd x)
= Raise (ValueError "time data does not match format").
Proof.
intros Hx%CalendarFacts.valid_spec Hy. destruct x as [y m d]. cbn in Hx, Hy.
unfold Datetime.strftime_Ymd, Datetime.year_text.
cbn [Datetime.year Datetime.month Datetime.day].
unfold Datetime.strptime, Re.re_match, Datetime.fmt_Ymd.
destruct (y <? 10)%Z eqn:H1; [|destruct (y <? 100)%Z eqn:H2];
  rewrite ?(proj2 (Z.ltb_lt y 1000) Hy);
  unfold Str.pad2; cbv [Re.seqs String.append]; cbn;
  rewrite ?digit_char_isdigit by digit_bound; cbn;
  rewrite ?isdigit_dash; reflexivity.
Qed.

(** Parsing a text of the shape YYYY-MM-DD and printing the date gives
  the text back, from the year 1000 on. *)
Lemma strptime_iso_roundtrip (a : string) (x : Datetime.date) :
iso_shape a → Datetime.strptime Datetime.fmt_Ymd a = Ok x →
(1000 <= Datetime.year x)%Z →
Datetime.strftime_Ymd x = a.
Proof.
intros (yy & mo & dd & -> & Hy & Hm & Hd & Ly & Lm & Ld).
apply length_4 in Ly as (y1 & y2 & y3 & y4 & ->).
apply length_2 in Lm as (m1 & m2 & ->).
apply length_2 in Ld as (d1 & d2 & ->).
NormalizeFacts.digit_facts.
unfold Datetime.strptime, Re.re_match, Datetime.fmt_Ymd.
cbv [Re.seqs String.append].
rewrite year_first by done.
rewrite (StrptimeFacts.month_two_digits _ _ _ _ "-" m1 m2 5)
  by (first [by right; left | done]).
destruct (in_range 1 12 _); [|discriminate].
rewrite day_two_digits_at_end by done.
destruct (in_range 1 31 _).
- cbn. destruct (Datetime.valid_ymd _ _ _); [|discriminate].
  intros [= <-] Hbig. unfold Datetime.strftime_Ymd.
  cbn [Datetime.year Datetime.month Datetime.day] in *.
  rewrite FormatFacts.year_text_pad4 by done.
  rewrite FormatFacts.pad4_int, !FormatFacts.pad2_int_2 by done. reflexivity.
- destruct (in_range 1 9 _); cbn; discriminate.
Qed.

(** What [normalize_date] returns is a text of the shape YYYY-MM-DD, or
  the printed date of a text M/D/YYYY. *)
Lemma normalize_date_result (d a : string) :
normalize_date d = Ok a →
iso_shape a
∨ ∃ x, Datetime.strptime Datetime.fmt_mdY (Str.strip d) = Ok x
       ∧ a = Datetime.strftime_Ymd x
       ∧ Re.matched (Re.re_match re_iso (Str.strip d)) = false.
Proof.
unfold normalize_date.
destruct (Re.matched (Re.re_match re_iso (Str.strip d))) eqn:Hiso.
- intros [= <-]. left.
  apply NormalizeFacts.re_iso_sound in Hiso as [H|(t0 & H)]; [done|].
  by apply strip_no_final_newline in H.
- destruct (Re.matched (Re.re_match re_us (Str.strip d))); [|discriminate].
  destruct (Datetime.strptime _ _) as [x|] eqn:Hparse; simpl; [|discriminate].
  intros [= <-]. right. by exists x.
Qed.

(** An endpoint that parses was normalized to a text of the shape
  YYYY-MM-DD. *)
Lemma parse_endpoint_iso (d : string) (x : Datetime.date) :
parse_endpoint d = Ok x →
∃ a, normalize_date d = Ok a ∧ iso_shape a
     ∧ Datetime.strptime Datetime.fmt_Ymd a = Ok x.
Proof.
unfold parse_endpoint. destruct (normalize_date d) as [a|] eqn:Hnorm; simpl;
  [|discriminate].
intros Hparse. exists a. split; [done|]. split; [|done].
destruct (normalize_date_result _ _ Hnorm) as [Hiso|(x0 & Hus & -> & _)]; [done|].
pose proof (CalendarFacts.strptime_valid _ _ _ Hus) as Hv0.
destruct (Z_lt_le_dec (Datetime.year x0) 1000) as [Hsmall|Hbig].
- rewrite (strptime_short_year x0 Hv0 Hsmall) in Hparse. discriminate.
- by apply strftime_iso_shape.
Qed.

(** An endpoint that parses to a date of the years from 1000 on is
  normalized to the text of its date. *)
Lemma parse_endpoint_normalized (d : string) (x : Datetime.date) :
parse_endpoint d = Ok x → (1000 <= Datetime.year x)%Z →
normalize_date d = Ok (Datetime.strftime_Ymd x).
Proof.
intros (a & Hnorm & Hiso & Hparse)%parse_endpoint_iso Hbig.
rewrite Hnorm. f_equal. symmetry. by apply strptime_iso_roundtrip.
Qed.

(** A printed date of a year below 1000 is shorter than YYYY-MM-DD. *)
Lemma strftime_short_not_iso (x : Datetime.date) :
Datetime.valid x = true → (Datetime.year x < 1000)%Z →
¬ iso_shape (Datetime.strftime_Ymd x).
Proof.
intros Hx%CalendarFacts.valid_spec Hy Hiso%FormatFacts.iso_shape_length.
destruct x as [y m d]. cbn in Hx, Hy.
unfold Datetime.strftime_Ymd, Datetime.year_text in Hiso.
cbn [Datetime.year Datetime.month Datetime.day] in Hiso.
destruct (y <? 10)%Z; [|destruct (y <? 100)%Z];
  rewrite ?(proj2 (Z.ltb_lt y 1000) Hy) in Hiso;
  unfold Str.pad2 in Hiso; cbv [String.append] in Hiso; discriminate Hiso.
Qed.

End EndpointFacts.

Lemma normalize_date_raises (d : string) (x : exn) :
  normalize_date d = Raise x → ∃ msg, x = ValueError msg.
Proof.
  unfold normalize_date. destruct (Re.matched _); [discriminate|].
  destruct (Re.matched _); [|intros [= <-]; eauto].
  destruct (Datetime.strptime _ _) as [y|e] eqn:Hparse; simpl; [discriminate|].
  intros [= <-]. by apply CalendarFacts.strptime_raises in Hparse.
Qed.

Lemma parse_endpoint_raises (d : string) (x : exn) :
  parse_endpoint d = Raise x → ∃ msg, x = ValueError msg.
Proof.
  unfold parse_endpoint. destruct (normalize_date d) as [a|e] eqn:Hnorm; simpl.
  - apply CalendarFacts.strptime_raises.
  - intros [= <-]. by apply normalize_date_raises in Hnorm.
Qed.





(** ** Deduplication *)

Lemma dedupe_fold (rows : list ArrestRow) (seen : gset row_key) (out : list dict) :
  foldl dedupe_step (seen, out) rows
  = (seen ∪ list_to_set (map key_of (first_rows seen rows)),
     out ++ map asdict (first_rows seen rows)).
Proof.
  revert seen out. induction rows as [|r rows IH]; intros seen out; simpl.
  - f_equal; [set_solver | by rewrite app_nil_r].
  - unfold dedupe_step at 2. simpl. destruct (decide (key_of r ∈ seen)) as [Hin|Hout].
    + apply IH.
    + rewrite IH. simpl. f_equal; [set_solver | by rewrite <- app_assoc].
Qed.

Lemma dedupe_first_rows (rows : list ArrestRow) :
  dedupe rows = map asdict (first_rows ∅ rows).
Proof. unfold dedupe. by rewrite dedupe_fold. Qed.

Lemma first_rows_sublist (seen : gset row_key) (rows : list ArrestRow) :
  sublist (first_rows seen rows) rows.
Proof.
  revert seen. induction rows as [|r rows IH]; intros seen; simpl.
  - constructor.
  - destruct (decide _); [apply sublist_cons | apply sublist_skip]; apply IH.
Qed.

Lemma first_rows_fresh (seen : gset row_key) (rows : list ArrestRow) (r : ArrestRow) :
  r ∈ first_rows seen rows → key_of r ∉ seen.
Proof.
  revert seen. induction rows as [|r0 rows IH]; intros seen; simpl.
  - by intros ?%elem_of_nil.
  - destruct (decide _) as [Hin|Hout]; [apply IH|].
    intros [->|Hr]%elem_of_cons; [done|].
    apply IH in Hr. intros Hs. apply Hr. by apply elem_of_union_r.
Qed.

Lemma first_rows_NoDup (seen : gset row_key) (rows : list ArrestRow) :
  NoDup (map key_of (first_rows seen rows)).
Proof.
  revert seen. induction rows as [|r rows IH]; intros seen; simpl.
  - constructor.
  - destruct (decide _) as [Hin|Hout]; [apply IH|].
    simpl. constructor; [|apply IH].
    intros (r' & Hk & Hr')%list_elem_of_In%in_map_iff.
    apply list_elem_of_In, first_rows_fresh in Hr'.
    apply Hr'. rewrite Hk. by apply elem_of_union_l, elem_of_singleton.
Qed.

Lemma first_rows_covers (seen : gset row_key) (rows : list ArrestRow) (r : ArrestRow) :
  r ∈ rows → key_of r ∈ seen ∨ key_of r ∈ map key_of (first_rows seen rows).
Proof.
  revert seen. induction rows as [|r0 rows IH]; intros seen; simpl.
  - by intros ?%elem_of_nil.
  - intros [->|Hr]%elem_of_cons.
    + destruct (decide _) as [Hin|Hout]; [by left|right; simpl; left].
    + destruct (decide _) as [Hin|Hout]; [by apply IH|].
      destruct (IH ({[key_of r0]} ∪ seen) Hr) as [Hs|Hs].
      * apply elem_of_union in Hs as [Hs%elem_of_singleton|Hs]; [|by left].
        right. simpl. rewrite Hs. left.
      * right. simpl. by right.
Qed.

(** Every kept row is the first of the input with its key. *)
Lemma first_rows_first (seen : gset row_key) (rows : list ArrestRow) (r : ArrestRow) :
  r ∈ first_rows seen rows →
  ∃ i, rows !! i = Some r ∧
       ∀ j r', (j < i)%nat → rows !! j = Some r' → key_of r' ≠ key_of r.
Proof.
  revert seen. induction rows as [|r0 rows IH]; intros seen; simpl.
  - by intros ?%elem_of_nil.
  - destruct (decide _) as [Hin|Hout].
    + intros Hr. pose proof (first_rows_fresh _ _ _ Hr) as Hfresh.
      destruct (IH _ Hr) as (i & Hi & Hfirst). exists (S i). split; [done|].
      intros [|j] r' Hj Hr'; simpl in Hr'.
      * injection Hr' as <-. congruence.
      * apply (Hfirst j); [lia | done].
    + intros [->|Hr]%elem_of_cons.
      * exists 0%nat. split; [done|]. intros; lia.
      * pose proof (first_rows_fresh _ _ _ Hr) as Hfresh.
        destruct (IH _ Hr) as (i & Hi & Hfirst). exists (S i). split; [done|].
        intros [|j] r' Hj Hr'; simpl in Hr'.
        -- injection Hr' as <-. intros Heq. apply Hfresh. rewrite <- Heq.
           by apply elem_of_union_l, elem_of_singleton.
        -- apply (Hfirst j); [lia | done].
Qed.

(** The loop of [dedupe], one row further: the row is appended when no
    row before it has its key, and dropped otherwise. *)
Lemma dedupe_snoc (rows : list ArrestRow) (r : ArrestRow) :
  dedupe (rows ++ [r])
  = dedupe rows ++ (if decide (key_of r ∈ map key_of rows) then [] else [asdict r]).
Proof.
  unfold dedupe. rewrite foldl_app. cbn [foldl]. rewrite dedupe_fold.
  unfold dedupe_step. cbn [fst snd].
  destruct (decide (key_of r ∈ map key_of rows)) as [Hin|Hout].
  - rewrite decide_True; [by rewrite app_nil_r|].
    apply list_elem_of_In, in_map_iff in Hin as (r' & Heq & Hr'%list_elem_of_In).
    rewrite <- Heq. apply elem_of_union_r, elem_of_list_to_set.
    destruct (first_rows_covers ∅ rows r' Hr') as [H|H]; [|done].
    by apply not_elem_of_empty in H.
  - rewrite decide_False; [done|].
    intros [H|H%elem_of_list_to_set]%elem_of_union; [by apply not_elem_of_empty in H|].
    apply Hout. apply list_elem_of_In, in_map_iff in H as (r' & Heq & Hr'%list_elem_of_In).
    apply list_elem_of_In, in_map_iff. exists r'. split; [done|].
    apply list_elem_of_In. eapply elem_of_sublist; [done | apply first_rows_sublist].
Qed.

Lemma dedupe_pair (r1 r2 : ArrestRow) :
  dedupe [r1; r2]
  = if decide (key_of r1 = key_of r2) then [asdict r1] else [asdict r1; asdict r2].
Proof.
  rewrite dedupe_first_rows. simpl.
  destruct (decide (key_of r1 ∈ ∅)) as [H|_]; [by apply not_elem_of_empty in H|].
  destruct (decide (key_of r1 = key_of r2)) as [Heq|Hne].
  - destruct (decide _) as [_|H]; [done|].
    exfalso. apply H. rewrite Heq. by apply elem_of_union_l, elem_of_singleton.
  - destruct (decide _) as [H|_]; [|done].
    apply elem_of_union in H as [H%elem_of_singleton|H]; [congruence|].
    by apply not_elem_of_empty in H.
Qed.

(** C3.  [dedupe] keeps, in input order, exactly the first row of every
    key, the key being the four fields name, arrest date, booking
    number and charges, where a missing field is a key value of its
    own.  The loop is fixed row by row: nothing comes of no rows, and a
    further row is appended, as the record of its ten fields, exactly
    when no row before it has its key.  So the output is the image of
    a sublist of the input whose keys are pairwise distinct, every
    input key is kept, and each kept row is the earliest with its key.
    Two rows that agree on the four key fields collapse to the first
    one, whatever their other fields hold, and the record kept has the
    bond of the first; two rows that differ in a key field are both
    kept, in their order. *)
Theorem dedupe_first_occurrence_wins (rows : list ArrestRow) :
  dedupe [] = []
  ∧ (∀ r, dedupe (rows ++ [r])
          = dedupe rows
            ++ (if decide (identity r ∈ map identity rows) then [] else [fields r]))
  ∧ (∃ kept : list ArrestRow,
      dedupe rows = map fields kept
      ∧ sublist kept rows
      ∧ NoDup (map identity kept)
      ∧ (∀ r, r ∈ rows → identity r ∈ map identity kept)
      ∧ (∀ r, r ∈ kept →
           ∃ i, rows !! i = Some r ∧
                ∀ j r', (j < i)%nat → rows !! j = Some r' → identity r' ≠ identity r))
  ∧ (∀ r1 r2 : ArrestRow,
      dedupe [r1; r2]
      = if decide (name r1 = name r2 ∧ arrest_date r1 = arrest_date r2
                   ∧ booking_number r1 = booking_number r2 ∧ charges r1 = charges r2)
        then [fields r1]
        else [fields r1; fields r2])
  ∧ (∀ r1 r2 : ArrestRow,
      identity r1 = identity r2 →
      map (dict_get "bond") (dedupe [r1; r2]) = [bond r1]
      ∧ map (dict_get "name") (dedupe [r1; r2]) = [name r1]).
Proof.
  split; [reflexivity|]. split; [|split; [|split]].
  - intros r. apply dedupe_snoc.
  - exists (first_rows ∅ rows). split; [apply dedupe_first_rows|].
    split; [apply first_rows_sublist|].
    split; [apply first_rows_NoDup|].
    split; [|apply first_rows_first].
    intros r Hr. destruct (first_rows_covers ∅ rows r Hr) as [H|H]; [|done].
    by apply not_elem_of_empty in H.
  - intros r1 r2. rewrite dedupe_pair.
    destruct (decide (key_of r1 = key_of r2)) as [Heq|Hne].
    + rewrite decide_True; [done|]. by injection Heq.
    + rewrite decide_False; [done|]. intros (H1 & H2 & H3 & H4). apply Hne.
      unfold key_of. by rewrite H1, H2, H3, H4.
  - intros r1 r2 Heq. rewrite dedupe_pair, decide_True by exact Heq.
    split; reflexivity.
Qed.

Lemma dedupe_first_occurrence_wins_witness :
  map (dict_get "bond") (dedupe [row_bond_500; row_bond_900]) = [Some "500"].
Proof.
  destruct (dedupe_first_occurrence_wins [row_bond_500; row_bond_900]) as (_ & _ & _ & _ & H).
  exact (proj1 (H row_bond_500 row_bond_900 eq_refl)).
Defined.

(** ** Retrying *)

Section RetryFacts.
Context {A : Type}.
Variable policy : retry_policy.
Variable attempt : nat -> result A.

Lemma retry_from_calls (left n : nat) :
(n <= calls (retry_from policy attempt left n) <= n + left)%nat.
Proof.
revert n. induction left as [|left IH]; intros n; simpl.
- destruct (attempt n) as [a|e]; [simpl; lia|].
  destruct (is_timeout e); simpl; lia.
- destruct (attempt n) as [a|e]; [simpl; lia|].
  destruct (is_timeout e); simpl; [|lia].
  specialize (IH (S n)). lia.
Qed.

(** Only a timeout is followed by another attempt. *)
Lemma retry_from_retried (left n k : nat) :
(n <= k < calls (retry_from policy attempt left n))%nat →
timed_out (attempt k) = true.
Proof.
revert n. induction left as [|left IH]; intros n; simpl.
- destruct (attempt n) as [a|e]; [simpl; lia|].
  destruct (is_timeout e); simpl; lia.
- destruct (attempt n) as [a|e] eqn:Hn; [simpl; lia|].
  destruct (is_timeout e) eqn:He; simpl; [|lia].
  intros Hk. destruct (decide (k = n)) as [->|Hne].
  + by rewrite Hn.
  + apply (IH (S n)). lia.
Qed.

Lemma retry_from_sleeps (left n : nat) :
sleeps (retry_from policy attempt left n)
= map (wait_exponential policy)
    (seq n (calls (retry_from policy attempt left n) - n)).
Proof.
revert n. induction left as [|left IH]; intros n; simpl.
- destruct (attempt n) as [a|e]; [simpl; by rewrite Nat.sub_diag|].
  destruct (is_timeout e); simpl; by rewrite Nat.sub_diag.
- destruct (attempt n) as [a|e]; [simpl; by rewrite Nat.sub_diag|].
  destruct (is_timeout e); simpl; [|by rewrite Nat.sub_diag].
  rewrite IH. pose proof (retry_from_calls left (S n)) as Hc.
  destruct (calls (retry_from policy attempt left (S n)) - n)%nat as [|m] eqn:Hm; [lia|].
  simpl. do 2 f_equal. f_equal. lia.
Qed.
End RetryFacts.

Lemma wait_exponential_bounds (p : retry_policy) (n : nat) :
  (0 <= min_wait p <= max_wait p)%Z →
  (min_wait p <= wait_exponential p n <= max_wait p)%Z.
Proof. unfold wait_exponential. lia. Qed.

(** C4 (as the code has it).  Both decorators retry a session only after
    a timeout and sleep 1 s after the first attempt, every sleep between
    1 s and 6 s; an error that is no timeout ends the call at once with
    that error, no sleep and no further attempt.  The primary script
    stops after 3 attempts: two timeouts and a success return the
    success after exactly three calls and sleeps of 1 s and 2 s.  The
    v2 script stops after 2 attempts: two timeouts end the call with the
    second timeout after exactly two calls and one sleep of 1 s, whatever
    a third attempt would have done. *)
Theorem retry_timeouts_only_bounded {A : Type} (session : nat -> result A) :
  (* not a timeout: no retry *)
  (∀ e, session 1%nat = Raise e → is_timeout e = false →
        scrape_for_date session = RetryRun (Raise e) 1 []
        ∧ scrape_for_date_v2 session = RetryRun (Raise e) 1 [])
  (* three attempts in the primary script *)
  ∧ (∀ m1 m2 v, session 1%nat = Raise (PWTimeoutError m1) →
        session 2%nat = Raise (PWTimeoutError m2) →
        session 3%nat = Ok v →
        scrape_for_date session = RetryRun (Ok v) 3 [1; 2]%Z)
  (* two attempts in v2 *)
  ∧ (∀ m1 m2, session 1%nat = Raise (PWTimeoutError m1) →
        session 2%nat = Raise (PWTimeoutError m2) →
        scrape_for_date_v2 session = RetryRun (Raise (PWTimeoutError m2)) 2 [1]%Z)
  (* attempts are bounded and follow timeouts only; sleeps start at 1 s
     and stay within 1 s .. 6 s *)
  ∧ (let r1 := scrape_for_date session in
     let r2 := scrape_for_date_v2 session in
     (1 <= calls r1 <= 3)%nat ∧ (1 <= calls r2 <= 2)%nat
     ∧ (∀ k, (1 <= k < calls r1)%nat → timed_out (session k) = true)
     ∧ (∀ k, (1 <= k < calls r2)%nat → timed_out (session k) = true)
     ∧ (∀ s, In s (sleeps r1 ++ sleeps r2) → (1 <= s <= 6)%Z)
     ∧ (∀ s, head (sleeps r1) = Some s ∨ head (sleeps r2) = Some s → s = 1%Z)).
Proof.
  split; [|split; [|split]].
  - intros e He Hnt. unfold scrape_for_date, scrape_for_date_v2, retrying. simpl.
    by rewrite He, Hnt.
  - intros m1 m2 v H1 H2 H3. unfold scrape_for_date, retrying. simpl.
    by rewrite H1, H2, H3.
  - intros m1 m2 H1 H2. unfold scrape_for_date_v2, retrying. simpl.
    by rewrite H1, H2.
  - cbv zeta. unfold scrape_for_date, scrape_for_date_v2, retrying.
    pose proof (retry_from_calls policy_v1 session 2 1) as Hc1.
    pose proof (retry_from_calls policy_v2 session 1 1) as Hc2.
    simpl max_attempt_number. simpl Nat.sub.
    split; [lia|]. split; [lia|].
    split; [intros k Hk; by apply (retry_from_retried policy_v1 session 2 1)|].
    split; [intros k Hk; by apply (retry_from_retried policy_v2 session 1 1)|].
    rewrite !retry_from_sleeps. split.
    + intros s [Hs|Hs]%in_app_iff; apply in_map_iff in Hs as (n & <- & _).
      * apply (wait_exponential_bounds policy_v1). simpl. lia.
      * apply (wait_exponential_bounds policy_v2). simpl. lia.
    + intros s [Hs|Hs].
      * destruct (calls (retry_from policy_v1 session 2 1) - 1)%nat;
          simpl in Hs; [discriminate | by injection Hs as <-].
      * destruct (calls (retry_from policy_v2 session 1 1) - 1)%nat;
          simpl in Hs; [discriminate | by injection Hs as <-].
Qed.

Lemma retry_timeouts_only_bounded_witness :
  scrape_for_date flaky_session = RetryRun (Ok "records") 3 [1; 2]%Z.
Proof.
  destruct (retry_timeouts_only_bounded flaky_session) as (_ & H & _).
  apply (H "Timeout 30000ms exceeded" "Timeout 30000ms exceeded" "records");
    reflexivity.
Defined.

(** C4 fails for the v2 script: after two timeouts it gives up, and the
    third attempt, which would have succeeded, is never made. *)
Lemma retry_v2_gives_up_after_two :
  outcome (scrape_for_date_v2 flaky_session) ≠ Ok "records"
  ∧ scrape_for_date_v2 flaky_session
    = RetryRun (Raise (PWTimeoutError "Timeout 30000ms exceeded")) 2 [1]%Z.
Proof. split; [discriminate | reflexivity]. Qed.

(** ** The batch loop *)

Lemma batch_from_collect scrape (i : nat) (dates : list string) (st : batch_state) :
  batch_from scrape i dates st
  = BatchState (all_records st ++ collect (date_records scrape) i dates)
               (stderr st ++ collect (date_errors scrape) i dates).
Proof.
  revert i st. induction dates as [|d dates IH]; intros i st; simpl.
  - destruct st; simpl. by rewrite !app_nil_r.
  - rewrite IH. unfold batch_step, date_records, date_errors.
    destruct (scrape i d) as [recs|e]; simpl; by rewrite <- ?app_assoc.
Qed.

(** C5.  The batch loop visits every date: the aggregate is the
    concatenation, in date order, of the results of the dates that
    succeeded, and every failing date, whatever its error, leaves one
    line in the error log and nothing in the aggregate.  With three
    dates of which the second fails, the aggregate is the records of
    the first followed by those of the third. *)
Theorem batch_isolates_failures (scrape : nat -> string -> result (list dict)) :
  (∀ dates,
      run_batch scrape dates
      = BatchState (collect (date_records scrape) 0 dates)
                   (collect (date_errors scrape) 0 dates))
  ∧ (∀ d1 d2 d3 recs1 e recs3,
      scrape 0%nat d1 = Ok recs1 →
      scrape 1%nat d2 = Raise e →
      scrape 2%nat d3 = Ok recs3 →
      run_batch scrape [d1; d2; d3]
      = BatchState (recs1 ++ recs3) ["[" +:+ d2 +:+ "] ERROR: " +:+ exn_text e]).
Proof.
  split.
  - intros dates. unfold run_batch. by rewrite batch_from_collect.
  - intros d1 d2 d3 recs1 e recs3 H1 H2 H3. unfold run_batch. simpl.
    unfold batch_step. rewrite H1. simpl. rewrite H2. simpl. by rewrite H3.
Qed.

Lemma batch_isolates_failures_witness :
  run_batch three_day_scrape ["2025-01-01"; "2025-01-02"; "2025-01-03"]
  = BatchState [[("arrest_date", Some "2025-01-01")];
                [("arrest_date", Some "2025-01-03")]]
               ["[2025-01-02] ERROR: Unrecognized date format"].
Proof.
  destruct (batch_isolates_failures three_day_scrape) as [_ H].
  apply (H "2025-01-01" "2025-01-02" "2025-01-03"
           [[("arrest_date", Some "2025-01-01")]]
           (ValueError "Unrecognized date format")
           [[("arrest_date", Some "2025-01-03")]]); reflexivity.
Defined.

(** ** Table and card extraction *)

(** C6 (as the code has it).  The table with header row Name, Arrest
    Date, Booking # and the one body row Jane Doe, 01/02/2025, B12345
    yields exactly one record: name, arrest_date and booking_number hold
    the three cells, source_url holds the entry URL, which is the
    default of the record type, and every other field is null. *)
Theorem table_row_jane_doe :
  extract_rows_from_table jane_table
  = [ {| arrest_date := Some "01/02/2025";
         name := Some "Jane Doe";
         dob := None;
         age := None;
         charges := None;
         agency := None;
         booking_number := Some "B12345";
         bond := None;
         arrest_time := None;
         source_url := Some ENTRY_URL |} ].
Proof. vm_compute. reflexivity. Qed.

(** C6 fails on source_url: the record is not the one whose remaining
    fields are all null. *)
Lemma table_row_source_url_not_null :
  extract_rows_from_table jane_table
  ≠ [ mkArrestRow (Some "01/02/2025") (Some "Jane Doe") None None None None
        (Some "B12345") None None None ]
  ∧ map source_url (extract_rows_from_table jane_table) = [Some ENTRY_URL].
Proof. split; [vm_compute; discriminate | vm_compute; reflexivity]. Qed.

(** C7 (as the code has it).  The item text with the lines
    "Name: John Smith", "Age: 34" and "Booking No: A987" yields one
    record with name John Smith and age 34 whose booking_number is null:
    the booking pattern accepts the labels "Booking No.", "Booking #"
    and "Booking Number" only.  With the line "Booking No.: A987"
    instead, booking_number is A987. *)
Theorem card_row_john_smith :
  extract_rows_from_cards [john_card]
  = [ new_row None (Some "John Smith") None (Some "34") None None None None ]
  ∧ extract_rows_from_cards [john_card_dotted]
  = [ new_row None (Some "John Smith") None (Some "34") None None
        (Some "A987") None ].
Proof. split; vm_compute; reflexivity. Qed.

(** C7 fails on booking_number: the label "Booking No" without a full
    stop is not matched. *)
Lemma card_row_booking_no_unmatched :
  map booking_number (extract_rows_from_cards [john_card]) ≠ [Some "A987"]
  ∧ Re.re_search CardPatterns.re_booking john_card = None.
Proof. split; [vm_compute; discriminate | vm_compute; reflexivity]. Qed.

(** ** Pagination *)

Section PaginateFacts.
Context {P : Type} `{Page P}.

Lemma paginate_unfold (fuel : nat) (p : P) :
paginate (S fuel) p
= if round_clicks p then paginate fuel (after_rounds 1 p)
  else Some (click_next NEXT_BUTTONS p).1.
Proof.
unfold round_clicks. cbn [paginate after_rounds].
by destruct (click_next NEXT_BUTTONS p) as [p1 [|]].
Qed.

Lemma after_rounds_S (n : nat) (p : P) :
after_rounds (S n) p = after_rounds n (after_rounds 1 p).
Proof. reflexivity. Qed.

(** While every round clicks, the loop is still running. *)
Lemma paginate_running (fuel : nat) (p : P) :
(∀ n, (n < fuel)%nat → round_clicks (after_rounds n p) = true) →
paginate fuel p = None.
Proof.
revert p. induction fuel as [|fuel IH]; intros p Hall; [done|].
rewrite paginate_unfold.
pose proof (Hall 0%nat ltac:(lia)) as Hfirst. simpl in Hfirst. rewrite Hfirst.
apply IH. intros n Hn. apply (Hall (S n)). lia.
Qed.

(** It returns in the first round that clicks nothing. *)
Lemma paginate_stops (n fuel : nat) (p : P) :
(∀ m, (m < n)%nat → round_clicks (after_rounds m p) = true) →
round_clicks (after_rounds n p) = false →
(n < fuel)%nat →
paginate fuel p = Some (click_next NEXT_BUTTONS (after_rounds n p)).1.
Proof.
revert fuel p. induction n as [|n IH]; intros fuel p Hall Hstop Hfuel.
- destruct fuel as [|fuel]; [lia|]. rewrite paginate_unfold.
  simpl in Hstop. by rewrite Hstop.
- destruct fuel as [|fuel]; [lia|]. rewrite paginate_unfold.
  pose proof (Hall 0%nat ltac:(lia)) as Hfirst. simpl in Hfirst. rewrite Hfirst.
  rewrite after_rounds_S. apply IH; [| |lia].
  + intros m Hm. apply (Hall (S m)). lia.
  + exact Hstop.
Qed.
End PaginateFacts.

Lemma sticky_round_clicks (n : nat) : round_clicks (after_rounds n Sticky) = true.
Proof. induction n as [|n IH]; [reflexivity | exact IH]. Qed.

Lemma counter_after_rounds (n k : nat) :
  (k <= n)%nat → after_rounds k n = (n - k)%nat.
Proof.
  revert n. induction k as [|k IH]; intros n Hk; simpl; [lia|].
  destruct n as [|n]; [lia|]. simpl. rewrite IH by lia. lia.
Qed.

Lemma counter_round_clicks (n : nat) : round_clicks n = (0 <? n)%nat.
Proof. destruct n; reflexivity. Qed.

(** C8 (as the code has it).  Neither [paginate] nor the session step
    that calls it has a cap on the rounds.  After the session's wait,
    the loop returns exactly when some round finds no control that is
    present, enabled and clickable, and it returns in the first such
    round; on a page where every round clicks a control it is still
    running after any number of rounds, so the session does not
    terminate.  The number of rounds is not bounded: a result list with
    [n] pages behind its "Next" link takes [n] clicking rounds. *)
Theorem paginate_has_no_cap {P : Type} `{Page P} (p : P) :
  let p0 := wait_for_timeout p 1500 in
  ((∀ n, round_clicks (after_rounds n p0) = true) →
     ∀ fuel, wait_and_paginate fuel p = None)
  ∧ (∀ n, (∀ m, (m < n)%nat → round_clicks (after_rounds m p0) = true) →
          round_clicks (after_rounds n p0) = false →
          (∀ fuel, (fuel <= n)%nat → wait_and_paginate fuel p = None)
          ∧ (∀ fuel, (n < fuel)%nat →
               wait_and_paginate fuel p
               = Some (click_next NEXT_BUTTONS (after_rounds n p0)).1))
  ∧ (∀ n : nat, wait_and_paginate n n = None
                ∧ wait_and_paginate (S n) n = Some 0%nat).
Proof.
  cbv zeta. unfold wait_and_paginate. split; [|split].
  - intros Hall fuel. apply paginate_running. intros n _. apply Hall.
  - intros n Hall Hstop. split.
    + intros fuel Hfuel. apply paginate_running. intros m Hm. apply Hall. lia.
    + intros fuel Hfuel. by apply paginate_stops.
  - intros n. simpl wait_for_timeout. split.
    + apply paginate_running. intros m Hm.
      rewrite counter_after_rounds by lia. rewrite counter_round_clicks.
      apply Nat.ltb_lt. lia.
    + rewrite (paginate_stops n (S n) n).
      * rewrite counter_after_rounds by lia. by rewrite Nat.sub_diag.
      * intros m Hm. rewrite counter_after_rounds by lia.
        rewrite counter_round_clicks. apply Nat.ltb_lt. lia.
      * rewrite counter_after_rounds by lia. by rewrite Nat.sub_diag.
      * lia.
Qed.

Lemma paginate_has_no_cap_witness :
  wait_and_paginate 1000 Sticky = None.
Proof.
  destruct (paginate_has_no_cap Sticky) as [H _].
  apply H. exact sticky_round_clicks.
Defined.

(** C8 fails: on a page whose "Next" link stays present, enabled and
    clickable, the session step never returns, whatever number of rounds
    is allowed. *)
Lemma paginate_sticky_never_returns :
  round_clicks Sticky = true
  ∧ ¬ (∃ fuel p', wait_and_paginate fuel Sticky = Some p').
Proof.
  split; [reflexivity|].
  intros (fuel & p' & Hret). unfold wait_and_paginate in Hret.
  rewrite paginate_running in Hret; [discriminate|].
  intros n _. apply sticky_round_clicks.
Qed.

(** ** The sink and the end of the run *)

Lemma mem_string_In (x : string) (l : list string) :
  mem_string x l = true ↔ x ∈ l.
Proof.
  unfold mem_string. rewrite existsb_exists, list_elem_of_In. split.
  - intros (y & Hy & Heq). apply String.eqb_eq in Heq. by subst.
  - intros Hx. exists x. split; [done | apply String.eqb_refl].
Qed.

Lemma add_new_In (keys seen : list string) (c : string) :
  c ∈ add_new keys seen ↔ c ∈ seen ∨ c ∈ keys.
Proof.
  revert seen. induction keys as [|k keys IH]; intros seen; simpl.
  - rewrite elem_of_nil. tauto.
  - rewrite IH, elem_of_cons. destruct (mem_string k seen) eqn:Hk.
    + apply mem_string_In in Hk. split; [tauto|].
      intros [?|[->|?]]; tauto.
    + rewrite elem_of_app, list_elem_of_singleton. tauto.
Qed.

Lemma df_columns_fold (records : list dict) (seen : list string) (c : string) :
  c ∈ foldl (fun seen r => add_new (map fst r) seen) seen records
  ↔ c ∈ seen ∨ ∃ r, r ∈ records ∧ c ∈ map fst r.
Proof.
  revert seen. induction records as [|r records IH]; intros seen; simpl.
  - split; [by left|]. intros [?|(r & Hr & _)]; [done|]. by apply elem_of_nil in Hr.
  - rewrite IH, add_new_In. split.
    + intros [[?|?]|(r' & Hr' & Hc)]; [by left | right | right].
      * exists r. split; [left | done].
      * exists r'. split; [by right | done].
    + intros [?|(r' & Hr' & Hc)]; [by left; left|].
      apply elem_of_cons in Hr' as [->|Hr']; [by left; right|].
      right. by exists r'.
Qed.

(** A column is in the frame when some record has it as a key. *)
Lemma df_columns_In (records : list dict) (c : string) :
  c ∈ df_columns records ↔ ∃ r, r ∈ records ∧ c ∈ map fst r.
Proof.
  unfold df_columns. rewrite df_columns_fold, elem_of_nil. split; [|by right].
  by intros [[]|?].
Qed.

Lemma sink_body_ok (sk : sink) (records : list dict) :
  (sink_body sk records).2 = None
  ↔ sk Authorize = None ∧ sk OpenByKey = None
    ∧ (sk GetWorksheet = None ∨ sk AddWorksheet = None)
    ∧ sk ClearSheet = None ∧ sk UpdateSheet = None.
Proof.
  unfold sink_body.
  destruct (sk Authorize), (sk OpenByKey), (sk GetWorksheet), (sk AddWorksheet),
    (sk ClearSheet), (sk UpdateSheet); simpl; split; try done;
    try (intros (? & ? & [?|?] & ? & ?); done); tauto.
Qed.

Lemma sink_body_events (sk : sink) (records : list dict) :
  (sink_body sk records).2 = None →
  (sink_body sk records).1
  = Print "Uploading to Google Sheets..." :: created_sheet sk
    ++ [SheetClear; SheetUpdate (data_to_upload records);
        Print "Successfully uploaded records to Google Sheets"].
Proof.
  unfold sink_body, created_sheet. generalize (data_to_upload records). intros rows.
  destruct (sk Authorize), (sk OpenByKey), (sk GetWorksheet), (sk AddWorksheet),
    (sk ClearSheet), (sk UpdateSheet); simpl; intros Hok;
    first [discriminate | reflexivity].
Qed.

Lemma dump_to_file_returns (fs : files) (args : main_args) (records : list dict) :
  dump_error fs args = None →
  Print "Total records scraped" :: (dump_to_file fs (arg_output args) records).1
  = dump_events args records
  ∧ (dump_to_file fs (arg_output args) records).2 = None.
Proof.
  unfold dump_error, dump_events, output_path, dump_to_file.
  destruct (arg_output args) as [path|]; [|done].
  destruct (Str.truthy path); [|done]. by intros ->.
Qed.

Lemma dump_to_file_raises (fs : files) (args : main_args) (records : list dict)
    (e : exn) :
  dump_error fs args = Some e →
  dump_to_file fs (arg_output args) records = ([], Some e).
Proof.
  unfold dump_error, output_path, dump_to_file.
  destruct (arg_output args) as [path|]; [|done].
  destruct (Str.truthy path); [|done]. by intros ->.
Qed.

Lemma finish_main_dumped (fs : files) (sk : sink) (args : main_args)
    (records : list dict) :
  dump_error fs args = None →
  finish_main fs sk args records
  = if negb (arg_no_upload args) && negb (Nat.eqb (length records) 0) then
      match upload_to_google_sheets sk records with
      | (evs, Ok _) =>
          (dump_events args records ++ evs
           ++ [Print "Sarasota County Scraper completed successfully!"], Ok tt)
      | (evs, Raise e) => (dump_events args records ++ evs, Raise e)
      end
    else (dump_events args records
          ++ [Print "Sarasota County Scraper completed successfully!"], Ok tt).
Proof.
  intros Hdump. unfold finish_main.
  destruct (dump_to_file_returns fs args records Hdump) as [Hevs Hnone].
  destruct (dump_to_file fs (arg_output args) records) as [evs oe].
  cbn [fst snd] in *. subst oe. rewrite <- Hevs. reflexivity.
Qed.

Lemma finish_main_dump_raises (fs : files) (sk : sink) (args : main_args)
    (records : list dict) (e : exn) :
  dump_error fs args = Some e →
  finish_main fs sk args records = ([Print "Total records scraped"], Raise e).
Proof.
  intros Hdump. unfold finish_main.
  by rewrite (dump_to_file_raises fs args records e Hdump).
Qed.

(** C9 (as the code has it).  For a non-empty record list, the rows sent
    to the sheet start with a header row that lists the preferred
    columns (arrest_date, name, dob, age, booking_number, agency, bond,
    arrest_time, charges, source_url; dob is the record's date of birth)
    in that order, restricted to the columns some record has.  When a
    sink call raises, the upload prints the error and raises it again:
    the exception leaves [main], so the run ends with it and without the
    closing line.  The dump to the output file is made only for an
    output path that is given and not empty; it holds the whole
    aggregate and comes before every sink call.  The dump is under no
    [try] either: when it raises, the run ends with its exception
    after the total line, and the sink is not called. *)
Theorem sink_header_and_failure (fs : files) (sk : sink) (args : main_args)
    (records : list dict) :
  records ≠ [] →
  arg_no_upload args = false →
  (* the header row *)
  (head (data_to_upload records) = Some (map Some (sheet_header records))
   ∧ sublist (sheet_header records) COL_ORDER
   ∧ (∀ c, c ∈ sheet_header records
           ↔ c ∈ COL_ORDER ∧ ∃ r, r ∈ records ∧ c ∈ map fst r))
  (* a run whose dump and sink calls all return *)
  ∧ (dump_error fs args = None → (sink_body sk records).2 = None →
       finish_main fs sk args records
       = (dump_events args records
          ++ Print "Uploading to Google Sheets..." :: created_sheet sk
          ++ [SheetClear; SheetUpdate (data_to_upload records);
              Print "Successfully uploaded records to Google Sheets";
              Print "Sarasota County Scraper completed successfully!"],
          Ok tt))
  (* a run in which a sink call raises *)
  ∧ (∀ e, dump_error fs args = None → (sink_body sk records).2 = Some e →
       finish_main fs sk args records
       = (dump_events args records ++ (sink_body sk records).1
          ++ [Print ("Error uploading to Google Sheets: " +:+ exn_text e)],
          Raise e))
  (* a run in which the dump raises *)
  ∧ (∀ e, dump_error fs args = Some e →
       finish_main fs sk args records = ([Print "Total records scraped"], Raise e))
  (* what is dumped, and for which path *)
  ∧ (∀ path recs, FileDump path recs ∈ dump_events args records
                  ↔ arg_output args = Some path ∧ path ≠ "" ∧ recs = records).
Proof.
  intros Hne Hup. split; [|split; [|split; [|split]]].
  - split; [reflexivity|]. split; [apply sublist_filter|].
    intros c. unfold sheet_header. rewrite list_elem_of_filter.
    rewrite <- df_columns_In, <- (mem_string_In c (df_columns records)), Is_true_true.
    tauto.
  - intros Hdump Hok. rewrite finish_main_dumped by done.
    unfold upload_to_google_sheets. rewrite Hup.
    pose proof (sink_body_events sk records Hok) as Hevs.
    destruct records as [|r records]; [done|]. cbn [length Nat.eqb negb andb].
    destruct (sink_body sk (r :: records)) as [evs oe].
    simpl in Hok, Hevs. subst oe evs.
    generalize (data_to_upload (r :: records)). intros rows.
    generalize (created_sheet sk). intros made.
    f_equal. f_equal. simpl. rewrite <- app_assoc. reflexivity.
  - intros e Hdump He. rewrite finish_main_dumped by done.
    unfold upload_to_google_sheets. rewrite Hup.
    destruct records as [|r records]; [done|]. cbn [length Nat.eqb negb andb].
    destruct (sink_body sk (r :: records)) as [evs oe] eqn:Hbody.
    simpl in He. subst oe. reflexivity.
  - intros e. apply finish_main_dump_raises.
  - intros path recs. unfold dump_events, output_path.
    destruct (arg_output args) as [p|].
    + destruct p as [|c p]; cbn [Str.truthy].
      * rewrite list_elem_of_singleton. split; [discriminate|]. by intros ([= <-] & ? & _).
      * rewrite !elem_of_cons, elem_of_nil. split.
        -- intros [?|[[= -> ->]|[?|[]]]]; try discriminate.
           split; [reflexivity|]. split; [discriminate | reflexivity].
        -- intros ([= <-] & _ & ->). right. by left.
    + rewrite list_elem_of_singleton. split; [discriminate|]. by intros ([=] & _).
Qed.

Lemma sink_header_and_failure_witness :
  finish_main writable quota_sink dump_args one_record
  = ([Print "Total records scraped";
      FileDump "out.json" one_record;
      Print "Saved to out.json";
      Print "Uploading to Google Sheets...";
      SheetClear;
      Print "Error uploading to Google Sheets: Quota exceeded"],
     Raise (OtherError "Quota exceeded")).
Proof.
  destruct (sink_header_and_failure writable quota_sink dump_args one_record)
    as (_ & _ & H & _); [vm_compute; discriminate | reflexivity |].
  rewrite (H (OtherError "Quota exceeded")); [|reflexivity|vm_compute; reflexivity].
  vm_compute. reflexivity.
Defined.

(** C9 fails on "without crashing the whole run": when the sheet
    rejects the update, the exception leaves [main] and the closing
    line is never printed.  The dump does not always keep the
    aggregate either: on a file system that cannot be written the run
    ends in the dump, with no file and no upload. *)
Lemma sink_failure_ends_the_run :
  ((finish_main writable quota_sink dump_args one_record).2 ≠ Ok tt
   ∧ (finish_main writable quota_sink dump_args one_record).2
     = Raise (OtherError "Quota exceeded")
   ∧ ¬ In (Print "Sarasota County Scraper completed successfully!")
          (finish_main writable quota_sink dump_args one_record).1)
  ∧ finish_main read_only healthy_sink dump_args one_record
    = ([Print "Total records scraped"],
       Raise (OtherError "Read-only file system")).
Proof.
  split; [|vm_compute; reflexivity].
  split; [vm_compute; discriminate|]. split; [vm_compute; reflexivity|].
  vm_compute. intros H. repeat (destruct H as [H|H]; [discriminate|]). exact H.
Qed.

(** ** The v2 session *)

Lemma retry_from_returns {A : Type} (policy : retry_policy)
    (attempt : nat -> result A) (left n : nat) (a : A) :
  outcome (retry_from policy attempt left n) = Ok a →
  ∃ k, attempt k = Ok a.
Proof.
  revert n. induction left as [|left IH]; intros n; simpl.
  - destruct (attempt n) as [a'|e] eqn:Hn; simpl.
    + intros [= ->]. by exists n.
    + destruct (is_timeout e); simpl; discriminate.
  - destruct (attempt n) as [a'|e] eqn:Hn; simpl.
    + intros [= ->]. by exists n.
    + destruct (is_timeout e); simpl; [apply IH | discriminate].
Qed.

Module V2Facts.
Import V2 V2Spec.

Lemma truthy_long (text : string) :
Str.truthy text && (10 <? String.length text)%nat = (10 <? String.length text)%nat.
Proof. by destruct text. Qed.

Lemma scan_rows_spec (pg : page) (date_str : string) (rows : list (result string))
  (results : list record) :
Forall (well_formed date_str) results →
Forall (well_formed date_str) (scan_rows pg date_str rows results)
∧ map raw_text (scan_rows pg date_str rows results)
  = map raw_text results ++ long_texts rows.
Proof.
revert results. induction rows as [|[text|e] rows IH]; intros results Hwf; simpl.
- by rewrite app_nil_r.
- rewrite truthy_long. destruct (10 <? String.length text)%nat eqn:Hlen.
  + destruct (IH (results ++ [make date_str text (now pg (length results))]))
      as [IH1 IH2].
    * apply Forall_app. split; [done|]. constructor; [|constructor].
      split; [reflexivity|]. eexists _, _. split; [reflexivity|].
      by apply Nat.ltb_lt.
    * split; [done|]. rewrite IH2, map_app. simpl. by rewrite <- app_assoc.
  + by apply IH.
- by apply IH.
Qed.

Lemma scan_lines_spec (pg : page) (date_str : string) (lines : list string)
  (results : list record) :
Forall (well_formed date_str) results →
Forall (well_formed date_str) (scan_lines pg date_str lines results).
Proof.
revert results. induction lines as [|line lines IH]; intros results Hwf; simpl.
- done.
- destruct (20 <? String.length line)%nat eqn:Hlen; [|by apply IH].
  apply IH. apply Forall_app. split; [done|]. constructor; [|constructor].
  split; [reflexivity|]. eexists _, _. split; [reflexivity|].
  apply Nat.ltb_lt in Hlen. lia.
Qed.

Lemma session_well_formed (pg : page) (date_str : string) (recs : list record) :
session pg date_str = Ok recs → Forall (well_formed date_str) recs.
Proof.
unfold session. destruct (before_form pg); [discriminate|].
destruct (Datetime.strptime _ _); simpl; [|discriminate].
destruct (in_form pg); [discriminate|].
destruct (scan_rows pg date_str (row_texts pg) []) as [|r rs] eqn:Hrows.
- destruct (body_text pg) as [all_text|]; simpl; [|discriminate].
  destruct (_ && _); intros [= <-]; [|constructor].
  apply scan_lines_spec. constructor.
- intros [= <-]. rewrite <- Hrows. apply scan_rows_spec. constructor.
Qed.
End V2Facts.

(** C10.  Every record the v2 [scrape_for_date] returns has exactly the
    keys arrest_date, raw_text and scraped_at, in that order, and its
    arrest_date is the requested date string as given; no other field
    exists.  The records read from result rows are those of the rows
    whose text is longer than ten characters, in row order: a row with
    ten characters or fewer adds nothing. *)
Theorem v2_records_shape (pages : nat -> V2.page) (date_str : string) :
  (∀ recs, outcome (V2.scrape_for_date pages date_str) = Ok recs →
     Forall (fun r => map fst r = ["arrest_date"; "raw_text"; "scraped_at"]
                      ∧ head r = Some ("arrest_date", date_str)) recs)
  ∧ (∀ pg results,
       map V2Spec.raw_text (V2.scan_rows pg date_str (V2.row_texts pg) results)
       = map V2Spec.raw_text results ++ V2Spec.long_texts (V2.row_texts pg))
  ∧ (∀ pg rows,
       Forall (fun t => match t with
                        | Ok text => (String.length text <= 10)%nat
                        | Raise _ => True
                        end) rows →
       V2.scan_rows pg date_str rows [] = []).
Proof.
  split; [|split].
  - intros recs Hret. unfold V2.scrape_for_date, retrying in Hret.
    apply retry_from_returns in Hret as (k & Hk).
    apply V2Facts.session_well_formed in Hk.
    eapply Forall_impl; [exact Hk|]. intros r (Hkeys & text & stamp & -> & _).
    split; reflexivity.
  - intros pg results. revert results.
    induction (V2.row_texts pg) as [|[text|e] rows IH]; intros results; simpl.
    + by rewrite app_nil_r.
    + rewrite V2Facts.truthy_long. destruct (10 <? String.length text)%nat.
      * rewrite IH, map_app. simpl. by rewrite <- app_assoc.
      * apply IH.
    + apply IH.
  - intros pg rows Hshort. induction Hshort as [|[text|e] rows Ht _ IH]; simpl.
    + done.
    + rewrite V2Facts.truthy_long.
      destruct (10 <? String.length text)%nat eqn:Hlen; [|exact IH].
      apply Nat.ltb_lt in Hlen. lia.
    + exact IH.
Qed.

Lemma v2_records_shape_witness :
  Forall (fun r => map fst r = ["arrest_date"; "raw_text"; "scraped_at"]
                   ∧ head r = Some ("arrest_date", "2025-01-05"))
    [V2.make "2025-01-05" "John Smith 01/01/1990" "2025-01-06T08:00:00"].
Proof.
  destruct (v2_records_shape (fun _ => v2_sample_page) "2025-01-05") as [H _].
  apply H. vm_compute. reflexivity.
Defined.

(** * Further properties *)

(** ** More on dates: idempotence, round trip, counts *)

Module DateMore.
Import StrFacts.
#[local] Open Scope Z_scope.

Lemma digit_val_char (k : Z) :
  0 <= k <= 9 → Str.digit_val (Str.digit_char k) = k
                ∧ Str.isspace (Str.digit_char k) = false.
Proof.
  intros Hk.
  assert (k = 0 ∨ k = 1 ∨ k = 2 ∨ k = 3 ∨ k = 4 ∨ k = 5 ∨ k = 6 ∨ k = 7
          ∨ k = 8 ∨ k = 9) as Hcases by lia.
  repeat (destruct Hcases as [->|Hcases]; [split; reflexivity|]).
  subst. split; reflexivity.
Qed.

Lemma digit_char_inj (a b : Z) :
  0 <= a <= 9 → 0 <= b <= 9 → Str.digit_char a = Str.digit_char b → a = b.
Proof.
  intros Ha Hb Heq.
  destruct (digit_val_char a Ha) as [<- _]. destruct (digit_val_char b Hb) as [<- _].
  by rewrite Heq.
Qed.

Lemma digit_char_not_slash (k : Z) :
  0 <= k <= 9 → Ascii.eqb (Str.digit_char k) "/" = false.
Proof.
  intros Hk. by apply isdigit_not_sep, EndpointFacts.digit_char_isdigit.
Qed.

Lemma int_pad4 (y : Z) : 0 <= y <= 9999 → Str.int (Str.pad4 y) = y.
Proof.
  intros Hy. unfold Str.int, Str.pad4, Str.pad2.
  pose proof (Z.mod_pos_bound (y / 1000) 10 ltac:(lia)) as H3.
  pose proof (Z.mod_pos_bound (y / 100) 10 ltac:(lia)) as H2.
  pose proof (Z.mod_pos_bound (y / 10) 10 ltac:(lia)) as H1.
  pose proof (Z.mod_pos_bound y 10 ltac:(lia)) as H0.
  destruct (digit_val_char (y / 1000 mod 10) ltac:(lia)) as [E3 S3].
  destruct (digit_val_char (y / 100 mod 10) ltac:(lia)) as [E2 _].
  destruct (digit_val_char (y / 10 mod 10) ltac:(lia)) as [E1 _].
  destruct (digit_val_char (y mod 10) ltac:(lia)) as [E0 _].
  cbn [Str.lstrip]. rewrite S3. cbn [Str.int_acc]. rewrite E3, E2, E1, E0.
  clear E3 E2 E1 E0 S3 H3 H2 H1 H0. Z.div_mod_to_equations. lia.
Qed.

Lemma int_pad2 (m : Z) : 0 <= m <= 99 → Str.int (Str.pad2 m) = m.
Proof.
  intros Hm. unfold Str.int, Str.pad2.
  pose proof (Z.mod_pos_bound (m / 10) 10 ltac:(lia)) as H1.
  pose proof (Z.mod_pos_bound m 10 ltac:(lia)) as H0.
  destruct (digit_val_char (m / 10 mod 10) ltac:(lia)) as [E1 S1].
  destruct (digit_val_char (m mod 10) ltac:(lia)) as [E0 _].
  cbn [Str.lstrip]. rewrite S1. cbn [Str.int_acc]. rewrite E1, E0.
  clear E1 E0 S1 H1 H0. Z.div_mod_to_equations. lia.
Qed.

Lemma pad2_inj (m n : Z) : 0 <= m <= 99 → 0 <= n <= 99 → Str.pad2 m = Str.pad2 n → m = n.
Proof.
  intros Hm Hn Heq. rewrite <- (int_pad2 m Hm), <- (int_pad2 n Hn). by rewrite Heq.
Qed.

(** The printed year tells the year. *)
Lemma year_text_inj (y z : Z) :
  1 <= y <= 9999 → 1 <= z <= 9999 →
  Datetime.year_text y = Datetime.year_text z → y = z.
Proof.
  intros Hy Hz. unfold Datetime.year_text.
  pose proof (Z.mod_pos_bound (y / 100) 10 ltac:(lia)).
  pose proof (Z.mod_pos_bound (y / 10) 10 ltac:(lia)).
  pose proof (Z.mod_pos_bound y 10 ltac:(lia)).
  pose proof (Z.mod_pos_bound (z / 100) 10 ltac:(lia)).
  pose proof (Z.mod_pos_bound (z / 10) 10 ltac:(lia)).
  pose proof (Z.mod_pos_bound z 10 ltac:(lia)).
  destruct (y <? 10) eqn:Y1; [|destruct (y <? 100) eqn:Y2; [|destruct (y <? 1000) eqn:Y3]];
    (destruct (z <? 10) eqn:Z1; [|destruct (z <? 100) eqn:Z2; [|destruct (z <? 1000) eqn:Z3]]);
    rewrite ?Z.ltb_lt, ?Z.ltb_ge in *;
    unfold Str.pad4, Str.pad2; intros Heq; try discriminate Heq.
  - injection Heq as E0. apply digit_char_inj in E0; lia.
  - injection Heq as E1 E0.
    apply digit_char_inj in E1, E0; [|lia..].
    Z.div_mod_to_equations. lia.
  - injection Heq as E2 E1 E0.
    apply digit_char_inj in E2, E1, E0; [|lia..].
    Z.div_mod_to_equations. lia.
  - apply (f_equal Str.int) in Heq.
    change (Str.int (Str.pad4 y) = Str.int (Str.pad4 z)) in Heq.
    by rewrite !int_pad4 in Heq by lia.
Qed.

Lemma year_text_length (y : Z) :
  (1 <= String.length (Datetime.year_text y) <= 4)%nat.
Proof.
  unfold Datetime.year_text.
  destruct (y <? 10); [|destruct (y <? 100); [|destruct (y <? 1000)]]; cbn; lia.
Qed.

Lemma append_inj (a a' b b' : string) :
  String.length a = String.length a' → a +:+ b = a' +:+ b' → a = a' ∧ b = b'.
Proof.
  revert a'. induction a as [|c a IH]; intros [|c' a']; try discriminate.
  - intros _. by rewrite !append_nil_l.
  - intros [= Hlen]. rewrite !append_cons. intros [= -> Heq].
    by destruct (IH a' Hlen Heq) as [-> ->].
Qed.

(** The printed date tells the date. *)
Lemma strftime_inj (x y : Datetime.date) :
  Datetime.valid x = true → Datetime.valid y = true →
  Datetime.strftime_Ymd x = Datetime.strftime_Ymd y → x = y.
Proof.
  intros Hx%CalendarFacts.valid_spec Hy%CalendarFacts.valid_spec.
  destruct x as [y1 m1 d1], y as [y2 m2 d2]. cbn in Hx, Hy.
  pose proof (CalendarFacts.days_in_month_le_31 y1 m1).
  pose proof (CalendarFacts.days_in_month_le_31 y2 m2).
  unfold Datetime.strftime_Ymd. cbn [Datetime.year Datetime.month Datetime.day].
  intros Heq.
  assert (Hlen : String.length (Datetime.year_text y1)
                 = String.length (Datetime.year_text y2)).
  { apply (f_equal String.length) in Heq.
    rewrite !FormatFacts.length_append in Heq.
    change (String.length (Str.pad2 m1)) with 2%nat in Heq.
    change (String.length (Str.pad2 m2)) with 2%nat in Heq.
    change (String.length (Str.pad2 d1)) with 2%nat in Heq.
    change (String.length (Str.pad2 d2)) with 2%nat in Heq.
    lia. }
  destruct (append_inj _ _ _ _ Hlen Heq) as [Hyear Hrest].
  rewrite !append_cons, !append_nil_l in Hrest. injection Hrest as M1 M0 D1 D0.
  apply year_text_inj in Hyear; [|lia..].
  pose proof (Z.mod_pos_bound (m1 / 10) 10 ltac:(lia)).
  pose proof (Z.mod_pos_bound m1 10 ltac:(lia)).
  pose proof (Z.mod_pos_bound (m2 / 10) 10 ltac:(lia)).
  pose proof (Z.mod_pos_bound m2 10 ltac:(lia)).
  pose proof (Z.mod_pos_bound (d1 / 10) 10 ltac:(lia)).
  pose proof (Z.mod_pos_bound d1 10 ltac:(lia)).
  pose proof (Z.mod_pos_bound (d2 / 10) 10 ltac:(lia)).
  pose proof (Z.mod_pos_bound d2 10 ltac:(lia)).
  apply digit_char_inj in M1, M0, D1, D0; [|lia..].
  assert (m1 = m2) as -> by (clear D1 D0; Z.div_mod_to_equations; lia).
  assert (d1 = d2) as -> by (clear M1 M0; Z.div_mod_to_equations; lia).
  by subst.
Qed.

#[local] Opaque Str.isdigit Ascii.eqb Str.int Str.isspace.

(** On a text of the shape YYYY-MM-DD whose numbers form a date,
    [strptime] with "%Y-%m-%d" returns that date. *)
Lemma strptime_iso_valid (yy mo dd : string) :
  digits yy → digits mo → digits dd →
  String.length yy = 4%nat → String.length mo = 2%nat → String.length dd = 2%nat →
  Datetime.valid_ymd (Str.int yy) (Str.int mo) (Str.int dd) = true →
  Datetime.strptime Datetime.fmt_Ymd (yy +:+ "-" +:+ mo +:+ "-" +:+ dd)
  = Ok (Datetime.Date (Str.int yy) (Str.int mo) (Str.int dd)).
Proof.
  intros Hy Hm Hd Ly Lm Ld Hv.
  apply length_4 in Ly as (y1 & y2 & y3 & y4 & ->).
  apply length_2 in Lm as (m1 & m2 & ->).
  apply length_2 in Ld as (d1 & d2 & ->).
  NormalizeFacts.digit_facts.
  destruct (StrptimeFacts.valid_ymd_in_range _ _ _ Hv) as [Hrm Hrd].
  unfold Datetime.strptime, Re.re_match, Datetime.fmt_Ymd.
  cbv [Re.seqs String.append].
  rewrite EndpointFacts.year_first by done.
  rewrite (StrptimeFacts.month_two_digits _ _ _ _ "-" m1 m2 5)
    by (first [by right; left | done]).
  rewrite Hrm. rewrite EndpointFacts.day_two_digits_at_end by done.
  rewrite Hrd. cbn. by rewrite Hv.
Qed.

(** From the year 1000 on, the printed date is read back. *)
Lemma strptime_strftime (x : Datetime.date) :
  Datetime.valid x = true → 1000 <= Datetime.year x →
  Datetime.strptime Datetime.fmt_Ymd (Datetime.strftime_Ymd x) = Ok x.
Proof.
  intros Hx Hbig. pose proof Hx as Hb%CalendarFacts.valid_spec.
  destruct x as [y m d]. cbn in Hb, Hbig.
  pose proof (CalendarFacts.days_in_month_le_31 y m).
  unfold Datetime.strftime_Ymd in *. cbn [Datetime.year Datetime.month Datetime.day] in *.
  rewrite FormatFacts.year_text_pad4 by done.
  assert (String.length (Str.pad4 y) = 4%nat) as L4 by reflexivity.
  assert (String.length (Str.pad2 m) = 2%nat) as L2 by reflexivity.
  assert (String.length (Str.pad2 d) = 2%nat) as L2' by reflexivity.
  assert (digits (Str.pad4 y) ∧ digits (Str.pad2 m) ∧ digits (Str.pad2 d))
    as (Dy & Dm & Dd).
  { unfold digits, Str.pad4, Str.pad2. cbn.
    rewrite !EndpointFacts.digit_char_isdigit;
      [done | match goal with |- (0 <= ?v mod 10 <= 9)%Z =>
                pose proof (Z.mod_pos_bound v 10 ltac:(lia)); lia end ..]. }
  rewrite (strptime_iso_valid _ _ _ Dy Dm Dd L4 L2 L2').
  - by rewrite int_pad4, !int_pad2 by lia.
  - rewrite int_pad4, !int_pad2 by lia. exact Hx.
Qed.

Lemma normalize_iso (a : string) : iso_shape a → normalize_date a = Ok a.
Proof.
  intros Ha. unfold normalize_date. rewrite (FormatFacts.strip_iso a Ha).
  by rewrite (NormalizeFacts.re_iso_complete a Ha).
Qed.

(** A printed date of a year below 1000 is of neither accepted shape:
    [normalize_date] rejects it. *)
Lemma normalize_short_year (x : Datetime.date) :
  Datetime.valid x = true → Datetime.year x < 1000 →
  is_value_error (normalize_date (Datetime.strftime_Ymd x)) = true.
Proof.
  intros Hx%CalendarFacts.valid_spec Hy. destruct x as [y m d]. cbn in Hx, Hy.
  pose proof (CalendarFacts.days_in_month_le_31 y m).
  unfold Datetime.strftime_Ymd, Datetime.year_text.
  cbn [Datetime.year Datetime.month Datetime.day].
  unfold normalize_date, Re.re_match, re_iso, re_us.
  assert (Hsp : ∀ k, 0 <= k <= 9 → Str.isspace (Str.digit_char k) = false)
    by (intros k Hk; by destruct (digit_val_char k Hk)).
  destruct (y <? 10) eqn:H1; [|destruct (y <? 100) eqn:H2];
    rewrite ?(proj2 (Z.ltb_lt y 1000) Hy);
    rewrite ?Z.ltb_lt, ?Z.ltb_ge in *;
    unfold Str.pad2, Str.strip, Str.rstrip, Str.rev;
    cbv [Re.seqs String.append]; cbn;
    rewrite ?Hsp by EndpointFacts.digit_bound; cbn;
    rewrite ?Hsp by EndpointFacts.digit_bound; cbn;
    repeat (rewrite ?EndpointFacts.digit_char_isdigit,
                    ?digit_char_not_slash by EndpointFacts.digit_bound;
            rewrite ?EndpointFacts.isdigit_dash, ?EndpointFacts.dash_not_slash;
            cbn);
    reflexivity.
Qed.

End DateMore.

(** X1.  What [normalize_date] returns is a fixed point exactly when it
    has the shape YYYY-MM-DD: normalizing such a result again returns
    it unchanged.  The only results of another shape come from a date
    M/D/YYYY of a year below 1000, printed with fewer than four year
    digits; normalizing such a result again fails. *)
Theorem normalize_date_idempotent (d a : string) :
  normalize_date d = Ok a →
  (iso_shape a ∧ normalize_date a = Ok a)
  ∨ (¬ iso_shape a ∧ is_value_error (normalize_date a) = true
     ∧ ∃ x, Datetime.strptime Datetime.fmt_mdY (Str.strip d) = Ok x
            ∧ (Datetime.year x < 1000)%Z ∧ a = Datetime.strftime_Ymd x).
Proof.
  intros Hd.
  destruct (EndpointFacts.normalize_date_result _ _ Hd) as [Hiso|(x & Hus & -> & _)].
  - left. split; [done | by apply DateMore.normalize_iso].
  - pose proof (CalendarFacts.strptime_valid _ _ _ Hus) as Hv.
    destruct (Z_lt_le_dec (Datetime.year x) 1000) as [Hsmall|Hbig].
    + right. split; [by apply EndpointFacts.strftime_short_not_iso|].
      split; [by apply DateMore.normalize_short_year|]. by exists x.
    + left. assert (iso_shape (Datetime.strftime_Ymd x)) as Hiso
        by (by apply EndpointFacts.strftime_iso_shape).
      split; [done | by apply DateMore.normalize_iso].
Qed.

Lemma normalize_date_idempotent_witness :
  normalize_date "2025-07-04" = Ok "2025-07-04"
  ∧ is_value_error (normalize_date "999-01-01") = true.
Proof.
  split.
  - destruct (normalize_date_idempotent " 7/4/2025 " "2025-07-04")
      as [[_ H]|(Hn & _)]; [vm_compute; reflexivity | exact H |].
    exfalso. apply Hn. exists "2025", "07", "04". by repeat split.
  - destruct (normalize_date_idempotent "1/1/0999" "999-01-01")
      as [[Hiso _]|(_ & H & _)]; [vm_compute; reflexivity | | exact H].
    apply FormatFacts.iso_shape_length in Hiso. discriminate Hiso.
Defined.

(** X2.  Printing a calendar date and reading it back gives the same
    date from the year 1000 on: the printed text normalizes to itself
    and parses, as an endpoint of [daterange], to the date it came
    from.  Below the year 1000 the printed text has fewer than four
    year digits and is read by nothing: [normalize_date], the endpoint
    parsing and "%Y-%m-%d" all reject it. *)
Theorem endpoint_round_trip (x : Datetime.date) :
  Datetime.valid x = true →
  ((1000 <= Datetime.year x)%Z →
     normalize_date (Datetime.strftime_Ymd x) = Ok (Datetime.strftime_Ymd x)
     ∧ parse_endpoint (Datetime.strftime_Ymd x) = Ok x)
  ∧ ((Datetime.year x < 1000)%Z →
       is_value_error (normalize_date (Datetime.strftime_Ymd x)) = true
       ∧ is_value_error (parse_endpoint (Datetime.strftime_Ymd x)) = true
       ∧ is_value_error
           (Datetime.strptime Datetime.fmt_Ymd (Datetime.strftime_Ymd x)) = true).
Proof.
  intros Hx. split.
  - intros Hbig.
    assert (normalize_date (Datetime.strftime_Ymd x) = Ok (Datetime.strftime_Ymd x)) as Hn.
    { apply DateMore.normalize_iso. by apply EndpointFacts.strftime_iso_shape. }
    split; [done|]. unfold parse_endpoint. rewrite Hn. simpl.
    by apply DateMore.strptime_strftime.
  - intros Hsmall.
    pose proof (DateMore.normalize_short_year x Hx Hsmall) as Hn.
    split; [done|]. split.
    + unfold parse_endpoint.
      by destruct (normalize_date (Datetime.strftime_Ymd x)) as [|[]].
    + by rewrite EndpointFacts.strptime_short_year.
Qed.

Lemma endpoint_round_trip_witness :
  (normalize_date "2024-02-29" = Ok "2024-02-29"
   ∧ parse_endpoint "2024-02-29" = Ok (Datetime.Date 2024 2 29))
  ∧ is_value_error (parse_endpoint "999-01-01") = true.
Proof.
  split.
  - apply (endpoint_round_trip (Datetime.Date 2024 2 29)); [reflexivity|].
    vm_compute. discriminate.
  - apply (endpoint_round_trip (Datetime.Date 999 1 1)); reflexivity.
Defined.

(** X3.  For endpoints that parse to the dates [s] and [e],
    [daterange] yields as many days as lie between them, both included
    (none when [s] is after [e]), never the same day twice; when [s] is
    not after [e] the first day yielded is the printed [s] and the last
    one the printed [e], and those are the normalized endpoints when
    the year is 1000 or later. *)
Theorem daterange_count_distinct (start end_ : string) (s e : Datetime.date) :
  parse_endpoint start = Ok s → parse_endpoint end_ = Ok e →
  let days := yielded (daterange start end_) in
  length days = Z.to_nat (Datetime.toordinal e - Datetime.toordinal s + 1)
  ∧ NoDup days
  ∧ (Datetime.date_leb s e = true →
       head days = Some (Datetime.strftime_Ymd s)
       ∧ last days = Some (Datetime.strftime_Ymd e)
       ∧ ((1000 <= Datetime.year s)%Z →
            normalize_date start = Ok (Datetime.strftime_Ymd s))
       ∧ ((1000 <= Datetime.year e)%Z →
            normalize_date end_ = Ok (Datetime.strftime_Ymd e))).
Proof.
  intros Hs He. cbv zeta.
  assert (Hvs : Datetime.valid s = true).
  { unfold parse_endpoint in Hs. destruct (normalize_date start); [|discriminate].
    by apply CalendarFacts.strptime_valid in Hs. }
  assert (Hve : Datetime.valid e = true).
  { unfold parse_endpoint in He. destruct (normalize_date end_); [|discriminate].
    by apply CalendarFacts.strptime_valid in He. }
  destruct (RangeFacts.loop_days (daterange_budget s e) s e Hvs Hve)
    as (ds & Hrun & Hvalid & Hords); [unfold daterange_budget; lia|].
  unfold daterange. rewrite Hs, He, Hrun. cbn [yielded].
  rewrite Forall_forall in Hvalid.
  assert (Hlen : length ds
                 = Z.to_nat (Datetime.toordinal e - Datetime.toordinal s + 1)).
  { rewrite <- (length_fmap Datetime.toordinal), Hords. apply length_seqZ. }
  split; [by rewrite length_fmap|]. split.
  - apply NoDup_fmap_2_strong.
    + intros x y Hx Hy. apply DateMore.strftime_inj; by apply Hvalid.
    + apply (NoDup_fmap_1 Datetime.toordinal). rewrite Hords. apply NoDup_seqZ.
  - intros Hle. apply CalendarFacts.date_leb_ordinal in Hle; [|done..].
    split; [|split; [|split; by apply EndpointFacts.parse_endpoint_normalized]].
    + destruct ds as [|x ds']; [simpl in Hlen; lia|]. cbn. f_equal. f_equal.
      rewrite seqZ_cons in Hords by lia. injection Hords as Hx _.
      apply CalendarFacts.toordinal_inj; [apply Hvalid; left | done | done].
    + rewrite fmap_last.
      assert (last (Datetime.toordinal <$> ds) = Some (Datetime.toordinal e)) as Hlast.
      { rewrite Hords, last_lookup, length_seqZ.
        apply lookup_seqZ. split; lia. }
      rewrite fmap_last in Hlast. destruct (last ds) as [x|] eqn:Hx; [|discriminate].
      cbn in *. injection Hlast as Hord. f_equal. f_equal.
      apply CalendarFacts.toordinal_inj; [|done|done].
      apply Hvalid. apply last_Some in Hx as (l' & ->).
      apply elem_of_app. right. left.
Qed.

Lemma daterange_count_distinct_witness :
  length (yielded (daterange "12/30/2024" "2025-01-02")) = 4%nat.
Proof.
  destruct (daterange_count_distinct "12/30/2024" "2025-01-02"
              (Datetime.Date 2024 12 30) (Datetime.Date 2025 1 2))
    as [H _]; [vm_compute; reflexivity..|].
  exact H.
Defined.

(** X4.  A range whose two endpoints parse to the same date yields
    exactly that one day, as [strftime] prints it, whatever the two
    texts look like: a text of the shape YYYY-MM-DD when the year is
    1000 or later, a shorter one below it.  A range whose start is
    after its end yields nothing and ends without an error. *)
Theorem daterange_single_and_empty (start end_ : string) (s e : Datetime.date) :
  parse_endpoint start = Ok s → parse_endpoint end_ = Ok e →
  (s = e → yielded (daterange start end_) = [Datetime.strftime_Ymd s]
           ∧ (iso_shape (Datetime.strftime_Ymd s) ↔ (1000 <= Datetime.year s)%Z))
  ∧ (Datetime.date_ltb e s = true →
       daterange start end_ = GenTrace [] StopIteration).
Proof.
  intros Hs He.
  assert (Hvs : Datetime.valid s = true).
  { unfold parse_endpoint in Hs. destruct (normalize_date start); [|discriminate].
    by apply CalendarFacts.strptime_valid in Hs. }
  assert (Hve : Datetime.valid e = true).
  { unfold parse_endpoint in He. destruct (normalize_date end_); [|discriminate].
    by apply CalendarFacts.strptime_valid in He. }
  destruct (RangeFacts.loop_days (daterange_budget s e) s e Hvs Hve)
    as (ds & Hrun & Hvalid & Hords); [unfold daterange_budget; lia|].
  unfold daterange. rewrite Hs, He, Hrun. cbn [yielded].
  rewrite Forall_forall in Hvalid. split.
  - intros <-. split.
    + replace (Datetime.toordinal s - Datetime.toordinal s + 1)%Z with 1%Z
        in Hords by lia.
      destruct ds as [|x [|y ds']]; try discriminate Hords.
      cbn in Hords. injection Hords as Hx. cbn. do 2 f_equal.
      apply CalendarFacts.toordinal_inj; [apply Hvalid; left | done | done].
    + split.
      * intros Hiso. destruct (Z_lt_le_dec (Datetime.year s) 1000) as [Hsmall|Hbig];
          [|done].
        by apply EndpointFacts.strftime_short_not_iso in Hiso.
      * by apply EndpointFacts.strftime_iso_shape.
  - intros Hlt. pose proof Hlt as Hord.
    apply CalendarFacts.date_ltb_ordinal in Hord; [|done..].
    rewrite seqZ_nil in Hords by lia. apply fmap_nil_inv in Hords as ->.
    cbn. f_equal. unfold range_ending.
    destruct (Datetime.date_leb s e) eqn:Hle; [|done].
    apply CalendarFacts.date_leb_ordinal in Hle; [lia|done..].
Qed.

Lemma daterange_single_and_empty_witness :
  yielded (daterange " 3/1/2025" "2025-03-01") = ["2025-03-01"]
  ∧ yielded (daterange "0999-03-01" "0999-03-01") = ["999-03-01"].
Proof.
  split.
  - destruct (daterange_single_and_empty " 3/1/2025" "2025-03-01"
                (Datetime.Date 2025 3 1) (Datetime.Date 2025 3 1))
      as [H _]; [vm_compute; reflexivity..|].
    exact (proj1 (H eq_refl)).
  - destruct (daterange_single_and_empty "0999-03-01" "0999-03-01"
                (Datetime.Date 999 3 1) (Datetime.Date 999 3 1))
      as [H _]; [vm_compute; reflexivity..|].
    exact (proj1 (H eq_refl)).
Defined.

(** ** More on the table strategy *)

Module TableFacts.

Lemma map_fmap {A B} (f : A → B) (l : list A) : map f l = f <$> l.
Proof. reflexivity. Qed.

(** Looking up a key in a dictionary built from pairs: the last pair
    with that key decides. *)
Lemma foldl_insert_lookup (l : list (string * string)) (k v : string) :
  foldl (fun m kv => <[kv.1 := kv.2]> m) (∅ : gmap string string) l !! k = Some v
  ↔ ∃ i, l !! i = Some (k, v)
         ∧ ∀ j v', (i < j)%nat → l !! j ≠ Some (k, v').
Proof.
  revert v. induction l as [|[k0 v0] l IH] using rev_ind; intros v.
  - cbn. rewrite lookup_empty. split; [discriminate|]. by intros (i & Hi & _).
  - rewrite foldl_snoc. cbn [fst snd]. destruct (decide (k0 = k)) as [->|Hne].
    + rewrite lookup_insert_eq. split.
      * intros [= ->]. exists (length l). split.
        -- by rewrite list_lookup_middle.
        -- intros j v' Hj Hl. apply lookup_lt_Some in Hl.
           rewrite length_app in Hl. cbn in Hl. lia.
      * intros (i & Hi & Hlast). destruct (decide (i = length l)) as [->|Hi'].
        -- rewrite list_lookup_middle in Hi by done. by injection Hi as ->.
        -- exfalso. apply (Hlast (length l) v0).
           ++ apply lookup_lt_Some in Hi. rewrite length_app in Hi. cbn in Hi. lia.
           ++ by rewrite list_lookup_middle.
    + rewrite lookup_insert_ne by done. rewrite IH. split.
      * intros (i & Hi & Hlast). exists i. split.
        -- by apply lookup_app_l_Some.
        -- intros j v' Hj Hl. apply lookup_app_Some in Hl as [Hl|[_ Hl]].
           ++ by apply (Hlast j v').
           ++ destruct (j - length l)%nat; cbn in Hl; [congruence|done].
      * intros (i & Hi & Hlast). apply lookup_app_Some in Hi as [Hi|[_ Hi]].
        -- exists i. split; [done|]. intros j v' Hj Hl.
           apply (Hlast j v' Hj). by apply lookup_app_l_Some.
        -- destruct (i - length l)%nat; cbn in Hi; [congruence|done].
Qed.

Lemma dict_zip_lookup (hs cs : list string) (k v : string) :
  dict_zip hs cs !! k = Some v
  ↔ ∃ i, hs !! i = Some k ∧ cs !! i = Some v
         ∧ ∀ j, (i < j)%nat → hs !! j = Some k → cs !! j = None.
Proof.
  unfold dict_zip. rewrite foldl_insert_lookup. split.
  - intros (i & Hi & Hlast). apply lookup_zip_with_Some in Hi
      as (h & c & [= -> ->] & Hh & Hc).
    exists i. split; [done|]. split; [done|]. intros j Hj Hhj.
    destruct (cs !! j) as [c'|] eqn:Hcj; [|done]. exfalso.
    apply (Hlast j c' Hj). apply lookup_zip_with_Some. by exists h, c'.
  - intros (i & Hh & Hc & Hlast). exists i. split.
    + apply lookup_zip_with_Some. by exists k, v.
    + intros j v' Hj Hz. apply lookup_zip_with_Some in Hz
        as (h & c & [= -> ->] & Hhj & Hcj).
      rewrite (Hlast j Hj Hhj) in Hcj. discriminate.
Qed.

End TableFacts.

(** X5.  In the table strategy the name of the record of a body row is
    the stripped text of the row's cell under the last header cell
    whose label, after stripping and lower-casing, is "name" and under
    which the row has a cell; it is null exactly when the row has no
    cell under any such header.  Each body row gives one record, in row
    order. *)
Theorem table_name_column (t : table_el) (n : nat) (tr : list string) :
  tbody_rows t !! n = Some tr →
  ∃ r, extract_rows_from_table t !! n = Some r
       ∧ length (extract_rows_from_table t) = length (tbody_rows t)
       ∧ (∀ v, name r = Some v
               ↔ ∃ i h c, thead_cells t !! i = Some h
                          ∧ header_label h = "name"
                          ∧ tr !! i = Some c ∧ v = Str.strip c
                          ∧ ∀ j h', (i < j)%nat → thead_cells t !! j = Some h' →
                                    header_label h' = "name" → tr !! j = None)
       ∧ (name r = None
          ↔ ∀ i h, thead_cells t !! i = Some h → header_label h = "name" →
                   tr !! i = None).
Proof.
  intros Htr. unfold extract_rows_from_table.
  set (hs := map (fun h => Str.lower (Str.strip h)) (thead_cells t)).
  exists (row_of_cells hs (map Str.strip tr)).
  assert (Hname : ∀ v, name (row_of_cells hs (map Str.strip tr)) = Some v
            ↔ ∃ i h c, thead_cells t !! i = Some h
                       ∧ header_label h = "name"
                       ∧ tr !! i = Some c ∧ v = Str.strip c
                       ∧ ∀ j h', (i < j)%nat → thead_cells t !! j = Some h' →
                                 header_label h' = "name" → tr !! j = None).
  { intros v. cbn [row_of_cells new_row name].
    rewrite TableFacts.dict_zip_lookup. unfold hs.
    rewrite !TableFacts.map_fmap. split.
    - intros (i & Hh & Hc & Hlast).
      apply list_lookup_fmap_Some in Hh as (h & Hlab & Hh). symmetry in Hlab.
      apply list_lookup_fmap_Some in Hc as (c & -> & Hc).
      exists i, h, c. repeat (split; [done|]).
      intros j h' Hj Hh' Hlab'.
      specialize (Hlast j Hj). rewrite !list_lookup_fmap, Hh' in Hlast. cbn in Hlast.
      unfold header_label in Hlab'. rewrite Hlab' in Hlast. specialize (Hlast eq_refl).
      by destruct (tr !! j).
    - intros (i & h & c & Hh & Hlab & Hc & -> & Hlast). exists i.
      rewrite !list_lookup_fmap, Hh, Hc. cbn. unfold header_label in Hlab.
      rewrite Hlab. repeat (split; [done|]).
      intros j Hj Hhj. rewrite list_lookup_fmap in Hhj |- *.
      destruct (thead_cells t !! j) as [h'|] eqn:Hh'; [|discriminate].
      cbn in Hhj. injection Hhj as Hlab'. by rewrite (Hlast j h' Hj Hh' Hlab'). }
  split; [|split; [|split]].
  - rewrite TableFacts.map_fmap, list_lookup_fmap, Htr. reflexivity.
  - by rewrite length_map.
  - exact Hname.
  - split.
    + intros Hnone i h Hh Hlab. destruct (tr !! i) as [c|] eqn:Hc; [|done]. exfalso.
      (* take the last such column that has a cell *)
      assert (∃ v, name (row_of_cells hs (map Str.strip tr)) = Some v) as [v Hv];
        [|congruence].
      cbn [row_of_cells new_row name].
      destruct (dict_zip hs (map Str.strip tr) !! "name") as [v|] eqn:Hd; [by exists v|].
      exfalso. unfold dict_zip in Hd.
      apply not_elem_of_dom in Hd. apply Hd. clear Hd Hnone Hname.
      assert ((header_label h, Str.strip c) ∈ zip hs (map Str.strip tr)) as Hin.
      { apply list_elem_of_lookup. exists i. apply lookup_zip_with_Some.
        exists (header_label h), (Str.strip c). split; [done|]. unfold hs.
        rewrite !TableFacts.map_fmap, !list_lookup_fmap, Hh, Hc. done. }
      rewrite Hlab in Hin. revert Hin. generalize (zip hs (map Str.strip tr)).
      intros l. induction l as [|[k0 v0] l IH] using rev_ind.
      * by intros ?%elem_of_nil.
      * rewrite foldl_snoc, elem_of_app, list_elem_of_singleton. cbn [fst snd].
        rewrite dom_insert, elem_of_union, elem_of_singleton.
        intros [Hin|[= <- <-]]; [right; by apply IH | by left].
    + intros Hall. destruct (name (row_of_cells hs (map Str.strip tr))) as [v|] eqn:Hv;
        [|done].
      destruct (proj1 (Hname v) eq_refl) as (i & h & c & Hh & Hlab & Hc & _).
      rewrite (Hall i h Hh Hlab) in Hc. discriminate.
Qed.

Lemma table_name_column_witness :
  ∃ r, extract_rows_from_table ragged_table !! 1%nat = Some r
       ∧ name r = Some "Roe, Rick".
Proof.
  destruct (table_name_column ragged_table 1 ["Roe, Rick"; "B2"] eq_refl)
    as (r & Hr & _ & Hname & _).
  exists r. split; [exact Hr|]. apply Hname.
  exists 0%nat, " NAME ", "Roe, Rick". repeat (split; [reflexivity|]).
  intros [|[|[|j]]] h' Hj Hh' Hlab;
    [lia | injection Hh' as <-; discriminate Hlab | reflexivity | reflexivity].
Defined.

(** X6.  A table without header cells gives, for every body row, a
    record whose extracted fields are all null; the same holds for a
    body row without cells under any headers. *)
Theorem table_without_headers_or_cells (t : table_el) :
  let blank := new_row None None None None None None None None in
  (thead_cells t = [] →
     extract_rows_from_table t = map (fun _ => blank) (tbody_rows t))
  ∧ (∀ n, tbody_rows t !! n = Some [] →
          extract_rows_from_table t !! n = Some blank).
Proof.
  cbv zeta. unfold extract_rows_from_table. split.
  - intros ->. cbn [map]. apply map_ext. intros tr. reflexivity.
  - intros n Hn. rewrite TableFacts.map_fmap, list_lookup_fmap, Hn. cbn.
    unfold row_of_cells, dict_zip.
    replace (zip _ []) with (@nil (string * string)); [reflexivity|].
    by destruct (map _ (thead_cells t)).
Qed.

Lemma table_without_headers_or_cells_witness :
  extract_rows_from_table (TableEl [] [["Jane Doe"; "B12345"]; []])
  = [new_row None None None None None None None None;
     new_row None None None None None None None None].
Proof.
  destruct (table_without_headers_or_cells (TableEl [] [["Jane Doe"; "B12345"]; []]))
    as [H _].
  exact (H eq_refl).
Defined.

(** ** The matcher *)

Module ReFacts.
Import Re StrFacts.

Lemma is_suffix_refl (s : string) : is_suffix s s.
Proof. by exists "". Qed.

Lemma is_suffix_trans (a b c : string) :
  is_suffix a b → is_suffix b c → is_suffix a c.
Proof.
  intros [u ->] [w ->]. exists (w +:+ u).
  induction w as [|x w IH]; [done|]. rewrite !append_cons. by rewrite IH.
Qed.

Lemma is_suffix_tail (c : ascii) (t : string) : is_suffix t (String c t).
Proof. by exists (String c ""). Qed.

(** A match is a result of the continuation, called on what is left of
    the text. *)
Lemma matchk_result {A : Type} (r : regex) :
  ∀ (st : mstate) (k : mstate → option A) (m : A),
    matchk r st k = Some m →
    ∃ st1, is_suffix (rest st1) (rest st) ∧ k st1 = Some m.
Proof.
  induction r as [p| |r1 IH1 r2 IH2|r1 IH1 r2 IH2|r1 IH1|r1 IH1 lo hi|i r1 IH1| |];
    intros st k m; cbn [matchk].
  - destruct (rest st) as [|c t] eqn:Hrest; [discriminate|].
    destruct (p c); [|discriminate]. intros Hk. exists (advance st t).
    split; [apply is_suffix_tail | done].
  - intros Hk. exists st. split; [apply is_suffix_refl | done].
  - intros H. apply IH1 in H as (st1 & Hs1 & H). apply IH2 in H as (st2 & Hs2 & H).
    exists st2. split; [by eapply is_suffix_trans | done].
  - destruct (matchk r1 st k) as [m1|] eqn:H1; cbn.
    + intros [= <-]. by apply IH1.
    + apply IH2.
  - generalize (String.length (rest st)). intros fuel.
    assert (∀ st0, is_suffix (rest st0) (rest st) →
              (fix loop (fuel : nat) (st0 : mstate) {struct fuel} : option A :=
                 match fuel with
                 | 0%nat => k st0
                 | S fuel' =>
                     orelse
                       (matchk r1 st0
                          (fun st1 => if (pos st0 <? pos st1)%nat
                                      then loop fuel' st1 else None))
                       (k st0)
                 end) fuel st0 = Some m →
              ∃ st1, is_suffix (rest st1) (rest st) ∧ k st1 = Some m) as Hloop.
    { induction fuel as [|fuel IHf]; intros st0 Hs0.
      - intros Hk. by exists st0.
      - match goal with
        | |- orelse ?X _ = _ → _ => destruct X as [m1|] eqn:H1; cbn
        end.
        + intros [= <-]. apply IH1 in H1 as (st1 & Hs1 & H1).
          destruct (pos st0 <? pos st1)%nat; [|discriminate].
          apply (IHf st1); [by eapply is_suffix_trans | done].
        + intros Hk. by exists st0. }
    apply Hloop, is_suffix_refl.
  - generalize 0%nat at 1. revert st.
    assert (∀ n done st0,
              (fix loop (n done : nat) (st0 : mstate) {struct n} : option A :=
                 match n with
                 | 0%nat => if (lo <=? done)%nat then k st0 else None
                 | S n' =>
                     orelse
                       (matchk r1 st0 (fun st1 => loop n' (S done) st1))
                       (if (lo <=? done)%nat then k st0 else None)
                 end) n done st0 = Some m →
              ∃ st1, is_suffix (rest st1) (rest st0) ∧ k st1 = Some m) as Hloop.
    { induction n as [|n IHn]; intros done st0.
      - destruct (lo <=? done)%nat; [|discriminate]. intros Hk. exists st0.
        split; [apply is_suffix_refl | done].
      - match goal with
        | |- orelse ?X _ = _ → _ => destruct X as [m1|] eqn:H1; cbn
        end.
        + intros [= <-]. apply IH1 in H1 as (st1 & Hs1 & H1).
          apply IHn in H1 as (st2 & Hs2 & H1). exists st2.
          split; [by eapply is_suffix_trans | done].
        + destruct (lo <=? done)%nat; [|discriminate]. intros Hk. exists st0.
          split; [apply is_suffix_refl | done]. }
    intros st done. apply Hloop.
  - intros H. apply IH1 in H as (st1 & Hs1 & H). exists (set_group i st st1).
    split; [exact Hs1 | done].
  - destruct (pos st =? 0)%nat; [|discriminate]. intros Hk. exists st.
    split; [apply is_suffix_refl | done].
  - destruct (at_eol (rest st)); [|discriminate]. intros Hk. exists st.
    split; [apply is_suffix_refl | done].
Qed.

(** A search that succeeds is a match at some offset of the text. *)
Lemma search_from_result (r : regex) (s : string) (i : nat) (m : mstate) :
  search_from r s i = Some m →
  ∃ s' i', is_suffix s' s ∧ matchk r (MState i' s' []) Some = Some m.
Proof.
  revert i. induction s as [|c s IH]; intros i; cbn [search_from].
  - destruct (matchk r (MState i "" []) Some) as [m1|] eqn:H1; cbn; [|discriminate].
    intros [= <-]. exists "", i. split; [apply is_suffix_refl | done].
  - destruct (matchk r (MState i (String c s) []) Some) as [m1|] eqn:H1; cbn.
    + intros [= <-]. exists (String c s), i. split; [apply is_suffix_refl | done].
    + intros H. apply IH in H as (s' & i' & Hs & H). exists s', i'.
      split; [|done]. eapply is_suffix_trans; [exact Hs | apply is_suffix_tail].
Qed.

End ReFacts.

(** ** More on the card strategy *)

Module CardFacts.
Import Re StrFacts ReFacts.

Lemma contains_colon (s : string) : Str.contains ":" s = false ↔ no_colon s.
Proof.
  unfold no_colon. induction s as [|c s IH]; [done|].
  cbn [Str.contains Str.all String.prefix].
  rewrite orb_false_iff, andb_true_iff, IH, negb_true_iff.
  destruct (ascii_dec ":" c) as [<-|Hne].
  - split; intros [H _]; [by destruct s | by rewrite Ascii.eqb_refl in H].
  - assert (Ascii.eqb c ":" = false) as -> by (apply Ascii.eqb_neq; congruence).
    tauto.
Qed.

Lemma no_colon_suffix (t s : string) : is_suffix t s → no_colon s → no_colon t.
Proof.
  intros [u ->]. unfold no_colon. induction u as [|c u IH]; [done|].
  rewrite append_cons. cbn [Str.all]. rewrite andb_true_iff. intros [_ H]. by apply IH.
Qed.

Lemma needs_colon_fails {A : Type} (r : regex) :
  needs_colon r →
  ∀ (st : mstate) (k : mstate → option A),
    no_colon (rest st) → matchk r st k = None.
Proof.
  induction 1 as [p Hp|r1 r2 _ IH|r1 r2 _ IH|r1 r2 _ IH1 _ IH2|i r _ IH];
    intros st k Hst; cbn [matchk].
  - destruct (rest st) as [|c t] eqn:Hrest; [done|].
    destruct (p c) eqn:Hc; [|done]. apply Hp in Hc as ->.
    unfold no_colon in Hst. cbn in Hst. discriminate.
  - by apply IH.
  - destruct (matchk r1 st _) as [m|] eqn:Hm; [|done].
    apply matchk_result in Hm as (st1 & Hs1 & Hm).
    rewrite IH in Hm; [discriminate|]. by eapply no_colon_suffix.
  - by rewrite IH1, IH2.
  - by apply IH.
Qed.

Lemma colon_i (c : ascii) :
  Ascii.eqb (Str.lower_char c) (Str.lower_char ":") = true → c = ":"%char.
Proof.
  destruct c as [[] [] [] [] [] [] [] []]; vm_compute; intros H;
    first [discriminate | reflexivity].
Qed.

Ltac find_colon :=
  solve [ apply nc_chr; exact colon_i
        | apply nc_group; find_colon
        | apply nc_alt; find_colon
        | apply nc_seq_l; find_colon
        | apply nc_seq_r; find_colon ].

Lemma search_no_colon (r : regex) (s : string) (i : nat) :
  needs_colon r → no_colon s → search_from r s i = None.
Proof.
  intros Hr. revert i. induction s as [|c s IH]; intros i Hs; cbn [search_from].
  - by rewrite needs_colon_fails.
  - rewrite needs_colon_fails by done. cbn. apply IH.
    eapply no_colon_suffix; [apply is_suffix_tail | done].
Qed.

Lemma patterns_need_colon :
  needs_colon CardPatterns.re_name ∧ needs_colon CardPatterns.re_arrest_date
  ∧ needs_colon CardPatterns.re_dob ∧ needs_colon CardPatterns.re_age
  ∧ needs_colon CardPatterns.re_booking ∧ needs_colon CardPatterns.re_agency
  ∧ needs_colon CardPatterns.re_bond ∧ needs_colon CardPatterns.re_charges.
Proof.
  repeat split;
    cbv [CardPatterns.re_name CardPatterns.re_arrest_date CardPatterns.re_dob
         CardPatterns.re_age CardPatterns.re_booking CardPatterns.re_agency
         CardPatterns.re_bond CardPatterns.re_charges seqs alts lit_i chr_i];
    find_colon.
Qed.

#[local] Opaque Str.isdigit Str.isspace.

(** What "(\d{1,3})" captures. *)
Lemma age_group (st : mstate) (m : mstate) :
  matchk (Group 1 (Rep digit 1 3)) st Some = Some m →
  ∃ v, group 1 m = Some v ∧ digits v ∧ (1 <= String.length v <= 3)%nat.
Proof.
  destruct st as [p r cs]. cbn.
  assert (S p - p = 1 ∧ S (S p) - p = 2 ∧ S (S (S p)) - p = 3)%nat
    as (Hs1 & Hs2 & Hs3) by lia.
  destruct r as [|a r]; cbn; [discriminate|].
  destruct (Str.isdigit a) eqn:Ha; cbn; [|discriminate].
  destruct r as [|b r]; cbn.
  { intros [= <-]. unfold group. cbn.
    rewrite Hs1. cbn. eexists. split; [done|].
    split; [unfold digits; cbn; by rewrite Ha | cbn; lia]. }
  destruct (Str.isdigit b) eqn:Hb; cbn.
  2:{ intros [= <-]. unfold group. cbn. rewrite Hs1. cbn.
      eexists. split; [done|].
      split; [unfold digits; cbn; by rewrite Ha | cbn; lia]. }
  destruct r as [|c r]; cbn.
  { intros [= <-]. unfold group. cbn. rewrite Hs2. cbn.
    eexists. split; [done|].
    split; [unfold digits; cbn; by rewrite Ha, Hb | cbn; lia]. }
  destruct (Str.isdigit c) eqn:Hc; cbn.
  - intros [= <-]. unfold group. cbn. rewrite Hs3. cbn.
    eexists. split; [done|].
    split; [unfold digits; cbn; by rewrite Ha, Hb, Hc | cbn; lia].
  - intros [= <-]. unfold group. cbn. rewrite Hs2. cbn.
    eexists. split; [done|].
    split; [unfold digits; cbn; by rewrite Ha, Hb | cbn; lia].
Qed.

Lemma strip_digits (v : string) :
  digits v → (1 <= String.length v <= 3)%nat → Str.strip v = v.
Proof.
  intros Hd Hlen.
  destruct v as [|a [|b [|c [|]]]]; cbn in Hlen; try lia;
    NormalizeFacts.digit_facts;
    repeat match goal with
      | H : Str.isdigit _ = true |- _ => apply isdigit_not_space in H
      end;
    unfold Str.strip, Str.rstrip, Str.rev; cbn;
    repeat match goal with H : Str.isspace _ = false |- _ => rewrite H; cbn end;
    reflexivity.
Qed.

End CardFacts.

(** X7.  A card whose text has no colon gives a record none of whose
    extracted fields is set: every field pattern needs its label's
    colon. *)
Theorem card_without_colon_is_blank (text : string) :
  Str.contains ":" text = false → row_of_card text = blank_row.
Proof.
  intros Hno%CardFacts.contains_colon.
  destruct CardFacts.patterns_need_colon
    as (H1 & H2 & H3 & H4 & H5 & H6 & H7 & H8).
  unfold row_of_card, Re.re_search.
  by rewrite !CardFacts.search_no_colon.
Qed.

Lemma card_without_colon_is_blank_witness :
  row_of_card "John Smith, 34, booked as A987" = blank_row.
Proof. apply card_without_colon_is_blank. reflexivity. Defined.

(** X8.  The age of a card record, when it is set, is a run of one to
    three decimal digits, whatever the card's text. *)
Theorem card_age_digits (text v : string) :
  age (row_of_card text) = Some v →
  digits v ∧ (1 <= String.length v <= 3)%nat.
Proof.
  unfold row_of_card. cbn [new_row age]. unfold group_strip, Re.re_search.
  destruct (Re.search_from CardPatterns.re_age text 0) as [m|] eqn:Hm; [|discriminate].
  apply ReFacts.search_from_result in Hm as (s' & i' & _ & Hm).
  unfold CardPatterns.re_age in Hm. cbv [Re.seqs] in Hm. cbn [Re.matchk] in Hm.
  apply ReFacts.matchk_result in Hm as (st1 & _ & Hm).
  apply ReFacts.matchk_result in Hm as (st2 & _ & Hm).
  apply CardFacts.age_group in Hm as (w & Hw & Hd & Hlen).
  rewrite Hw. cbn. intros [= <-]. by rewrite CardFacts.strip_digits.
Qed.

Lemma card_age_digits_witness :
  digits "34" ∧ (1 <= String.length "34" <= 3)%nat.
Proof.
  apply (card_age_digits john_card "34"). vm_compute. reflexivity.
Defined.

(** ** The strategy chain *)

Module ChainFacts.

(** Where a result of the loops comes from. *)
Lemma try_elements_source (els : list element) (rows : list ArrestRow) :
  try_elements els = Some rows →
  rows ≠ []
  ∧ ∃ el, el ∈ els ∧ el_broken el = None
          ∧ ((el_is_table el = Ok true
              ∧ rows = extract_rows_from_table (el_table el))
             ∨ (el_is_table el = Ok false
                ∧ rows = extract_rows_from_cards (el_items el))).
Proof.
  induction els as [|el els IH]; cbn [try_elements]; [discriminate|].
  assert (try_elements els = Some rows →
          rows ≠ []
          ∧ ∃ el0, el0 ∈ el :: els ∧ el_broken el0 = None
                   ∧ ((el_is_table el0 = Ok true
                       ∧ rows = extract_rows_from_table (el_table el0))
                      ∨ (el_is_table el0 = Ok false
                         ∧ rows = extract_rows_from_cards (el_items el0)))) as IH'.
  { intros H. destruct (IH H) as (Hne & el0 & Hin & Hrest). split; [done|].
    exists el0. split; [by right | done]. }
  destruct (el_is_table el) as [[|]|e] eqn:Htab; [| |exact IH'].
  - destruct (0 <? length (tbody_rows (el_table el)))%nat eqn:Hrows; [|exact IH'].
    unfold read_table. destruct (el_broken el) eqn:Hb; [exact IH'|].
    intros [= <-]. split.
    + unfold extract_rows_from_table. apply Nat.ltb_lt in Hrows.
      destruct (tbody_rows (el_table el)); [cbn in Hrows; lia | discriminate].
    + exists el. split; [left|]. split; [done|]. left. done.
  - unfold read_cards. destruct (el_broken el) eqn:Hb; [exact IH'|].
    destruct (extract_rows_from_cards (el_items el)) as [|r rs] eqn:Hcards; [exact IH'|].
    intros [= <-]. split; [discriminate|].
    exists el. split; [left|]. split; [done|]. right. done.
Qed.

Lemma try_containers_source (sels : list string) (page : dom) (rows : list ArrestRow) :
  try_containers sels page = Some rows →
  ∃ sel, sel ∈ sels ∧ try_elements (page sel) = Some rows.
Proof.
  induction sels as [|sel sels IH]; cbn [try_containers]; [discriminate|].
  destruct (try_elements (page sel)) as [rows'|] eqn:Hsel.
  - intros [= <-]. exists sel. split; [left | done].
  - intros H. destruct (IH H) as (sel' & Hin & Hsel'). exists sel'. split; [by right | done].
Qed.

End ChainFacts.

(** X9.  The table strategy comes first: when the first element under
    the selector "table" is a table with at least one body row whose
    cells can be read, [try_extract_rows] returns the records of that
    table, whatever else is on the page. *)
Theorem first_table_wins (page : dom) (el : element) (els : list element) :
  page "table" = el :: els →
  el_is_table el = Ok true →
  tbody_rows (el_table el) ≠ [] →
  el_broken el = None →
  try_extract_rows page = Ok (extract_rows_from_table (el_table el)).
Proof.
  intros Hpage Htab Hrows Hread. unfold try_extract_rows.
  cbn [RESULT_CONTAINERS try_containers]. rewrite Hpage. cbn [try_elements].
  rewrite Htab. unfold read_table. rewrite Hread.
  destruct (tbody_rows (el_table el)) eqn:Hb; [done|]. reflexivity.
Qed.

Lemma first_table_wins_witness :
  try_extract_rows table_page = Ok (extract_rows_from_table jane_table).
Proof.
  apply (first_table_wins table_page (Element (Ok true) jane_table [] None) []);
    [reflexivity | reflexivity | discriminate | reflexivity].
Defined.

(** X10.  What [try_extract_rows] returns is either the empty list or
    the records of one element found under a container selector: those
    of a table with body rows, or those of a container with at least one
    item.  A page without any element under the container selectors
    gives the empty list. *)
Theorem extracted_rows_source (page : dom) :
  (∀ rows, try_extract_rows page = Ok rows →
     rows = []
     ∨ ∃ sel el, sel ∈ RESULT_CONTAINERS ∧ el ∈ page sel
                 ∧ el_broken el = None
                 ∧ (rows = extract_rows_from_table (el_table el)
                    ∨ (el_is_table el = Ok false
                       ∧ rows = extract_rows_from_cards (el_items el))))
  ∧ ((∀ sel, sel ∈ RESULT_CONTAINERS → page sel = []) →
       try_extract_rows page = Ok []).
Proof.
  split.
  - intros rows. unfold try_extract_rows.
    destruct (try_containers RESULT_CONTAINERS page) as [rows'|] eqn:Hc.
    + intros [= <-]. right.
      apply ChainFacts.try_containers_source in Hc as (sel & Hsel & Hels).
      apply ChainFacts.try_elements_source in Hels
        as (_ & el & Hin & Hread & [[_ ->]|[Hcard ->]]);
        exists sel, el; repeat (split; [done|]); [by left | by right].
    + destruct (page "table") as [|el els] eqn:Hpage; [intros [= <-]; by left|].
      unfold read_table. destruct (el_broken el) eqn:Hb; [discriminate|].
      intros [= <-]. right. exists "table", el.
      split; [left|]. split; [rewrite Hpage; left|]. split; [done|]. by left.
  - intros Hempty. unfold try_extract_rows.
    assert (try_containers RESULT_CONTAINERS page = None) as ->.
    { destruct (try_containers RESULT_CONTAINERS page) as [rows|] eqn:Hc; [|done].
      apply ChainFacts.try_containers_source in Hc as (sel & Hsel & Hels).
      rewrite (Hempty sel Hsel) in Hels. discriminate. }
    rewrite (Hempty "table"); [done | left].
Qed.

Lemma extracted_rows_source_witness :
  try_extract_rows (fun _ => []) = Ok [].
Proof.
  destruct (extracted_rows_source (fun _ => [])) as [_ H].
  apply H. reflexivity.
Defined.

Module LiveFacts.

(** When every query returns, the page is one of the pages above. *)
Lemma try_containers_live_ok (sels : list string) (page : dom) :
  try_containers_live sels (fun sel => Ok (page sel))
  = Ok (try_containers sels page).
Proof.
  induction sels as [|sel sels IH]; [reflexivity|].
  cbn [try_containers_live try_containers].
  by destruct (try_elements (page sel)).
Qed.

Lemma try_containers_live_raises (sels : list string) (page : live_dom) (e : exn) :
  try_containers_live sels page = Raise e →
  ∃ before sel after, sels = before ++ sel :: after ∧ page sel = Raise e
    ∧ ∀ b, b ∈ before → ∃ els, page b = Ok els ∧ try_elements els = None.
Proof.
  induction sels as [|sel sels IH]; cbn [try_containers_live]; [discriminate|].
  destruct (page sel) as [els|e'] eqn:Hsel.
  - destruct (try_elements els) eqn:Hels; [discriminate|].
    intros H. destruct (IH H) as (before & sel' & after & -> & Hraise & Hbefore).
    exists (sel :: before), sel', after. split; [done|]. split; [done|].
    intros b [->|Hb]%elem_of_cons; [by exists els | by apply Hbefore].
  - intros [= ->]. exists [], sel, sels. split; [done|]. split; [done|].
    intros b Hb. inversion Hb.
Qed.

Lemma try_containers_live_none (sels : list string) (page : live_dom) :
  try_containers_live sels page = Ok None →
  ∀ sel, sel ∈ sels → ∃ els, page sel = Ok els ∧ try_elements els = None.
Proof.
  induction sels as [|sel sels IH]; cbn [try_containers_live].
  - intros _ sel Hin. inversion Hin.
  - destruct (page sel) as [els|e'] eqn:Hsel; [|discriminate].
    destruct (try_elements els) eqn:Hels; [discriminate|].
    intros H sel' [->|Hin]%elem_of_cons; [by exists els | by apply IH].
Qed.

End LiveFacts.

(** X11.  On a page whose locator queries may raise, [try_extract_rows]
    raises in two places only, both outside the [try] of its loop.
    Either the query for a container selector raises, after every
    selector before it gave no records, and the exception is that
    one; or every container query returned without records and
    reading the first table of the page, the last resort, raises.  What
    goes wrong inside the loop, in reading an element, is swallowed.
    When every query returns, the function is the one on pages whose
    queries cannot raise. *)
Theorem extraction_raises_outside_the_try (page : live_dom) (e : exn) :
  (try_extract_rows_live page = Raise e →
     (∃ before sel after,
         RESULT_CONTAINERS = before ++ sel :: after ∧ page sel = Raise e
         ∧ ∀ b, b ∈ before → ∃ els, page b = Ok els ∧ try_elements els = None)
     ∨ ((∀ sel, sel ∈ RESULT_CONTAINERS →
           ∃ els, page sel = Ok els ∧ try_elements els = None)
        ∧ ∃ el els, page "table" = Ok (el :: els) ∧ el_broken el = Some e))
  ∧ (∀ quiet : dom,
       try_extract_rows_live (fun sel => Ok (quiet sel)) = try_extract_rows quiet).
Proof.
  split.
  - unfold try_extract_rows_live.
    destruct (try_containers_live RESULT_CONTAINERS page) as [[rows|]|e'] eqn:Hc;
      cbn [bind].
    + discriminate.
    + pose proof (LiveFacts.try_containers_live_none _ _ Hc) as Hall.
      destruct (Hall "table" ltac:(left)) as (els & Htable & _).
      rewrite Htable. cbn [bind]. destruct els as [|el els]; [discriminate|].
      unfold read_table. destruct (el_broken el) as [e0|] eqn:Hb; [|discriminate].
      intros [= <-]. right. split; [exact Hall|]. by exists el, els.
    + intros [= <-]. left. by apply LiveFacts.try_containers_live_raises.
  - intros quiet. unfold try_extract_rows_live, try_extract_rows.
    rewrite LiveFacts.try_containers_live_ok. cbn [bind].
    by destruct (try_containers RESULT_CONTAINERS quiet).
Qed.

Lemma extraction_raises_outside_the_try_witness :
  (∃ before after, RESULT_CONTAINERS = before ++ ".results" :: after
                   ∧ closing_page ".results" = Raise (OtherError "Target closed"))
  ∧ ∃ el els, broken_page "table" = el :: els
              ∧ el_broken el = Some (OtherError "Element is not attached to the DOM").
Proof.
  split.
  - destruct (proj1 (extraction_raises_outside_the_try closing_page
                       (OtherError "Target closed")) eq_refl)
      as [(before & sel & after & Hsplit & Hraise & _)|[Hall _]].
    + exists ["table"], [".list"; ".cards"; ".card-list"; "[role=table]";
                         "[data-component*=arrest i]"].
      split; reflexivity.
    + destruct (Hall ".results") as (els & Hok & _); [right; left|]. discriminate Hok.
  - destruct (proj1 (extraction_raises_outside_the_try
                       (fun sel => Ok (broken_page sel))
                       (OtherError "Element is not attached to the DOM")) eq_refl)
      as [(before & sel & after & _ & Hraise & _)|[_ (el & els & Htable & Hb)]].
    + discriminate Hraise.
    + injection Htable as <- <-. eexists _, _. split; reflexivity.
Defined.

(** ** The control resolver *)

Section ControlFacts.
Context {P : Type} `{FormPage P}.



Lemma click_button_from_absent (sels : list string) (p : P) :
  (∀ sel, sel ∈ sels → count p sel = 0%nat) →
  click_button_from sels p = (p, false).
Proof.
  induction sels as [|sel sels IH]; intros Habs; [done|].
  cbn [click_button_from]. rewrite (Habs sel) by left. cbn.
  apply IH. intros sel' Hin. apply Habs. by right.
Qed.

Lemma press_enter_from_absent (sels : list string) (p : P) :
  (∀ sel, sel ∈ sels → count p sel = 0%nat) →
  press_enter_from sels p = (p, false).
Proof.
  induction sels as [|sel sels IH]; intros Habs; [done|].
  cbn [press_enter_from]. rewrite (Habs sel) by left. cbn.
  apply IH. intros sel' Hin. apply Habs. by right.
Qed.

Lemma click_button_from_raising (sels : list string) (p : P) :
  (∀ q sel ms, (click_within q sel ms).2 = false) →
  (click_button_from sels p).2 = false.
Proof.
  intros Hraise. revert p. induction sels as [|sel sels IH]; intros p; [done|].
  cbn [click_button_from]. destruct (0 <? count p sel)%nat; [|apply IH].
  pose proof (Hraise p sel 3000%Z) as Hc.
  destruct (click_within p sel 3000) as [p1 ok]. cbn in Hc. subst ok. apply IH.
Qed.


Lemma press_enter_from_raising (sels : list string) (p : P) :
  (∀ q sel, (press_enter q sel).2 = false) →
  (press_enter_from sels p).2 = false.
Proof.
  intros Hraise. revert p. induction sels as [|sel sels IH]; intros p; [done|].
  cbn [press_enter_from]. destruct (0 <? count p sel)%nat; [apply Hraise | apply IH].
Qed.

End ControlFacts.



(** X13.  [click_search] reports success only when a click or a press
    of Enter returned: on a page where every click and every press
    raises it reports failure, and on a page with no search button and
    no date input it reports failure and leaves the page as it is.
    When no search button is present, only the first date input that is
    there is tried. *)
Theorem click_search_outcomes {P : Type} `{FormPage P} (p : P) :
  ((∀ q sel ms, (click_within q sel ms).2 = false) →
   (∀ q sel, (press_enter q sel).2 = false) →
     (click_search p).2 = false)
  ∧ ((∀ sel, sel ∈ SEARCH_BUTTONS ++ DATE_INPUTS → count p sel = 0%nat) →
       click_search p = (p, false))
  ∧ (∀ before sel after,
       (∀ b, b ∈ SEARCH_BUTTONS ++ before → count p b = 0%nat) →
       DATE_INPUTS = before ++ sel :: after →
       (0 < count p sel)%nat →
       click_search p = press_enter p sel).
Proof.
  split; [|split].
  - intros Hclick Hpress. unfold click_search.
    pose proof (click_button_from_raising SEARCH_BUTTONS p Hclick) as Hb.
    destruct (click_button_from SEARCH_BUTTONS p) as [p1 clicked]. cbn in Hb.
    subst clicked. by apply press_enter_from_raising.
  - intros Habs. unfold click_search.
    rewrite click_button_from_absent
      by (intros sel Hin; apply Habs, elem_of_app; by left).
    apply press_enter_from_absent. intros sel Hin. apply Habs, elem_of_app. by right.
  - intros before sel after Habs Hsplit Hpresent. unfold click_search.
    rewrite click_button_from_absent
      by (intros b Hin; apply Habs, elem_of_app; by left).
    rewrite Hsplit. clear Hsplit.
    assert (∀ b, b ∈ before → count p b = 0%nat) as Hbefore
      by (intros b Hin; apply Habs, elem_of_app; by right).
    clear Habs. induction before as [|b before IH]; cbn [app press_enter_from].
    + apply Nat.ltb_lt in Hpresent. by rewrite Hpresent.
    + rewrite (Hbefore b) by left. cbn. apply IH. intros b' Hin. apply Hbefore. by right.
Qed.

Lemma click_search_outcomes_witness :
  click_search tt = (tt, false).
Proof.
  destruct (click_search_outcomes tt) as (_ & H & _). apply H. reflexivity.
Defined.

(** ** The quick link *)

Section QuickLinkFacts.
Context {P : Type} `{FormPage P}.




End QuickLinkFacts.



(** ** The JSON fallback *)

Module JsonFacts.

Lemma norm_truthy v : jtruthy v = true → norm v = Some (Str.strip (jstr v)).
Proof. destruct v; simpl; congruence. Qed.

Lemma norm_jor_text v s : norm (jor v (JStr s)) ≠ None.
Proof.
unfold jor. destruct (jtruthy v) eqn:E.
- rewrite (norm_truthy _ E). discriminate.
- discriminate.
Qed.

Lemma rows_of_items_ok items rows :
  rows_of_items items = Ok rows →
  rows = map row_of_item
           (omap (fun i => match i with ItemObject it => Some it | ItemOther => None end) items)
  ∧ ItemOther ∉ items.
Proof.
revert rows. induction items as [|[it|] items IH]; intros rows; simpl.
- intros [= <-]. split; [reflexivity | apply not_elem_of_nil].
- destruct (rows_of_items items) as [rs|e]; simpl; [|discriminate].
  intros [= <-]. destruct (IH rs eq_refl) as [-> Hn]. split; [reflexivity|].
  intros [?|?]%elem_of_cons; [discriminate | contradiction].
- discriminate.
Qed.

Lemma rows_of_items_raise items e :
  rows_of_items items = Raise e → ItemOther ∈ items.
Proof.
revert e. induction items as [|[it|] items IH]; intros e; simpl.
- discriminate.
- destruct (rows_of_items items) as [rs|e'] eqn:E; simpl; [discriminate|].
  intros _. apply list_elem_of_further, (IH e'). reflexivity.
- intros _. apply list_elem_of_here.
Qed.

Lemma rows_of_items_length items rows :
  rows_of_items items = Ok rows → length rows = length items.
Proof.
revert rows. induction items as [|[it|] items IH]; intros rows; simpl.
- intros [= <-]. reflexivity.
- destruct (rows_of_items items) as [rs|e]; simpl; [|discriminate].
  intros [= <-]. simpl. f_equal. apply IH. reflexivity.
- discriminate.
Qed.

Lemma rows_of_items_In items rows r :
  rows_of_items items = Ok rows → r ∈ rows → ∃ it, ItemObject it ∈ items ∧ r = row_of_item it.
Proof.
revert rows. induction items as [|[it|] items IH]; intros rows; simpl.
- intros [= <-] H. inversion H.
- destruct (rows_of_items items) as [rs|e]; simpl; [|discriminate].
  intros [= <-] [->|H]%elem_of_cons.
  + exists it. split; [apply list_elem_of_here | reflexivity].
  + destruct (IH rs eq_refl H) as (it' & Hin & ->).
    exists it'. split; [apply list_elem_of_further, Hin | reflexivity].
- discriminate.
Qed.

Lemma jget_absent (it : gmap string jval) k : it !! k = None → jget it k = JNull.
Proof. unfold jget. intros ->. reflexivity. Qed.

Lemma jget_text_absent (it : gmap string jval) k : it !! k = None → jget_text it k = JStr "".
Proof. unfold jget_text. intros ->. reflexivity. Qed.

Lemma row_of_item_blank (it : gmap string jval) :
  (∀ k, k ∈ ITEM_KEYS → it !! k = None) → row_of_item it = unnamed_row.
Proof.
intros Hk.
assert (Hget : ∀ k, k ∈ ITEM_KEYS → jget it k = JNull)
  by (intros k Hin; apply jget_absent, Hk, Hin).
assert (Htext : ∀ k, k ∈ ITEM_KEYS → jget_text it k = JStr "")
  by (intros k Hin; apply jget_text_absent, Hk, Hin).
unfold row_of_item, full_name.
rewrite !Hget, !Htext by (unfold ITEM_KEYS; rewrite !elem_of_cons; tauto).
reflexivity.
Qed.

Lemma json_fallback_last (ps : list payload) (p : payload) :
  json_fallback [] (ps ++ [p]) = payload_rows p.
Proof. unfold json_fallback. rewrite last_snoc. reflexivity. Qed.

Lemma json_fallback_rows (rows : list ArrestRow) (ps : list payload) :
  rows ≠ [] → json_fallback rows ps = Ok rows.
Proof. intros Hne. unfold json_fallback. destruct rows; [contradiction|reflexivity]. Qed.

End JsonFacts.

(** X15.  Rows built from a list of JSON items: one row per item, in
    order, none skipped; every such row has a name that is a string
    (never null), no arrest time, and the entry page as its source.  An
    object with none of the keys the fallback reads still gives a row:
    the one whose name is the empty string and whose other fields are
    null. *)
Theorem json_rows_named (items : list jitem) (rows : list ArrestRow) :
  rows_of_items items = Ok rows →
  length rows = length items
  ∧ Forall (fun r => name r ≠ None ∧ arrest_time r = None
                     ∧ source_url r = Some ENTRY_URL) rows
  ∧ (∀ i it, items !! i = Some (ItemObject it) →
       (∀ k, k ∈ ITEM_KEYS → it !! k = None) →
       rows !! i = Some unnamed_row).
Proof.
intros Hrows. split; [|split].
- eapply JsonFacts.rows_of_items_length, Hrows.
- apply Forall_forall. intros r Hr.
  destruct (JsonFacts.rows_of_items_In _ _ _ Hrows Hr) as (it & _ & ->).
  split; [|split; reflexivity].
  apply JsonFacts.norm_jor_text.
- revert rows Hrows. induction items as [|[it0|] items IH]; intros rows Hrows i it Hi Hk.
  + destruct i; discriminate.
  + simpl in Hrows. destruct (rows_of_items items) as [rs|e]; simpl in Hrows; [|discriminate].
    injection Hrows as <-. destruct i as [|i].
    * injection Hi as ->. simpl. f_equal.
      by apply JsonFacts.row_of_item_blank.
    * simpl. apply (IH rs eq_refl i it Hi Hk).
  + discriminate.
Qed.

Lemma json_rows_named_witness :
  rows_of_items [ItemObject sample_item; ItemObject ∅]
  = Ok [row_of_item sample_item; unnamed_row]
  ∧ length [row_of_item sample_item; unnamed_row] = 2%nat
  ∧ name (row_of_item sample_item) = Some "Doe Jane".
Proof.
split; [reflexivity|].
split; [|vm_compute; reflexivity].
exact (proj1 (json_rows_named [ItemObject sample_item; ItemObject ∅]
                [row_of_item sample_item; unnamed_row] eq_refl)).
Defined.

(** X16.  The fallback is tried only when the page gave no row and a
    payload was buffered; it reads the payload buffered last and no
    other.  It raises exactly over a payload whose "results" cannot be
    iterated or whose list holds an element that is no object, and then
    the rows of the date are lost. *)
Theorem json_fallback_gate (rows : list ArrestRow) (ps : list payload) :
  (rows ≠ [] → json_fallback rows ps = Ok rows)
  ∧ json_fallback rows [] = Ok rows
  ∧ (∀ p, json_fallback [] (ps ++ [p]) = payload_rows p)
  ∧ (∀ e, json_fallback rows ps = Raise e →
       rows = [] ∧ ∃ p, last ps = Some p ∧ bad_payload p)
  ∧ (∀ p, bad_payload p → ∃ e, json_fallback [] (ps ++ [p]) = Raise e).
Proof.
assert (Hlast : ∀ p, json_fallback [] (ps ++ [p]) = payload_rows p)
  by apply JsonFacts.json_fallback_last.
split; [|split; [|split; [|split]]].
- intros Hne. unfold json_fallback. destruct rows; [contradiction|reflexivity].
- unfold json_fallback. destruct rows; reflexivity.
- exact Hlast.
- intros e. unfold json_fallback. destruct rows as [|r rows']; [|discriminate].
  destruct (last ps) as [p|] eqn:Hp; [|discriminate].
  intros He. split; [reflexivity|]. exists p. split; [reflexivity|].
  destruct p as [[[items|]|]|items|]; simpl in *; try discriminate; try exact I.
  + eapply JsonFacts.rows_of_items_raise, He.
  + eapply JsonFacts.rows_of_items_raise, He.
- intros p Hbad. rewrite Hlast.
  destruct p as [[[items|]|]|items|]; simpl in *; try contradiction.
  + destruct (rows_of_items items) as [rs|e] eqn:E; [|eauto].
    destruct (JsonFacts.rows_of_items_ok _ _ E) as [_ Hn]. contradiction.
  + eauto.
  + destruct (rows_of_items items) as [rs|e] eqn:E; [|eauto].
    destruct (JsonFacts.rows_of_items_ok _ _ E) as [_ Hn]. contradiction.
Qed.

Lemma json_fallback_gate_witness :
  ∃ e, json_fallback [] ([PayloadOther] ++ [PayloadList [ItemObject ∅; ItemOther]])
       = Raise e.
Proof.
apply (proj2 (proj2 (proj2 (proj2 (json_fallback_gate [] [PayloadOther]))))).
simpl. apply list_elem_of_further, list_elem_of_here.
Defined.

Module TailFacts.

Lemma first_rows_seen (seen : gset row_key) (rows : list ArrestRow) :
  (∀ r, r ∈ rows → key_of r ∈ seen) → first_rows seen rows = [].
Proof.
induction rows as [|r rows IH]; intros Hseen; [reflexivity|].
cbn [first_rows]. rewrite decide_True by (apply Hseen; left).
apply IH. intros r' Hin. apply Hseen. by right.
Qed.

Lemma dedupe_same (r : ArrestRow) (rows : list ArrestRow) :
  (∀ r', r' ∈ rows → r' = r) → dedupe (r :: rows) = [asdict r].
Proof.
intros Hsame. rewrite dedupe_first_rows. cbn [first_rows].
rewrite decide_False by apply not_elem_of_empty.
rewrite first_rows_seen; [reflexivity|].
intros r' Hin. rewrite (Hsame r' Hin).
apply elem_of_union. left. by apply elem_of_singleton.
Qed.

(** The key of a returned record is the key of its row, and its keys
    are the ten field names. *)
Lemma dedupe_identities (rows : list ArrestRow) :
  map dict_identity (dedupe rows) = map key_of (first_rows ∅ rows)
  ∧ Forall (fun d => map fst d = ARREST_FIELDS) (dedupe rows).
Proof.
rewrite dedupe_first_rows. split.
- rewrite map_map. apply map_ext. intros r. reflexivity.
- apply Forall_forall. intros d Hd.
  apply list_elem_of_In, in_map_iff in Hd as (r & <- & _). reflexivity.
Qed.

End TailFacts.

(** X17.  The records of a session are the rows with duplicates
    removed, whether the rows came from the page or from the JSON
    fallback: no two records returned agree on name, arrest date,
    booking number and charges, and each has the ten fields of a
    record.  Rows from the page make the buffered payloads irrelevant:
    there is then at least one record and at most one per row, and the
    key of every row is the key of a record.  A payload that lists
    objects none of which has a key the fallback reads gives, however
    many it lists, exactly one record: the name is the empty string,
    the source URL is the entry page, every other field is null. *)
Theorem rows_to_records_blank (rows : list ArrestRow) (ps : list payload) :
  (∀ recs, rows_to_records rows ps = Ok recs →
     NoDup (map dict_identity recs)
     ∧ Forall (fun d => map fst d = ARREST_FIELDS) recs)
  ∧ (rows ≠ [] →
       rows_to_records rows ps = rows_to_records rows []
       ∧ ∃ recs, rows_to_records rows ps = Ok recs
                 ∧ recs ≠ [] ∧ (length recs <= length rows)%nat
                 ∧ ∀ r, r ∈ rows → identity r ∈ map dict_identity recs)
  ∧ (∀ it items,
       Forall (fun i => ∃ it', i = ItemObject it'
                               ∧ ∀ k, k ∈ ITEM_KEYS → it' !! k = None)
              (ItemObject it :: items) →
       rows_to_records [] (ps ++ [PayloadList (ItemObject it :: items)])
       = Ok [[("arrest_date", None); ("name", Some ""); ("dob", None);
              ("age", None); ("charges", None); ("agency", None);
              ("booking_number", None); ("bond", None); ("arrest_time", None);
              ("source_url",
               Some "https://www.sarasotasheriff.org/arrest-reports/index.php")]]).
Proof.
split; [|split].
- intros recs. unfold rows_to_records.
  destruct (json_fallback rows ps) as [rows'|e]; cbn [bind]; [|discriminate].
  intros [= <-]. destruct (TailFacts.dedupe_identities rows') as [Hids Hkeys].
  split; [|exact Hkeys]. rewrite Hids. apply first_rows_NoDup.
- intros Hne. unfold rows_to_records.
  rewrite !JsonFacts.json_fallback_rows by done. cbn [bind].
  split; [reflexivity|]. exists (dedupe rows). split; [reflexivity|].
  destruct (TailFacts.dedupe_identities rows) as [Hids _].
  split; [|split].
  + rewrite dedupe_first_rows. destruct rows as [|r rows]; [done|].
    cbn [first_rows]. rewrite decide_False by apply not_elem_of_empty. discriminate.
  + rewrite dedupe_first_rows, length_map.
    apply sublist_length, first_rows_sublist.
  + intros r Hr. rewrite Hids.
    destruct (first_rows_covers ∅ rows r Hr) as [H|H]; [|exact H].
    by apply not_elem_of_empty in H.
- intros it items Hall. unfold rows_to_records.
  rewrite JsonFacts.json_fallback_last. cbn [payload_rows].
  destruct (rows_of_items (ItemObject it :: items)) as [rs|e] eqn:Hrows.
  2:{ apply JsonFacts.rows_of_items_raise in Hrows.
      rewrite Forall_forall in Hall. destruct (Hall _ Hrows) as (it' & [=] & _). }
  cbn [bind].
  assert (Hblank : ∀ r, r ∈ rs → r = unnamed_row).
  { intros r Hr.
    destruct (JsonFacts.rows_of_items_In _ _ _ Hrows Hr) as (it' & Hin & ->).
    rewrite Forall_forall in Hall. destruct (Hall _ Hin) as (it'' & [= <-] & Hkeys).
    by apply JsonFacts.row_of_item_blank. }
  pose proof (JsonFacts.rows_of_items_length _ _ Hrows) as Hlen.
  destruct rs as [|r rs]; [discriminate|].
  rewrite (Hblank r) by left. f_equal.
  rewrite TailFacts.dedupe_same; [reflexivity|].
  intros r' Hin. apply Hblank. by right.
Qed.

Lemma rows_to_records_blank_witness :
  rows_to_records [] ([PayloadOther]
                      ++ [PayloadList [ItemObject foreign_item; ItemObject ∅;
                                       ItemObject foreign_item]])
  = Ok [asdict unnamed_row].
Proof.
apply (proj2 (proj2 (rows_to_records_blank [] [PayloadOther]))).
repeat constructor; eexists; (split; [reflexivity|]);
  intros k Hk; unfold ITEM_KEYS in Hk; rewrite !elem_of_cons, elem_of_nil in Hk;
  decompose [or] Hk; subst; try reflexivity; contradiction.
Defined.

(** ** The response listener *)

Module KeywordFacts.

(** A literal under [re.I] reads the characters whose lower case is
    that of the literal. *)
Lemma lit_i_matchk {A} (k : string) (st : Re.mstate) (K : Re.mstate → option A) :
  Re.matchk (Re.lit_i k) st K
  = if String.prefix (Str.lower k) (Str.lower (Re.rest st))
    then K (Re.MState (Re.pos st + String.length k)
                      (Str.drop (String.length k) (Re.rest st)) (Re.caps st))
    else None.
Proof.
revert st K. induction k as [|c k IH]; intros [p s cs] K.
- simpl. rewrite Nat.add_0_r. destruct s; reflexivity.
- destruct s as [|x s].
  + reflexivity.
  + cbn [Re.lit_i Re.matchk Re.chr_i Re.rest Str.lower String.prefix String.length Str.drop].
    destruct (ascii_dec (Str.lower_char c) (Str.lower_char x)) as [E|E].
    * rewrite E, Ascii.eqb_refl. rewrite IH. cbn [Re.advance Re.pos Re.rest Re.caps].
      replace (S p + String.length k)%nat with (p + S (String.length k))%nat by lia.
      reflexivity.
    * destruct (Ascii.eqb_spec (Str.lower_char x) (Str.lower_char c)) as [E'|_];
        [congruence | reflexivity].
Qed.

Lemma lit_i_matched (k : string) (st : Re.mstate) :
  Str.lower k = k →
  Re.matched (Re.matchk (Re.lit_i k) st Some) = String.prefix k (Str.lower (Re.rest st)).
Proof.
intros Hk. rewrite lit_i_matchk, Hk.
destruct (String.prefix k (Str.lower (Re.rest st))); reflexivity.
Qed.

Lemma matched_orelse_b (a b : option Re.mstate) :
  Re.matched (Re.orelse a b) = Re.matched a || Re.matched b.
Proof. destruct a; reflexivity. Qed.

Lemma keywords_at (st : Re.mstate) :
  Re.matched (Re.matchk re_keywords st Some)
  = existsb (fun k => String.prefix k (Str.lower (Re.rest st))) URL_KEYWORDS.
Proof.
unfold re_keywords, URL_KEYWORDS.
cbn [Re.alts Re.matchk existsb].
rewrite !matched_orelse_b, !lit_i_matched by reflexivity.
rewrite orb_false_r, !orb_assoc. reflexivity.
Qed.

Lemma existsb_orb {A} (f g : A → bool) l :
  existsb (fun x => f x || g x) l = existsb f l || existsb g l.
Proof.
induction l as [|x l IH]; simpl; [reflexivity|].
rewrite IH. destruct (f x), (g x), (existsb f l), (existsb g l); reflexivity.
Qed.

(** The search finds a keyword exactly when the lower-cased text
    contains one. *)
Lemma keywords_search (s : string) (i : nat) :
  Re.matched (Re.search_from re_keywords s i)
  = existsb (fun k => Str.contains k (Str.lower s)) URL_KEYWORDS.
Proof.
revert i. induction s as [|c s IH]; intros i.
- cbn [Re.search_from]. rewrite matched_orelse_b, keywords_at. reflexivity.
- cbn [Re.search_from]. rewrite matched_orelse_b, keywords_at, IH.
  cbn [Re.rest Str.lower Str.contains]. rewrite <- existsb_orb. reflexivity.
Qed.

End KeywordFacts.

(** X18.  The listener buffers the body of a response exactly when its
    content type mentions application/json and its URL contains one of
    the words arrest, inmate, search, booking, both compared without
    regard to case, and the body parses; any other response, one
    without a content type among them, leaves the buffer as it is, and
    no failure of the listener reaches the session. *)
Theorem handle_response_filter (json_payloads : list payload) (resp : response) :
  handle_response json_payloads resp
  = match body resp with
    | Ok data => if wanted resp then json_payloads ++ [data] else json_payloads
    | Raise _ => json_payloads
    end.
Proof.
unfold handle_response, wanted, Re.re_search.
rewrite KeywordFacts.keywords_search.
set (json := Str.contains "application/json" _).
set (word := existsb _ URL_KEYWORDS).
destruct json, word, (body resp); reflexivity.
Qed.

(** ** What reaches the sheet *)

Module UploadFacts.

Lemma asdict_keys (r : ArrestRow) : map fst (asdict r) = ARREST_FIELDS.
Proof. reflexivity. Qed.

Lemma df_columns_from (kept : list ArrestRow) :
  foldl (fun seen r => add_new (map fst r) seen) ARREST_FIELDS (map asdict kept) = ARREST_FIELDS.
Proof.
induction kept as [|r kept IH]; [reflexivity|].
cbn [map foldl]. rewrite asdict_keys.
change (add_new ARREST_FIELDS ARREST_FIELDS) with ARREST_FIELDS. exact IH.
Qed.

Lemma df_columns_asdict (r : ArrestRow) (kept : list ArrestRow) :
  df_columns (map asdict (r :: kept)) = ARREST_FIELDS.
Proof.
unfold df_columns. cbn [map foldl]. rewrite asdict_keys.
change (add_new ARREST_FIELDS []) with ARREST_FIELDS. apply df_columns_from.
Qed.

Lemma sheet_header_asdict (r : ArrestRow) (kept : list ArrestRow) :
  sheet_header (map asdict (r :: kept)) = COL_ORDER.
Proof.
unfold sheet_header. rewrite df_columns_asdict. reflexivity.
Qed.

Lemma first_rows_nonempty (rows : list ArrestRow) :
  rows ≠ [] → first_rows ∅ rows ≠ [].
Proof.
destruct rows as [|r rows]; [contradiction|]. intros _. cbn [first_rows].
destruct (decide (key_of r ∈ (∅ : gset row_key))) as [Hin|_]; [|discriminate].
exfalso. revert Hin. apply not_elem_of_empty.
Qed.

Ltac in_hyp H :=
  apply list_elem_of_In in H; simpl in H; decompose [or] H; clear H;
  try discriminate; try contradiction.

Ltac in_goal := apply list_elem_of_In; simpl; tauto.

End UploadFacts.

Import UploadFacts.

(** X19.  What a scrape hands to the sheet is a full table: for rows of
    which at least one exists, the header is all ten preferred columns,
    whatever fields are null, and every data row has the ten cells of
    one kept record in the order of the header, so that charges, the
    fifth field of a record, stands in the ninth column. *)
Theorem upload_rows_align (rows : list ArrestRow) :
  rows ≠ [] →
  data_to_upload (dedupe rows)
  = map Some COL_ORDER :: map sheet_row (first_rows ∅ rows).
Proof.
intros Hne. rewrite dedupe_first_rows.
pose proof (UploadFacts.first_rows_nonempty rows Hne) as Hkept.
destruct (first_rows ∅ rows) as [|r kept]; [contradiction|].
unfold data_to_upload. rewrite UploadFacts.sheet_header_asdict.
f_equal. rewrite map_map. apply map_ext. intros r'. reflexivity.
Qed.

Lemma upload_rows_align_witness :
  data_to_upload (dedupe [row_bond_500; row_bond_900])
  = map Some COL_ORDER :: map sheet_row (first_rows ∅ [row_bond_500; row_bond_900]).
Proof.
apply upload_rows_align. discriminate.
Defined.

(** X20.  The upload of a non-empty record list returns normally
    exactly when the table was written; the table is written only
    after the sheet was cleared.  When every call up to the clearing
    returns and the update raises, the upload raises that exception
    with the sheet cleared and nothing written to it. *)
Theorem upload_clears_before_writing (sk : sink) (records : list dict) :
  records ≠ [] →
  let run := upload_to_google_sheets sk records in
  (run.2 = Ok tt ↔ SheetUpdate (data_to_upload records) ∈ run.1)
  ∧ (∀ rows, SheetUpdate rows ∈ run.1 →
       rows = data_to_upload records ∧ SheetClear ∈ run.1)
  ∧ (∀ e, sk Authorize = None → sk OpenByKey = None →
          sk GetWorksheet = None ∨ sk AddWorksheet = None →
          sk ClearSheet = None → sk UpdateSheet = Some e →
          run.2 = Raise e ∧ SheetClear ∈ run.1
          ∧ ∀ rows, SheetUpdate rows ∉ run.1).
Proof.
intros Hne. cbv zeta.
destruct records as [|r records]; [contradiction|].
unfold upload_to_google_sheets, sink_body.
generalize (data_to_upload (r :: records)). intros table.
destruct (sk Authorize) as [e1|]; [|destruct (sk OpenByKey) as [e2|];
  [|destruct (sk GetWorksheet) as [e3|]; [destruct (sk AddWorksheet) as [e4|]|];
    (destruct (sk ClearSheet) as [e5|]; [|destruct (sk UpdateSheet) as [e6|]])]];
  cbn [fst snd app];
  (split; [split; [intros Hres; (discriminate || in_goal)
                  | intros Hin; (reflexivity || in_hyp Hin)]
          | split; [intros rows Hin; in_hyp Hin;
                    match goal with
                    | Heq : SheetUpdate _ = SheetUpdate _ |- _ =>
                        injection Heq as ->; split; [reflexivity | in_goal]
                    end
                  | intros e Ha Ho Hw Hc Hu;
                    first [ discriminate
                          | destruct Hw; discriminate
                          | injection Hu as ->;
                            split; [reflexivity | split; [in_goal|]];
                            intros rows Hin; in_hyp Hin ]]]).
Qed.

Lemma upload_clears_before_writing_witness :
  (upload_to_google_sheets rejecting_sink one_record).2
  = Raise (OtherError "Invalid value")
  ∧ SheetClear ∈ (upload_to_google_sheets rejecting_sink one_record).1.
Proof.
assert (Hne : one_record ≠ []) by (vm_compute; discriminate).
destruct (upload_clears_before_writing rejecting_sink one_record Hne)
  as (_ & _ & H).
destruct (H (OtherError "Invalid value") eq_refl eq_refl (or_introl eq_refl)
            eq_refl eq_refl) as (Hres & Hclear & _).
split; [exact Hres | exact Hclear].
Defined.

(** ** [main], from the arguments to the end *)

Module MainFacts.

Lemma daterange_ends (start end_ : string) :
  ending (daterange start end_) ≠ Unfinished.
Proof.
unfold daterange.
destruct (parse_endpoint start) as [s|x] eqn:Hs; [|discriminate].
destruct (parse_endpoint end_) as [e|x] eqn:He; [|discriminate].
assert (Hvs : Datetime.valid s = true).
{ unfold parse_endpoint in Hs. destruct (normalize_date start); [|discriminate].
  by apply CalendarFacts.strptime_valid in Hs. }
assert (Hve : Datetime.valid e = true).
{ unfold parse_endpoint in He. destruct (normalize_date end_); [|discriminate].
  by apply CalendarFacts.strptime_valid in He. }
destruct (RangeFacts.loop_days (daterange_budget s e) s e Hvs Hve) as (ds & Hrun & _).
{ unfold daterange_budget. lia. }
rewrite Hrun. simpl. unfold range_ending. by destruct (_ && _).
Qed.

Lemma daterange_throws (start end_ : string) (e : exn) :
  ending (daterange start end_) = Throw e →
  ∃ msg, e = ValueError msg ∨ e = OverflowError msg.
Proof.
unfold daterange.
destruct (parse_endpoint start) as [s|x] eqn:Hs.
2:{ intros [= <-]. destruct (parse_endpoint_raises _ _ Hs) as [msg ->]. eauto. }
destruct (parse_endpoint end_) as [e'|x] eqn:He.
2:{ intros [= <-]. destruct (parse_endpoint_raises _ _ He) as [msg ->]. eauto. }
assert (Hvs : Datetime.valid s = true).
{ unfold parse_endpoint in Hs. destruct (normalize_date start); [|discriminate].
  by apply CalendarFacts.strptime_valid in Hs. }
assert (Hve : Datetime.valid e' = true).
{ unfold parse_endpoint in He. destruct (normalize_date end_); [|discriminate].
  by apply CalendarFacts.strptime_valid in He. }
destruct (RangeFacts.loop_days (daterange_budget s e') s e' Hvs Hve) as (ds & Hrun & _).
{ unfold daterange_budget. lia. }
rewrite Hrun. simpl. unfold range_ending. destruct (_ && _); [|discriminate].
intros [= <-]. eauto.
Qed.

Lemma collect_no_records scrape (i : nat) (dates : list string) :
  (∀ j d recs, scrape j d = Ok recs → recs = []) →
  collect (date_records scrape) i dates = [].
Proof.
intros Hnone. revert i. induction dates as [|d dates IH]; intros i; [done|].
simpl. rewrite IH. unfold date_records.
destruct (scrape i d) as [recs|e] eqn:E; [|done].
by rewrite (Hnone _ _ _ E).
Qed.

Lemma run_batch_collect scrape (dates : list string) :
  run_batch scrape dates
  = BatchState (collect (date_records scrape) 0 dates)
               (collect (date_errors scrape) 0 dates).
Proof. unfold run_batch. by rewrite batch_from_collect. Qed.

Lemma collect_errors_length scrape (i : nat) (dates : list string) :
  (∀ j d, is_ok (scrape j d) = false) →
  length (collect (date_errors scrape) i dates) = length dates.
Proof.
intros Hfail. revert i. induction dates as [|d dates IH]; intros i; [done|].
simpl. rewrite length_app, IH. unfold date_errors.
specialize (Hfail i d). by destruct (scrape i d).
Qed.

End MainFacts.

(** X21.  [main] stops with the usage error exactly when no date is
    given and a range endpoint is missing, an empty text counting as
    missing.  A given date wins over a range: it is scraped alone and
    as typed, the range endpoints are not looked at.  Without a date,
    a range endpoint that cannot be parsed ends [main] with the error
    before anything is scraped or printed.  No scrape error ever
    leaves [main]: what it raises comes from listing the range, from
    writing the output file, or from the sheet, which is then
    attempted after the dump returned and with at least one record. *)
Theorem main_date_or_range (fs : files) (sk : sink)
    (scrape : nat -> string -> result (list dict)) (args : main_args) :
  (run_exit (main fs sk scrape args) = UsageError
     ↔ truthy_arg (arg_date args) = false
       ∧ (truthy_arg (arg_start args) = false ∨ truthy_arg (arg_end args) = false))
  ∧ (∀ d, arg_date args = Some d → d ≠ "" →
       let st := batch_step scrape (BatchState [] []) 0 d in
       let fin := finish_main fs sk args (all_records st) in
       main fs sk scrape args
       = MainRun fin.1 (stderr st)
           match fin.2 with Ok _ => Returned | Raise e => Raised e end)
  ∧ (∀ start end_ e,
       truthy_arg (arg_date args) = false →
       arg_start args = Some start → start ≠ "" →
       arg_end args = Some end_ → end_ ≠ "" →
       parse_endpoint start = Raise e
       ∨ (is_ok (parse_endpoint start) = true ∧ parse_endpoint end_ = Raise e) →
       main fs sk scrape args = MainRun [] [] (Raised e))
  ∧ run_exit (main fs sk scrape args) ≠ Running
  ∧ (∀ e, run_exit (main fs sk scrape args) = Raised e →
       ending (main_dates args) = Throw e
       ∨ (∃ path, arg_output args = Some path ∧ path ≠ "" ∧ fs path = Some e)
       ∨ ∃ records, records ≠ [] ∧ arg_no_upload args = false
                    ∧ dump_error fs args = None
                    ∧ (sink_body sk records).2 = Some e).
Proof.
split; [|split; [|split; [|split]]].
- unfold main.
  destruct (truthy_arg (arg_date args)) eqn:Hd;
    destruct (truthy_arg (arg_start args)) eqn:Hs;
    destruct (truthy_arg (arg_end args)) eqn:He; cbn [negb andb];
    try (split; [intros _; split; [reflexivity | tauto] | reflexivity]);
    (split; [|intros [? [?|?]]; discriminate]);
    destruct (ending (main_dates args)); cbn [run_exit];
      try discriminate; destruct (finish_main _ _ _ _) as [evs [u|x]]; discriminate.
- intros d Hd Hne. cbv zeta. unfold main, main_dates. rewrite Hd.
  assert (Ht : truthy_arg (Some d) = true) by (by destruct d).
  rewrite Ht. reflexivity.
- intros start end_ e Hd Hs Hs' He He' Hbad. unfold main, main_dates.
  rewrite Hd, Hs, He.
  assert (Ht1 : truthy_arg (Some start) = true) by (by destruct start).
  assert (Ht2 : truthy_arg (Some end_) = true) by (by destruct end_).
  rewrite Ht1, Ht2. cbn [negb andb].
  change (default "" (Some start)) with start.
  change (default "" (Some end_)) with end_. unfold daterange.
  destruct Hbad as [Hbad|[Hok Hbad]].
  + rewrite Hbad. reflexivity.
  + destruct (parse_endpoint start) as [s|x]; [|discriminate].
    rewrite Hbad. reflexivity.
- unfold main. destruct (_ && _); [discriminate|].
  destruct (ending (main_dates args)) eqn:Hend; cbn [run_exit].
  + destruct (finish_main _ _ _ _) as [evs [u|x]]; discriminate.
  + discriminate.
  + exfalso. unfold main_dates in Hend.
    destruct (truthy_arg (arg_date args)); [discriminate|].
    by apply MainFacts.daterange_ends in Hend.
- intros e. unfold main. destruct (_ && _); [discriminate|].
  destruct (ending (main_dates args)) as [|x|] eqn:Hend; cbn [run_exit].
  + set (records := all_records _).
    destruct (dump_error fs args) as [x|] eqn:Hdump.
    * rewrite (finish_main_dump_raises fs sk args records x Hdump). cbn [snd].
      intros [= <-]. right. left. revert Hdump. unfold dump_error, output_path.
      destruct (arg_output args) as [path|]; [|discriminate].
      destruct path as [|c path]; cbn [Str.truthy]; [discriminate|].
      intros Hfs. eexists. split; [reflexivity|]. split; [discriminate | exact Hfs].
    * rewrite (finish_main_dumped fs sk args records Hdump).
      destruct (negb (arg_no_upload args) && negb (length records =? 0)%nat) eqn:Hup;
        [|discriminate].
      apply andb_prop in Hup. destruct Hup as [Hno Hlen].
      unfold upload_to_google_sheets.
      destruct records as [|r records']; [discriminate|].
      destruct (sink_body sk (r :: records')) as [evs [x|]] eqn:Hbody; cbn [snd];
        [|discriminate].
      intros [= <-]. right. right. exists (r :: records').
      split; [discriminate|]. split; [by destruct (arg_no_upload args)|].
      split; [reflexivity|]. by rewrite Hbody.
  + intros [= <-]. by left.
  + discriminate.
Qed.

Lemma main_date_or_range_witness :
  (∃ msg, main writable healthy_sink failing_scrape (range_args "2025-02-30" "2025-03-01")
          = MainRun [] [] (Raised (ValueError msg)))
  ∧ run_stderr (main writable healthy_sink failing_scrape (date_args "02/30/2025"))
    = ["[02/30/2025] ERROR: Timeout 30000ms exceeded"].
Proof.
split.
- destruct (parse_endpoint "2025-02-30") as [s|e] eqn:Hparse;
    [vm_compute in Hparse; discriminate|].
  destruct (parse_endpoint_raises _ _ Hparse) as [msg ->]. exists msg.
  refine (proj1 (proj2 (proj2
    (main_date_or_range writable healthy_sink failing_scrape
       (range_args "2025-02-30" "2025-03-01"))))
    "2025-02-30" "2025-03-01" _ eq_refl eq_refl _ eq_refl _ _);
    [discriminate | discriminate | left; exact Hparse].
- rewrite (proj1 (proj2 (main_date_or_range writable healthy_sink failing_scrape
                           (date_args "02/30/2025")))
             "02/30/2025" eq_refl ltac:(discriminate)).
  reflexivity.
Defined.

(** X22.  A run in which no date gives a record, every scrape having
    failed or come back empty, makes no call to the sheet, whatever
    state the sheet is in, and each failed date has left its line on
    the error stream; when all failed there are as many lines as
    dates.  How the run ends is then decided by the output file alone.
    With no output path, an empty one, or a path that can be written,
    [main] returns normally: it prints the total, writes the empty
    list to the file when a path that is not empty was given, and
    prints the closing line.  With a path that cannot be written the
    exception of the dump leaves [main] after the total line. *)
Theorem main_survives_failed_dates (fs : files) (sk : sink)
    (scrape : nat -> string -> result (list dict)) (args : main_args) :
  ending (main_dates args) = StopIteration →
  run_exit (main fs sk scrape args) ≠ UsageError →
  (∀ i d recs, scrape i d = Ok recs → recs = []) →
  ((arg_output args = None ∨ arg_output args = Some ""
    ∨ ∃ path, arg_output args = Some path ∧ fs path = None) →
     main fs sk scrape args
     = MainRun (Print "Total records scraped"
                :: match arg_output args with
                   | Some path =>
                       if String.eqb path "" then []
                       else [FileDump path []; Print ("Saved to " +:+ path)]
                   | None => []
                   end
                ++ [Print "Sarasota County Scraper completed successfully!"])
               (collect (date_errors scrape) 0 (yielded (main_dates args)))
               Returned)
  ∧ (∀ path e, arg_output args = Some path → path ≠ "" → fs path = Some e →
       main fs sk scrape args
       = MainRun [Print "Total records scraped"]
                 (collect (date_errors scrape) 0 (yielded (main_dates args)))
                 (Raised e))
  ∧ (∀ ev, ev ∈ run_events (main fs sk scrape args) →
       ev ≠ SheetClear ∧ (∀ rows, ev ≠ SheetUpdate rows)
       ∧ ev ≠ Print "Uploading to Google Sheets...")
  ∧ ((∀ i d, is_ok (scrape i d) = false) →
       length (run_stderr (main fs sk scrape args))
       = length (yielded (main_dates args))).
Proof.
intros Hend Husage Hnone.
assert (Hmain : main fs sk scrape args
  = let fin := finish_main fs sk args [] in
    MainRun fin.1 (collect (date_errors scrape) 0 (yielded (main_dates args)))
      match fin.2 with Ok _ => Returned | Raise e => Raised e end).
{ unfold main in *. destruct (_ && _); [by cbn in Husage|].
  rewrite Hend. rewrite MainFacts.run_batch_collect. cbn [all_records stderr].
  rewrite MainFacts.collect_no_records by done. reflexivity. }
cbv zeta in Hmain.
assert (Hfin : finish_main fs sk args []
  = match dump_to_file fs (arg_output args) [] with
    | (evs, Some e) => (Print "Total records scraped" :: evs, Raise e)
    | (evs, None) =>
        (Print "Total records scraped" :: evs
         ++ [Print "Sarasota County Scraper completed successfully!"], Ok tt)
    end).
{ unfold finish_main. destruct (dump_to_file _ _ _) as [evs [e|]]; [reflexivity|].
  cbn [length Nat.eqb negb]. rewrite andb_false_r. reflexivity. }
rewrite Hmain, Hfin. clear Hmain Hfin. unfold dump_to_file.
split; [|split; [|split]].
- intros [Hout|[Hout|(path & Hout & Hfs)]]; rewrite Hout; try reflexivity.
  destruct path as [|c path]; [reflexivity|].
  cbn [Str.truthy]. rewrite Hfs. reflexivity.
- intros path e Hout Hne Hfs. rewrite Hout.
  destruct path as [|c path]; [done|]. cbn [Str.truthy]. rewrite Hfs. reflexivity.
- intros ev. destruct (arg_output args) as [path|].
  + destruct (Str.truthy path); [destruct (fs path)|]; cbn [fst run_events app];
      rewrite ?elem_of_cons, elem_of_nil;
      intros Hev; decompose [or] Hev; subst; try contradiction;
      (split; [discriminate|]; split; [intros rows|]; discriminate).
  + cbn [fst run_events app]. rewrite ?elem_of_cons, elem_of_nil.
    intros Hev; decompose [or] Hev; subst; try contradiction;
      (split; [discriminate|]; split; [intros rows|]; discriminate).
- intros Hfail.
  assert (Herr : ∀ fin : list event * result unit,
            run_stderr (MainRun fin.1
                          (collect (date_errors scrape) 0 (yielded (main_dates args)))
                          match fin.2 with Ok _ => Returned | Raise e => Raised e end)
            = collect (date_errors scrape) 0 (yielded (main_dates args))) by done.
  rewrite Herr. by apply MainFacts.collect_errors_length.
Qed.

Lemma main_survives_failed_dates_witness :
  main writable quota_sink failing_scrape (range_args "12/30/2024" "2025-01-01")
  = MainRun [Print "Total records scraped";
             Print "Sarasota County Scraper completed successfully!"]
            ["[2024-12-30] ERROR: Timeout 30000ms exceeded";
             "[2024-12-31] ERROR: Timeout 30000ms exceeded";
             "[2025-01-01] ERROR: Timeout 30000ms exceeded"]
            Returned.
Proof.
refine (eq_trans (proj1 (main_survives_failed_dates writable quota_sink failing_scrape
                           (range_args "12/30/2024" "2025-01-01") _ _ _) _) _).
- vm_compute. reflexivity.
- vm_compute. discriminate.
- intros i d recs. discriminate.
- left. reflexivity.
- vm_compute. reflexivity.
Defined.

(** ** The v2 session beyond its rows *)

Module V2More.
Import Str StrFacts V2 V2Spec V2Facts.

Lemma lstrip_fixed (c : ascii) (t : string) :
  isspace c = false → lstrip (String c t) = String c t.
Proof. intros Hc. simpl. by rewrite Hc. Qed.

Lemma lstrip_lstrip (s : string) : lstrip (lstrip s) = lstrip s.
Proof.
destruct (lstrip s) as [|c t] eqn:E; [reflexivity|].
apply lstrip_fixed. eapply lstrip_head, E.
Qed.

Lemma rstrip_rstrip (s : string) : rstrip (rstrip s) = rstrip s.
Proof. unfold rstrip. by rewrite rev_involutive, lstrip_lstrip. Qed.

Lemma lstrip_app (a b : string) (c : ascii) :
  isspace c = false → lstrip (a +:+ String c b) = lstrip a +:+ String c b.
Proof.
intros Hc. induction a as [|x a IH].
- rewrite !append_nil_l. by apply lstrip_fixed.
- rewrite append_cons. simpl. destruct (isspace x); [exact IH|].
  by rewrite append_cons.
Qed.

Lemma rev_onto_acc (t acc : string) : rev_onto t acc = rev t +:+ acc.
Proof.
unfold rev. revert acc. induction t as [|x t IH]; intros acc; simpl; [done|].
rewrite IH, (IH (String x "")).
clear IH. induction (rev_onto t "") as [|y u IHu]; [done|].
by rewrite !append_cons, IHu.
Qed.

Lemma rev_snoc (u : string) (c : ascii) : rev (u +:+ String c "") = String c (rev u).
Proof. unfold rev. by rewrite rev_onto_app. Qed.

Lemma rstrip_cons (c : ascii) (t : string) :
  isspace c = false → rstrip (String c t) = String c (rstrip t).
Proof.
intros Hc. unfold rstrip.
change (rev (String c t)) with (rev_onto t (String c "")).
by rewrite rev_onto_acc, lstrip_app, rev_snoc.
Qed.

(** Stripping a stripped text changes nothing. *)
Lemma strip_strip (s : string) : strip (strip s) = strip s.
Proof.
change (strip s) with (rstrip (lstrip s)).
destruct (lstrip s) as [|c t] eqn:E; [reflexivity|].
pose proof (lstrip_head _ _ _ E) as Hc.
rewrite rstrip_cons by done. unfold strip.
rewrite lstrip_fixed, rstrip_cons, rstrip_rstrip by done. reflexivity.
Qed.

Lemma scan_lines_texts (pg : page) (date_str : string) (lines : list string)
    (results : list record) :
  map raw_text (scan_lines pg date_str lines results)
  = map raw_text results
    ++ filter (fun l => (20 < String.length l)%nat) lines.
Proof.
revert results. induction lines as [|line lines IH]; intros results; simpl.
- by rewrite app_nil_r.
- rewrite filter_cons. destruct (20 <? String.length line)%nat eqn:Hlen.
  + apply Nat.ltb_lt in Hlen. rewrite decide_True by done.
    rewrite IH, map_app. simpl. by rewrite <- app_assoc.
  + apply Nat.ltb_ge in Hlen. rewrite decide_False by lia. apply IH.
Qed.

Lemma data_lines_stripped (all_text t : string) :
  t ∈ data_lines all_text →
  strip t = t ∧ ∃ l, l ∈ split_lines all_text ∧ t = strip l.
Proof.
unfold data_lines. intros Hin. apply list_elem_of_In, in_map_iff in Hin.
destruct Hin as (l & <- & Hl). apply list_elem_of_In, list_elem_of_filter in Hl.
split; [apply strip_strip|]. exists l. split; [apply Hl | reflexivity].
Qed.

Lemma session_not_iso (pg : page) (date_str : string) (e : exn) :
  Datetime.strptime Datetime.fmt_Ymd date_str = Raise e →
  ∃ e', session pg date_str = Raise e' ∧ (before_form pg = None → e' = e).
Proof.
intros He. unfold session. destruct (before_form pg) as [e0|].
- exists e0. split; [reflexivity | discriminate].
- rewrite He. exists e. split; [reflexivity | done].
Qed.

End V2More.

(** X23.  The v2 scrape takes a date in the form YYYY-MM-DD only: for a
    text that "%Y-%m-%d" cannot parse, a date written MM/DD/YYYY among
    them, no attempt returns records, and when the first attempt gets
    as far as the form the call ends there with the parsing error,
    after one attempt and without a sleep. *)
Theorem v2_needs_iso_date (pages : nat -> V2.page) (date_str : string) (e : exn) :
  Datetime.strptime Datetime.fmt_Ymd date_str = Raise e →
  (∀ recs, outcome (V2.scrape_for_date pages date_str) ≠ Ok recs)
  ∧ (V2.before_form (pages 1%nat) = None →
       V2.scrape_for_date pages date_str = RetryRun (Raise e) 1 []).
Proof.
intros He. split.
- intros recs Hok. unfold V2.scrape_for_date, retrying in Hok.
  apply retry_from_returns in Hok. destruct Hok as [k Hk].
  destruct (V2More.session_not_iso (pages k) date_str e He) as (e' & Hs & _).
  congruence.
- intros Hform.
  destruct (V2More.session_not_iso (pages 1%nat) date_str e He) as (e' & Hs & He').
  rewrite (He' Hform) in Hs.
  destruct (CalendarFacts.strptime_raises _ _ _ He) as [msg ->].
  unfold V2.scrape_for_date, retrying. cbn [policy_v2 max_attempt_number Nat.sub retry_from].
  rewrite Hs. reflexivity.
Qed.

Lemma v2_needs_iso_date_witness :
  ∃ msg, V2.scrape_for_date (fun _ => v2_sample_page) "10/28/2025"
         = RetryRun (Raise (ValueError msg)) 1 [].
Proof.
destruct (Datetime.strptime Datetime.fmt_Ymd "10/28/2025") as [x|e] eqn:Hparse;
  [vm_compute in Hparse; discriminate|].
destruct (CalendarFacts.strptime_raises _ _ _ Hparse) as [msg ->]. exists msg.
apply (proj2 (v2_needs_iso_date (fun _ => v2_sample_page) "10/28/2025" _ Hparse)).
reflexivity.
Defined.

(** X24.  When no row text is longer than ten characters, a v2 session
    that returns has read the text of the body.  It returns no record
    when that text has at most 100 characters or contains "no results"
    in any case; otherwise its records are, in order, the lines of the
    text with surrounding white space removed that are then longer
    than twenty characters.  Such a record's text has no white space at
    either end. *)
Theorem v2_text_fallback (pg : V2.page) (date_str : string) (recs : list V2.record) :
  V2.session pg date_str = Ok recs →
  V2Spec.long_texts (V2.row_texts pg) = [] →
  ∃ all_text, V2.body_text pg = Ok all_text
    ∧ map V2Spec.raw_text recs
      = (if negb (Str.contains "no results" (Str.lower all_text))
            && (100 <? String.length all_text)%nat
         then filter (fun l => (20 < String.length l)%nat) (V2.data_lines all_text)
         else [])
    ∧ Forall (fun t => (20 < String.length t)%nat ∧ Str.strip t = t
                       ∧ ∃ l, l ∈ Str.split_lines all_text ∧ t = Str.strip l)
             (map V2Spec.raw_text recs).
Proof.
intros Hs Hrows.
assert (Hnone : V2.scan_rows pg date_str (V2.row_texts pg) [] = []).
{ destruct (V2Facts.scan_rows_spec pg date_str (V2.row_texts pg) []) as [_ Hm];
    [constructor|].
  rewrite Hrows in Hm. simpl in Hm.
  by destruct (V2.scan_rows pg date_str (V2.row_texts pg) []). }
unfold V2.session in Hs. destruct (V2.before_form pg); [discriminate|].
destruct (Datetime.strptime _ _); simpl in Hs; [|discriminate].
destruct (V2.in_form pg); [discriminate|].
rewrite Hnone in Hs.
destruct (V2.body_text pg) as [all_text|]; simpl in Hs; [|discriminate].
exists all_text. split; [reflexivity|].
destruct (negb _ && _).
- injection Hs as <-. rewrite V2More.scan_lines_texts. simpl.
  split; [reflexivity|]. apply Forall_forall. intros t Ht.
  apply list_elem_of_filter in Ht. destruct Ht as [Hlen Hin].
  split; [exact Hlen|]. by apply V2More.data_lines_stripped.
- injection Hs as <-. split; [reflexivity | constructor].
Qed.

Lemma v2_text_fallback_witness :
  ∃ recs, V2.session v2_text_page "2025-01-15" = Ok recs
    ∧ map V2Spec.raw_text recs
      = ["Inmate list for the Sarasota County jail, updated daily at noon";
         "DOE, JANE  34  Battery  Bond 500.00";
         "End of the list for today"].
Proof.
exists (V2.scan_lines v2_text_page "2025-01-15" (V2.data_lines v2_text_body) []).
assert (Hs : V2.session v2_text_page "2025-01-15"
             = Ok (V2.scan_lines v2_text_page "2025-01-15"
                     (V2.data_lines v2_text_body) []))
  by (vm_compute; reflexivity).
split; [exact Hs|].
destruct (v2_text_fallback _ _ _ Hs eq_refl) as (all_text & Hbody & Htexts & _).
injection Hbody as <-. rewrite Htexts. vm_compute. reflexivity.
Defined.

(** ** The v2 upload and [main] *)

Module V2MainFacts.
Import Datetime CalendarFacts V2Main.
#[local] Open Scope Z_scope.

Lemma sub_one_day_ok (x y : date) :
  valid x = true → sub_one_day x = Ok y →
  valid y = true ∧ add_one_day y = Ok x.
Proof.
intros Hx%valid_spec. rewrite valid_spec. destruct x as [yr m d]. cbn in Hx.
unfold sub_one_day, MINYEAR, add_one_day, MAXYEAR.
destruct (1 <? d) eqn:Hd.
{ apply Z.ltb_lt in Hd. intros [= <-]. cbn. split; [lia|].
  assert ((d - 1 <? days_in_month yr m) = true) as -> by (apply Z.ltb_lt; lia).
  do 2 f_equal. lia. }
apply Z.ltb_ge in Hd. destruct (1 <? m) eqn:Hm.
{ apply Z.ltb_lt in Hm. intros [= <-]. cbn.
  pose proof (days_in_month_ge_28 yr (m - 1)). split; [lia|].
  rewrite Z.ltb_irrefl.
  assert ((m - 1 <? 12) = true) as -> by (apply Z.ltb_lt; lia).
  do 2 f_equal; lia. }
apply Z.ltb_ge in Hm. destruct (1 <? yr) eqn:Hy; [|discriminate].
apply Z.ltb_lt in Hy. intros [= <-]. cbn.
change (days_in_month (yr - 1) 12) with 31. split; [lia|].
change (31 <? 31) with false. change (12 <? 12) with false.
assert ((yr - 1 <? 9999) = true) as -> by (apply Z.ltb_lt; lia).
do 2 f_equal; lia.
Qed.

Lemma sub_one_day_raise (x : date) (e : exn) :
  valid x = true → sub_one_day x = Raise e → x = Date 1 1 1.
Proof.
intros Hx%valid_spec. destruct x as [yr m d]. cbn in Hx.
unfold sub_one_day, MINYEAR.
destruct (1 <? d) eqn:Hd; [discriminate|].
destruct (1 <? m) eqn:Hm; [discriminate|].
destruct (1 <? yr) eqn:Hy; [discriminate|].
apply Z.ltb_ge in Hd, Hm, Hy. intros _. f_equal; lia.
Qed.

Lemma main_date_given (today : date) (a : args) (d : string) :
  arg_date a = Some d → d ≠ "" → main_date today a = Ok d.
Proof. intros Ha Hd. unfold main_date. rewrite Ha. by destruct d. Qed.

Lemma main_date_default (today : date) (a : args) :
  truthy_arg (arg_date a) = false →
  main_date today a = let* y := sub_one_day today in Ok (strftime_Ymd y).
Proof.
unfold main_date, truthy_arg. destruct (arg_date a) as [d|]; [|done].
by intros ->.
Qed.

End V2MainFacts.

(** X25.  Without a date argument the v2 [main] scrapes yesterday:
    the day before the clock's date, as [strftime] prints it.  For a
    year of four digits that is YYYY-MM-DD, which the session's own
    date parsing accepts and reads back as that day; for an earlier
    year the text has fewer digits, is not YYYY-MM-DD, and the
    session's date parsing rejects it with a [ValueError].  A date
    argument, when given, is scraped as typed. *)
Theorem v2_default_date_is_yesterday (today : Datetime.date) (a : V2Main.args) :
  Datetime.valid today = true →
  today ≠ Datetime.Date 1 1 1 →
  (truthy_arg (V2Main.arg_date a) = false →
     ∃ y, V2Main.main_date today a = Ok (Datetime.strftime_Ymd y)
          ∧ Datetime.valid y = true
          ∧ Datetime.toordinal y = (Datetime.toordinal today - 1)%Z
          ∧ ((1000 <= Datetime.year y)%Z →
               iso_shape (Datetime.strftime_Ymd y)
               ∧ Datetime.strptime Datetime.fmt_Ymd (Datetime.strftime_Ymd y) = Ok y)
          ∧ ((Datetime.year y < 1000)%Z →
               ¬ iso_shape (Datetime.strftime_Ymd y)
               ∧ is_value_error
                   (Datetime.strptime Datetime.fmt_Ymd (Datetime.strftime_Ymd y))
                 = true))
  ∧ (∀ d, V2Main.arg_date a = Some d → d ≠ "" → V2Main.main_date today a = Ok d).
Proof.
intros Hvalid Hfirst. split.
- intros Hnone. rewrite V2MainFacts.main_date_default by done.
  destruct (V2Main.sub_one_day today) as [y|e] eqn:Hy.
  + destruct (V2MainFacts.sub_one_day_ok _ _ Hvalid Hy) as [Hvy Hnext].
    destruct (CalendarFacts.add_one_day_ok _ _ Hvy Hnext) as [_ Hord].
    exists y. split; [reflexivity|]. split; [exact Hvy|].
    split; [lia|]. split.
    * intros Hbig. split; [by apply EndpointFacts.strftime_iso_shape|].
      by apply DateMore.strptime_strftime.
    * intros Hsmall. split; [by apply EndpointFacts.strftime_short_not_iso|].
      by rewrite EndpointFacts.strptime_short_year.
  + by apply V2MainFacts.sub_one_day_raise in Hy.
- intros d. apply V2MainFacts.main_date_given.
Qed.

Lemma v2_default_date_is_yesterday_witness :
  (∃ y, V2Main.main_date (Datetime.Date 2024 3 1) (V2Main.Args None false None)
        = Ok (Datetime.strftime_Ymd y)
        ∧ Datetime.toordinal y = (Datetime.toordinal (Datetime.Date 2024 3 1) - 1)%Z)
  ∧ V2Main.main_date (Datetime.Date 2024 3 1) (V2Main.Args None false None)
    = Ok "2024-02-29"
  ∧ V2Main.main_date (Datetime.Date 1000 1 1) (V2Main.Args None false None)
    = Ok "999-12-31".
Proof.
split; [|split; vm_compute; reflexivity].
destruct (v2_default_date_is_yesterday (Datetime.Date 2024 3 1)
            (V2Main.Args None false None) eq_refl ltac:(discriminate))
  as [H _].
destruct (H eq_refl) as (y & Hy & _ & Hord & _).
exists y. split; [exact Hy | exact Hord].
Defined.

Module V2UploadFacts.
Import V2Main.

Lemma columns_from (data : list V2.record) :
  Forall (fun r => map fst r = V2_KEYS) data →
  foldl (fun seen r => add_new (map fst r) seen) V2_KEYS data = V2_KEYS.
Proof.
induction 1 as [|r data Hr _ IH]; [reflexivity|].
cbn [foldl]. rewrite Hr. exact IH.
Qed.

Lemma columns_keys (data : list V2.record) :
  data ≠ [] → Forall (fun r => map fst r = V2_KEYS) data → columns data = V2_KEYS.
Proof.
intros Hne Hall. destruct Hall as [|r data Hr Hall]; [contradiction|].
unfold columns. cbn [foldl]. rewrite Hr. by apply columns_from.
Qed.

Lemma cells_of_keys (r : V2.record) :
  map fst r = V2_KEYS → map (fun c => get c r) V2_KEYS = record_cells r.
Proof.
destruct r as [|[k1 v1] [|[k2 v2] [|[k3 v3] [|]]]]; try discriminate.
intros [= -> -> ->]. reflexivity.
Qed.

Lemma values_cells (data : list V2.record) :
  data ≠ [] → Forall (fun r => map fst r = V2_KEYS) data →
  values data = map record_cells data.
Proof.
intros Hne Hall. unfold values. rewrite (columns_keys data Hne Hall).
clear Hne. induction Hall as [|r data Hr _ IH]; [reflexivity|].
cbn [map]. by rewrite cells_of_keys, IH.
Qed.

(** A failed upload body has written nothing. *)
Lemma upload_body_failed (sh : sheet) (data : list V2.record) (e : exn) :
  (upload_body sh data).2 = Some e →
  (upload_body sh data).1 = []
  ∨ (upload_body sh data).1 = [SheetAdd; Print "Created new worksheet"].
Proof.
unfold upload_body.
destruct (raises sh Authorize); [by left|].
destruct (raises sh OpenByKey); [by left|].
destruct (raises sh GetWorksheet).
- destruct (raises sh AddWorksheet); [by left|].
  destruct (raises sh GetAllRecords); [by right|].
  destruct (existing sh).
  + destruct (raises sh AppendRows); [by right | discriminate].
  + destruct (raises sh Update); [by right | discriminate].
- destruct (raises sh GetAllRecords); [by left|].
  destruct (existing sh).
  + destruct (raises sh AppendRows); [by left | discriminate].
  + destruct (raises sh Update); [by left | discriminate].
Qed.

Lemma upload_body_done (sh : sheet) (data : list V2.record) :
  (upload_body sh data).2 = None →
  ∃ before,
    (before = [] ∨ before = [SheetAdd; Print "Created new worksheet"])
    ∧ (upload_body sh data).1
      = before
        ++ [if existing sh then SheetAppend (values data)
            else SheetUpdate (map Some (columns data) :: values data);
            Print "Successfully uploaded records to Google Sheets!"].
Proof.
unfold upload_body.
destruct (raises sh Authorize); [discriminate|].
destruct (raises sh OpenByKey); [discriminate|].
destruct (raises sh GetWorksheet).
- destruct (raises sh AddWorksheet); [discriminate|].
  destruct (raises sh GetAllRecords); [discriminate|].
  destruct (existing sh).
  + destruct (raises sh AppendRows); [discriminate|]. intros _.
    eexists. split; [by right | reflexivity].
  + destruct (raises sh Update); [discriminate|]. intros _.
    eexists. split; [by right | reflexivity].
- destruct (raises sh GetAllRecords); [discriminate|].
  destruct (existing sh).
  + destruct (raises sh AppendRows); [discriminate|]. intros _.
    exists []. split; [by left | reflexivity].
  + destruct (raises sh Update); [discriminate|]. intros _.
    exists []. split; [by left | reflexivity].
Qed.

End V2UploadFacts.

(** X26.  The v2 upload of records of the scraper's shape writes once,
    as its last call: to a sheet that already holds records it appends
    one row of three cells per record and no header; to a sheet without
    records it writes the header arrest_date, raw_text, scraped_at
    followed by those rows.  When a call raises, the upload raises the
    same exception and nothing has been written. *)
Theorem v2_upload_appends_or_writes (sh : V2Main.sheet) (data : list V2.record) :
  data ≠ [] →
  Forall (fun r => map fst r = V2_KEYS) data →
  ((V2Main.upload_body sh data).2 = None →
     ∃ before,
       (V2Main.upload_to_sheets sh data).1
       = before
         ++ [if V2Main.existing sh
             then V2Main.SheetAppend (map record_cells data)
             else V2Main.SheetUpdate (map Some V2_KEYS :: map record_cells data);
             V2Main.Print "Successfully uploaded records to Google Sheets!"]
       ∧ existsb writes before = false
       ∧ (V2Main.upload_to_sheets sh data).2 = Ok tt)
  ∧ (∀ e, (V2Main.upload_body sh data).2 = Some e →
       forallb (fun ev => negb (writes ev)) (V2Main.upload_to_sheets sh data).1 = true
       ∧ (V2Main.upload_to_sheets sh data).2 = Raise e).
Proof.
intros Hne Hkeys. split.
- intros Hdone.
  destruct (V2UploadFacts.upload_body_done sh data Hdone) as (before & Hbefore & Hevs).
  rewrite (V2UploadFacts.values_cells data Hne Hkeys) in Hevs.
  rewrite (V2UploadFacts.columns_keys data Hne Hkeys) in Hevs.
  unfold V2Main.upload_to_sheets. destruct data as [|r data]; [contradiction|].
  destruct (V2Main.upload_body sh (r :: data)) as [evs [e|]]; [discriminate|].
  cbn [fst snd] in *. subst evs.
  exists (V2Main.Print "Uploading records to Google Sheets..." :: before).
  split; [reflexivity|]. split; [|reflexivity].
  by destruct Hbefore as [-> | ->].
- intros e Hfail.
  pose proof (V2UploadFacts.upload_body_failed sh data e Hfail) as Hevs.
  unfold V2Main.upload_to_sheets. destruct data as [|r data]; [contradiction|].
  destruct (V2Main.upload_body sh (r :: data)) as [evs [e'|]]; [|discriminate].
  cbn [fst snd] in *. injection Hfail as ->.
  split; [|reflexivity]. by destruct Hevs as [-> | ->].
Qed.

Lemma v2_upload_appends_or_writes_witness :
  (V2Main.upload_to_sheets V2Main.filled_sheet
     [V2.make "2025-01-15" "DOE, JANE 34 Battery" "2025-01-16T08:00:00"]).2 = Ok tt
  ∧ (V2Main.upload_to_sheets V2Main.locked_sheet
       [V2.make "2025-01-15" "DOE, JANE 34 Battery" "2025-01-16T08:00:00"]).2
    = Raise (OtherError "The caller does not have permission").
Proof.
split.
- destruct (v2_upload_appends_or_writes V2Main.filled_sheet
              [V2.make "2025-01-15" "DOE, JANE 34 Battery" "2025-01-16T08:00:00"])
    as [H _]; [discriminate | by repeat constructor |].
  destruct (H eq_refl) as (before & _ & _ & Hres). exact Hres.
- destruct (v2_upload_appends_or_writes V2Main.locked_sheet
              [V2.make "2025-01-15" "DOE, JANE 34 Battery" "2025-01-16T08:00:00"])
    as [_ H]; [discriminate | by repeat constructor |].
  exact (proj2 (H _ eq_refl)).
Defined.

Module V2StatusFacts.
Import V2Main.

Lemma closing_not_in_failed_upload (sh : sheet) (data : list V2.record) (e : exn) :
  (upload_to_sheets sh data).2 = Raise e →
  (closing ∉ (upload_to_sheets sh data).1)
  ∧ data ≠ [] ∧ (upload_body sh data).2 = Some e.
Proof.
unfold upload_to_sheets. destruct data as [|r data]; [discriminate|].
pose proof (V2UploadFacts.upload_body_failed sh (r :: data)) as Hevs.
destruct (upload_body sh (r :: data)) as [evs [e'|]]; [|discriminate].
cbn [fst snd] in *. intros [= ->]. split; [|done].
destruct (Hevs e eq_refl) as [-> | ->]; cbn [app];
  rewrite ?elem_of_cons, elem_of_nil; unfold closing;
  intros Hin; decompose [or] Hin; discriminate || contradiction.
Qed.

Lemma upload_without_dump (sh : sheet) (data : list V2.record) (path : string)
    (r : list V2.record) :
  FileDump path r ∉ (upload_to_sheets sh data).1.
Proof.
unfold upload_to_sheets. destruct data as [|d data].
{ cbn [fst]. rewrite list_elem_of_singleton. discriminate. }
unfold upload_body.
destruct (raises sh Authorize); [|destruct (raises sh OpenByKey);
  [|destruct (raises sh GetWorksheet);
    [destruct (raises sh AddWorksheet)|];
    try (destruct (raises sh GetAllRecords);
         [|destruct (existing sh);
           [destruct (raises sh AppendRows)|destruct (raises sh Update)]])]];
  cbn [fst app]; rewrite ?elem_of_cons, elem_of_nil;
  intros Hin; decompose [or] Hin; discriminate || contradiction.
Qed.

(** The dump that raises has written nothing; it was asked for a path
    that is not empty. *)
Lemma dump_results_raised (fs : files) (a : args) (results : list V2.record)
    (devs : list event) (e : exn) :
  dump_results fs (arg_output a) results = (devs, Some e) →
  devs = [] ∧ ∃ path, arg_output a = Some path ∧ path ≠ "" ∧ fs path = Some e.
Proof.
unfold dump_results. destruct (arg_output a) as [path|]; [|discriminate].
destruct path as [|c path]; cbn [Str.truthy]; [discriminate|].
destruct (fs (String c path)) as [x|] eqn:Hfs; [|discriminate].
intros [= <- <-]. split; [reflexivity|]. eexists. split; [reflexivity|].
split; [discriminate | exact Hfs].
Qed.

(** The dump that returns has written the results, to a path that is
    not empty and can be written, or nothing at all. *)
Lemma dump_results_returned (fs : files) (a : args) (results : list V2.record)
    (devs : list event) :
  dump_results fs (arg_output a) results = (devs, None) →
  (closing ∉ devs)
  ∧ (∀ path e, arg_output a = Some path → path ≠ "" → fs path ≠ Some e)
  ∧ (∀ path r, FileDump path r ∈ devs
               ↔ arg_output a = Some path ∧ path ≠ "" ∧ fs path = None ∧ r = results).
Proof.
unfold dump_results. destruct (arg_output a) as [path|].
2:{ intros [= <-]. split; [apply not_elem_of_nil|]. split; [discriminate|].
    intros path r. split; [by intros ?%not_elem_of_nil | by intros ([=] & _)]. }
destruct path as [|c path]; cbn [Str.truthy].
{ intros [= <-]. split; [apply not_elem_of_nil|].
  split; [by intros path e [= <-] |].
  intros path r. split; [by intros ?%not_elem_of_nil | by intros ([= <-] & ? & _)]. }
destruct (fs (String c path)) as [x|] eqn:Hfs; [discriminate|].
intros [= <-]. split; [|split].
- rewrite ?elem_of_cons, elem_of_nil. unfold closing.
  intros Hin; decompose [or] Hin; discriminate || contradiction.
- intros path' e [= <-] _. by rewrite Hfs.
- intros path' r. rewrite ?elem_of_cons, elem_of_nil. split.
  + intros [[= -> ->]|[?|[]]]; [|discriminate].
    split; [reflexivity|]. split; [discriminate|]. by split.
  + intros ([= <-] & _ & _ & ->). by left.
Qed.

End V2StatusFacts.

(** X27.  Once the date is known, the v2 [main] never raises: it
    returns 0 or 1.  It returns 1 exactly when the scrape raised after
    its retries, or writing the output file raised, or the upload
    raised; and 0 exactly when it printed the closing line.  A file is
    written only after the scrape returned, only for an output path
    that is given and not empty, and only when the write does not
    fail; it then holds the results, also in a run that goes on to
    fail in the upload.  A failed write ends the run before the
    upload. *)
Theorem v2_main_status (today : Datetime.date) (pages : nat -> V2.page)
    (fs : files) (sh : V2Main.sheet) (a : V2Main.args) (date : string) :
  V2Main.main_date today a = Ok date →
  ∃ evs code,
    V2Main.main today pages fs sh a = (evs, Ok code)
    ∧ (code = 0 ∨ code = 1)%Z
    ∧ (code = 0%Z ↔ V2Main.Print "Sarasota County Scraper completed successfully!" ∈ evs)
    ∧ (code = 1%Z ↔
         (∃ e, outcome (V2.scrape_for_date pages date) = Raise e)
         ∨ (∃ results path e, outcome (V2.scrape_for_date pages date) = Ok results
                              ∧ V2Main.arg_output a = Some path ∧ path ≠ ""
                              ∧ fs path = Some e)
         ∨ (∃ results e, outcome (V2.scrape_for_date pages date) = Ok results
                         ∧ results ≠ [] ∧ V2Main.arg_no_upload a = false
                         ∧ (V2Main.upload_body sh results).2 = Some e))
    ∧ (∀ results path,
         V2Main.FileDump path results ∈ evs
         ↔ outcome (V2.scrape_for_date pages date) = Ok results
           ∧ V2Main.arg_output a = Some path ∧ path ≠ "" ∧ fs path = None)
    ∧ (∀ path e, V2Main.arg_output a = Some path → path ≠ "" → fs path = Some e →
         ∀ ev, ev ∈ evs → writes ev = false
                          ∧ ev ≠ V2Main.Print "Uploading records to Google Sheets...").
Proof.
intros Hdate. unfold V2Main.main. rewrite Hdate. unfold V2Main.main_body.
destruct (outcome (V2.scrape_for_date pages date)) as [results|e] eqn:Hscrape.
2:{ eexists _, 1%Z. split; [reflexivity|]. split; [by right|].
    assert (Hevs : ∀ ev, ev ∈ V2Main.banner ++ [] ++
                           [V2Main.Print ("Scraper failed: " +:+ exn_text e)] →
                   ev = V2Main.Print "Sarasota County Arrest Scraper v2"
                   ∨ ev = V2Main.Print ("Scraper failed: " +:+ exn_text e)).
    { intros ev. cbn [app V2Main.banner]. rewrite ?elem_of_cons, elem_of_nil. tauto. }
    split; [|split; [|split]].
    - split; [discriminate|]. intros [?|?]%Hevs; discriminate.
    - split; [intros _; left; eauto | done].
    - intros results path. split; [|by intros ([=] & _)].
      intros [?|?]%Hevs; discriminate.
    - intros path x _ _ _ ev [-> | ->]%Hevs; (split; [reflexivity | discriminate]). }
destruct (V2Main.dump_results fs (V2Main.arg_output a) results) as [devs [x|]] eqn:Hdump.
{ destruct (V2StatusFacts.dump_results_raised _ _ _ _ _ Hdump)
    as (-> & path & Hout & Hne & Hfs).
  eexists _, 1%Z. split; [reflexivity|]. split; [by right|].
  assert (Hevs : ∀ ev, ev ∈ V2Main.banner ++ ([V2Main.Print "Total records scraped"] ++ [])
                         ++ [V2Main.Print ("Scraper failed: " +:+ exn_text x)] →
                 ev = V2Main.Print "Sarasota County Arrest Scraper v2"
                 ∨ ev = V2Main.Print "Total records scraped"
                 ∨ ev = V2Main.Print ("Scraper failed: " +:+ exn_text x)).
  { intros ev. cbn [app V2Main.banner]. rewrite ?elem_of_cons, elem_of_nil. tauto. }
  split; [|split; [|split]].
  - split; [discriminate|]. intros [?|[?|?]]%Hevs; discriminate.
  - split; [intros _|done]. right. left. by exists results, path, x.
  - intros results' path'. split.
    + intros [?|[?|?]]%Hevs; discriminate.
    + intros (_ & Hout' & _ & Hfs'). rewrite Hout in Hout'. injection Hout' as <-.
      rewrite Hfs in Hfs'. discriminate.
  - intros path' e' _ _ _ ev [-> | [-> | ->]]%Hevs; (split; [reflexivity | discriminate]). }
destruct (V2StatusFacts.dump_results_returned _ _ _ _ Hdump) as (Hclosing & Hwritable & Hfile).
assert (Hd : V2Main.closing ∉ [V2Main.Print "Total records scraped"] ++ devs).
{ rewrite elem_of_app, list_elem_of_singleton. intros [?|?]; [discriminate | done]. }
assert (Hdumped : ∀ results' path,
          V2Main.FileDump path results' ∈ [V2Main.Print "Total records scraped"] ++ devs
          ↔ Ok results = Ok results' ∧ V2Main.arg_output a = Some path ∧ path ≠ ""
            ∧ fs path = None).
{ intros results' path. rewrite elem_of_app, list_elem_of_singleton, Hfile. split.
  - intros [?|(? & ? & ? & ->)]; [discriminate | done].
  - intros ([= <-] & ? & ? & ?). by right. }
assert (Hb : ∀ ev, ev ∈ V2Main.banner ↔ ev = V2Main.Print "Sarasota County Arrest Scraper v2").
{ intros ev. unfold V2Main.banner. apply list_elem_of_singleton. }
set (dumped := [V2Main.Print "Total records scraped"] ++ devs) in *.
clearbody dumped.
assert (Hlast : ∀ path e, V2Main.arg_output a = Some path → path ≠ "" →
                  fs path = Some e → False).
{ intros path e Hout Hne Hfs. by apply (Hwritable path e). }
destruct (negb (V2Main.arg_no_upload a) && negb (length results =? 0)%nat) eqn:Hup.
- apply andb_prop in Hup. destruct Hup as [Hno Hlen].
  pose proof (V2StatusFacts.upload_without_dump sh results) as Hnodump.
  destruct (V2Main.upload_to_sheets sh results) as [uevs [u|e]] eqn:Hupload.
  + eexists _, 0%Z. split; [reflexivity|]. split; [by left|].
    split; [|split; [|split]].
    * split; [intros _|done]. rewrite !elem_of_app, list_elem_of_singleton. tauto.
    * split; [discriminate|].
      intros [[e [=]]|[(results' & path & e & _ & Hout & Hne & Hfs)
                      |(results' & e & [= <-] & _ & _ & Hbody)]].
      { exfalso. by apply (Hlast path e). }
      exfalso. unfold V2Main.upload_to_sheets in Hupload.
      destruct results as [|r results]; [discriminate|].
      destruct (V2Main.upload_body sh (r :: results)) as [bevs [e'|]];
        [discriminate | discriminate].
    * intros results' path. rewrite <- Hdumped, !elem_of_app, Hb, list_elem_of_singleton.
      split; [|tauto]. intros [?|[?|[Hin|?]]]; try discriminate; [done|].
      exfalso. by apply (Hnodump path results').
    * intros path e Hout Hne Hfs. exfalso. by apply (Hlast path e).
  + destruct (V2StatusFacts.closing_not_in_failed_upload sh results e) as (Hc & Hne & Hbody);
      [by rewrite Hupload|].
    rewrite Hupload in Hc. cbn [fst] in Hc.
    eexists _, 1%Z. split; [reflexivity|]. split; [by right|].
    split; [|split; [|split]].
    * split; [discriminate|]. rewrite !elem_of_app, list_elem_of_singleton.
      unfold V2Main.banner. rewrite list_elem_of_singleton.
      intros [?|[[?|?]|?]]; try discriminate; contradiction.
    * split; [intros _|done]. right. right. exists results, e.
      split; [done|]. split; [done|]. split; [by destruct (V2Main.arg_no_upload a)|done].
    * intros results' path. rewrite <- Hdumped, !elem_of_app, Hb, list_elem_of_singleton.
      split; [|tauto]. intros [?|[[?|Hin]|?]]; try discriminate; [done|].
      exfalso. by apply (Hnodump path results').
    * intros path x Hout Hne' Hfs. exfalso. by apply (Hlast path x).
- eexists _, 0%Z. split; [reflexivity|]. split; [by left|].
  split; [|split; [|split]].
  + split; [intros _|done]. rewrite !elem_of_app, list_elem_of_singleton. tauto.
  + split; [discriminate|].
    intros [[e [=]]|[(results' & path & e & _ & Hout & Hne & Hfs)
                    |(results' & e & [= <-] & Hne & Hno & _)]].
    { exfalso. by apply (Hlast path e). }
    rewrite Hno in Hup. destruct results; [contradiction | discriminate].
  + intros results' path. rewrite <- Hdumped, !elem_of_app, Hb, list_elem_of_singleton.
    split; [|tauto]. intros [?|[?|?]]; try discriminate; done.
  + intros path e Hout Hne Hfs. exfalso. by apply (Hlast path e).
Qed.

Lemma v2_main_status_witness :
  (∃ evs, V2Main.main (Datetime.Date 2025 3 1) (fun _ => v2_sample_page) writable
            V2Main.locked_sheet (V2Main.Args (Some "2025-01-15") false (Some "out.json"))
          = (evs, Ok 1%Z))
  ∧ (V2Main.main (Datetime.Date 2025 3 1) (fun _ => v2_sample_page) read_only
       V2Main.filled_sheet (V2Main.Args (Some "2025-01-15") false (Some "out.json"))).2
    = Ok 1%Z
  ∧ (V2Main.main (Datetime.Date 2025 3 1) (fun _ => v2_sample_page) read_only
       V2Main.filled_sheet (V2Main.Args (Some "2025-01-15") false (Some ""))).2
    = Ok 0%Z.
Proof.
split; [|split; vm_compute; reflexivity].
destruct (v2_main_status (Datetime.Date 2025 3 1) (fun _ => v2_sample_page) writable
            V2Main.locked_sheet (V2Main.Args (Some "2025-01-15") false (Some "out.json"))
            "2025-01-15" eq_refl)
  as (evs & code & Hmain & _ & _ & Hone & _).
exists evs. rewrite Hmain. do 2 f_equal. apply Hone. right. right.
exists [V2.make "2025-01-15" "John Smith 01/01/1990" "2025-01-06T08:00:00"],
       (OtherError "The caller does not have permission").
split; [vm_compute; reflexivity|]. split; [discriminate|]. split; reflexivity.
Defined.

(** ** The setup check *)

Module SetupFacts.
Import Setup.

Lemma imports_from_verdict (m : machine) (pkgs : list string) :
  (imports_from m pkgs).2 = forallb (importable m) pkgs.
Proof.
induction pkgs as [|pkg pkgs IH]; [reflexivity|].
cbn [imports_from forallb]. destruct (importable m pkg); [|reflexivity].
destruct (imports_from m pkgs) as [lines ok]. exact IH.
Qed.

Lemma imports_from_lines (m : machine) (pkgs before after : list string) (pkg : string) :
  pkgs = before ++ pkg :: after →
  forallb (importable m) before = true → importable m pkg = false →
  (imports_from m pkgs).1
  = map (fun p => p +:+ " installed") before
    ++ [pkg +:+ " not installed - run: pip install -r requirements.txt"].
Proof.
intros -> Hbefore Hpkg. induction before as [|b before IH]; cbn [app imports_from map].
- by rewrite Hpkg.
- cbn [forallb] in Hbefore. apply andb_prop in Hbefore. destruct Hbefore as [Hb Hrest].
  rewrite Hb. specialize (IH Hrest).
  destruct (imports_from m (before ++ pkg :: after)) as [lines ok].
  cbn [fst] in *. by rewrite IH.
Qed.

End SetupFacts.

(** X28.  The setup check returns 0 exactly when the four packages can
    be imported and the browser starts; it runs the credentials and
    spreadsheet checks and lists their verdicts, but neither changes
    the status.  The import check stops at the first package that is
    missing: it reports the ones before it as installed and says
    nothing of the ones after.  A credentials file without the key
    client_email passes its check. *)
Theorem setup_verdict (m : Setup.machine) :
  ((Setup.main m).2 = 0%Z
     ↔ (∀ pkg, pkg ∈ Setup.PACKAGES → Setup.importable m pkg = true)
       ∧ Setup.chromium_launches m = true)
  ∧ ((Setup.main m).2 = 0%Z ∨ (Setup.main m).2 = 1%Z)
  ∧ map fst (Setup.main m).1
    = ["Imports"; "Playwright Browser"; "Credentials"; "Google Sheets"]
  ∧ (∀ before pkg after,
       Setup.PACKAGES = before ++ pkg :: after →
       (∀ b, b ∈ before → Setup.importable m b = true) →
       Setup.importable m pkg = false →
       (Setup.test_imports m).1
       = map (fun p => p +:+ " installed") before
         ++ [pkg +:+ " not installed - run: pip install -r requirements.txt"])
  ∧ (Setup.credentials m = Some (Ok false) → Setup.test_credentials m = true).
Proof.
split; [|split; [|split; [|split]]].
- unfold Setup.main, Setup.test_imports. cbn [take forallb snd].
  rewrite SetupFacts.imports_from_verdict, andb_true_r.
  unfold Setup.test_playwright_browser.
  destruct (forallb (Setup.importable m) Setup.PACKAGES) eqn:Hall.
  + rewrite forallb_forall in Hall.
    destruct (Setup.chromium_launches m); cbn [andb].
    * split; [intros _|done]. split; [|done].
      intros pkg Hin. apply Hall. by apply list_elem_of_In.
    * split; [discriminate | intros [_ [=]]].
  + cbn [andb]. split; [discriminate|]. intros [Hpk _].
    assert (forallb (Setup.importable m) Setup.PACKAGES = true) as Hyes.
    { apply forallb_forall. intros pkg Hin. apply Hpk. by apply list_elem_of_In. }
    congruence.
- unfold Setup.main. cbn [snd]. destruct (forallb _ _); [by left | by right].
- reflexivity.
- intros before pkg after Hsplit Hbefore Hpkg.
  apply (SetupFacts.imports_from_lines m _ before after pkg Hsplit); [|exact Hpkg].
  apply forallb_forall. intros b Hin. apply Hbefore. by apply list_elem_of_In.
- unfold Setup.test_credentials. by intros ->.
Qed.

Lemma setup_verdict_witness :
  (Setup.main Setup.fresh_machine).2 = 0%Z
  ∧ (Setup.main Setup.fresh_machine).1
    = [("Imports", true); ("Playwright Browser", true);
       ("Credentials", false); ("Google Sheets", false)].
Proof.
split; [|reflexivity].
apply (proj1 (setup_verdict Setup.fresh_machine)).
split; [intros pkg _; reflexivity | reflexivity].
Defined.

